(** * The statistics endpoint of app.py ([run_stats]) and its helpers

    A shallow embedding of [descriptives], [json_error] and [run_stats]
    (app.py, lines 52-158).  The table operations of pandas that the handler
    calls are written out as list functions in [Module Pandas]; the numeric
    procedures of scipy, statsmodels and scikit_posthocs, the CSV reader and
    the recogniser of numeric text are kept abstract in a [Backend] record.

    Numbers: a float64 is read as a real number, and NaN (the marker pandas
    uses for a missing entry) as an absent value, so a float of the program is
    an [option R] and a table cell is [NA], a number or a piece of text.

    Text: a [str] is held as the bytes of its UTF-8 encoding.  Trimming is
    written out on them for every character that Python counts as whitespace;
    putting in lower case is written out for ASCII text and taken from the
    [Backend] for any other text.

    The endpoints that keep CSV tables on the server ([append_csv] with
    [_append_row], [list_data], [download_csv], lines 160-246) are embedded
    in [Module Files] over an explicit file system, for a request run alone
    and for requests served in threads.

    Exceptions: a call that may raise returns a sum, the message of the
    exception on the left.  The handler catches what is raised inside the
    [try] block of step 5 and nothing else; an exception raised elsewhere
    leaves it, and the response is then [Uncaught]. *)

From Stdlib Require Import List String Ascii Bool Arith Lia Reals.
From Stdlib Require Import Permutation Sorted Lra ZArith.
Import ListNotations.

Open Scope string_scope.

(* ------------------------------------------------------------------ *)
(** ** Table cells and floats *)

(** A float64 as the program handles it: [None] is NaN. *)
Definition float := option R.

Definition NaN : float := None.

Definition flift2 (op : R -> R -> R) (a b : float) : float :=
  match a, b with
  | Some x, Some y => Some (op x y)
  | _, _ => None
  end.

Definition fadd := flift2 Rplus.
Definition fsub := flift2 Rminus.
Definition fmul := flift2 Rmult.
Definition fdiv := flift2 Rdiv.

(** One entry of a table read by [pd.read_csv]: a missing entry (NaN), a
    number, or text. *)
Inductive cell : Type :=
| NA
| Num (x : R)
| Str (s : string).

Definition cell_eq_dec (a b : cell) : {a = b} + {a <> b}.
Proof.
  destruct a as [|x|s], b as [|y|t];
    try (left; reflexivity); try (right; discriminate).
  - destruct (Req_dec_T x y) as [e|n];
      [left; now rewrite e | right; intros H; now inversion H].
  - destruct (string_dec s t) as [e|n];
      [left; now rewrite e | right; intros H; now inversion H].
Defined.

(** [a == b] on group labels.  It is only ever applied with a label that is
    not missing on one side. *)
Definition cell_eqb (a b : cell) : bool :=
  if cell_eq_dec a b then true else false.

Definition isna (c : cell) : bool :=
  match c with NA => true | _ => false end.

Definition notna (c : cell) : bool := negb (isna c).

(** The order in which [groupby] emits its keys (it sorts them): numbers by
    value, text by code units.  A column read from a CSV file holds numbers or
    text, never both; the order between the two kinds is fixed here only to
    make the comparison total. *)
Definition cell_leb (a b : cell) : bool :=
  match a, b with
  | Num x, Num y => if Rle_dec x y then true else false
  | Str s, Str t => String.leb s t
  | Num _, _ => true
  | Str _, NA => true
  | Str _, Num _ => false
  | NA, NA => true
  | NA, _ => false
  end.

(** The outcome of a call that may raise: the message of the exception
    ([str(e)]) or the value returned. *)
Definition raises (A : Type) : Type := (string + A)%type.

(* ------------------------------------------------------------------ *)
(** ** The pandas operations used by the handler *)

Module Pandas.

Definition Series := list cell.

(** A DataFrame: the column labels and the rows, each row holding one cell
    per label.  The labels of a table read by [pd.read_csv] are distinct (a
    name met again in the header is read with a numbered suffix); a label can
    only be carried by two columns after a selection that lists it twice. *)
Record DataFrame : Type := mkDataFrame {
  columns : list string;
  rows : list (list cell)
}.

(** Position of the first column carrying a label. *)
Fixpoint position (c : string) (labels : list string) : option nat :=
  match labels with
  | [] => None
  | l :: ls =>
      if String.eqb c l then Some 0
      else match position c ls with
           | Some i => Some (S i)
           | None => None
           end
  end.

(** [c in df.columns] *)
Definition has_column (df : DataFrame) (c : string) : bool :=
  existsb (String.eqb c) (columns df).

(** The cell of row [r] under label [c] (missing when the row is short). *)
Definition at_label (labels : list string) (c : string) (r : list cell) : cell :=
  match position c labels with
  | Some i => nth i r NA
  | None => NA
  end.

(** [df[[c1, ..., ck]].copy()]: the listed columns, in the listed order.
    The labels are known to be present where the handler does this. *)
Definition select (df : DataFrame) (labels : list string) : DataFrame :=
  {| columns := labels;
     rows := map (fun r => map (fun c => at_label (columns df) c r) labels)
                 (rows df) |}.

(** [df[c]] for a label of the table.  A label carried by one column gives
    that column as a Series; a label carried by several columns gives a
    DataFrame of all of them, of which only the number is kept here. *)
Inductive item : Type :=
| OneColumn (s : Series)
| ManyColumns (n : nat).

Definition column (df : DataFrame) (c : string) : Series :=
  map (at_label (columns df) c) (rows df).

Definition getitem (df : DataFrame) (c : string) : item :=
  let k := count_occ string_dec (columns df) c in
  if Nat.eqb k 1 then OneColumn (column df c) else ManyColumns k.

(** Replace the entry at position [i] of a row. *)
Fixpoint set_nth (i : nat) (x : cell) (r : list cell) : list cell :=
  match r, i with
  | [], _ => []
  | _ :: t, O => x :: t
  | y :: t, S j => y :: set_nth j x t
  end.

(** [df[c] = s] for a label carried by one column: the column is replaced
    row by row. *)
Definition setitem (df : DataFrame) (c : string) (s : Series) : DataFrame :=
  match position c (columns df) with
  | Some i =>
      {| columns := columns df;
         rows := map (fun rx => set_nth i (snd rx) (fst rx))
                     (combine (rows df) s) |}
  | None => df
  end.

(** [df.dropna(subset=[c])] *)
Definition dropna_subset (df : DataFrame) (c : string) : DataFrame :=
  {| columns := columns df;
     rows := filter (fun r => notna (at_label (columns df) c r)) (rows df) |}.

(** [s.dropna()] *)
Definition dropna (s : Series) : Series := filter notna s.

(** [s.unique()]: the distinct entries, each kept where it is first met. *)
Fixpoint unique (s : Series) : Series :=
  match s with
  | [] => []
  | x :: t => x :: filter (fun y => negb (cell_eqb x y)) (unique t)
  end.

(** [df[df[g] == k]]: the rows whose cell under [g] equals [k]. *)
Definition rows_where (df : DataFrame) (g : string) (k : cell) : DataFrame :=
  {| columns := columns df;
     rows := filter (fun r => cell_eqb (at_label (columns df) g r) k) (rows df) |}.

(** [s.astype(float)] on a column of numbers. *)
Definition astype_float (s : Series) : list R :=
  flat_map (fun c => match c with Num x => [x] | _ => [] end) s.

(** Sorting of the group keys (insertion sort on [cell_leb]). *)
Fixpoint insert_key (k : cell) (l : list cell) : list cell :=
  match l with
  | [] => [k]
  | h :: t => if cell_leb k h then k :: l else h :: insert_key k t
  end.

Fixpoint sort_keys (l : list cell) : list cell :=
  match l with
  | [] => []
  | h :: t => insert_key h (sort_keys t)
  end.

(** [df.groupby(g)[v]]: one entry per distinct key of column [g] that is not
    missing (rows with a missing key belong to no group), the keys sorted,
    each with the cells of column [v] on its rows. *)
Definition group_keys (df : DataFrame) (g : string) : list cell :=
  sort_keys (unique (dropna (column df g))).

Definition groupby (df : DataFrame) (g v : string) : list (cell * Series) :=
  map (fun k => (k, column (rows_where df g k) v)) (group_keys df g).

(** [.size()] counts the rows of a group, [count] its entries that are not
    missing. *)
Definition size (s : Series) : nat := List.length s.
Definition count (s : Series) : nat := List.length (dropna s).

Definition Rsum (xs : list R) : R := fold_right Rplus 0%R xs.

(** [mean]: the average of the entries that are not missing; NaN when there
    is none. *)
Definition mean (s : Series) : float :=
  let xs := astype_float s in
  match xs with
  | [] => NaN
  | _ => Some (Rsum xs / INR (List.length xs))%R
  end.

(** [std]: the sample standard deviation (one degree of freedom removed);
    NaN when fewer than two entries are present. *)
Definition std (s : Series) : float :=
  let xs := astype_float s in
  match xs with
  | [] | [_] => NaN
  | _ =>
      let m := (Rsum xs / INR (List.length xs))%R in
      Some (sqrt (Rsum (map (fun x => (x - m) * (x - m)) xs)
                  / INR (List.length xs - 1)))%R
  end.

(** [n.clip(lower=1)] *)
Definition clip_lower (lo n : nat) : nat := Nat.max n lo.

(** [g.reset_index()] on a frame whose index is named [name]: the index
    becomes the first column.  When a column already carries that name the
    insertion is refused with a ValueError. *)
Definition reset_index (name : string) (labels : list string)
  : raises (list string) :=
  if existsb (String.eqb name) labels
  then inl ("cannot insert " ++ name ++ ", already exists")
  else inr (name :: labels).

End Pandas.

(* ------------------------------------------------------------------ *)
(** ** Text helpers: [str.strip()] and [str.lower()]

    A string of the program is held as its UTF-8 bytes.  [strip] removes, at
    both ends, the characters that Python counts as whitespace: the ASCII ones
    (U+0009-U+000D, U+001C-U+0020) and U+0085, U+00A0, U+1680, U+2000-U+200A,
    U+2028, U+2029, U+202F, U+205F and U+3000, each met as the bytes that
    encode it.  Putting in lower case is written out for text made of ASCII
    characters only; for any other text it is what [str.lower()] gives, which
    is taken from the [Backend]. *)

Definition is_space (a : ascii) : bool :=
  let k := nat_of_ascii a in
  (((9 <=? k) && (k <=? 13)) || ((28 <=? k) && (k <=? 32)))%nat.

(** The whitespace characters encoded on two bytes: U+0085 and U+00A0. *)
Definition is_space2 (a b : ascii) : bool :=
  Nat.eqb (nat_of_ascii a) 194
  && (Nat.eqb (nat_of_ascii b) 133 || Nat.eqb (nat_of_ascii b) 160).

(** The whitespace characters encoded on three bytes: U+1680, U+2000-U+200A,
    U+2028, U+2029, U+202F, U+205F and U+3000. *)
Definition is_space3 (a b c : ascii) : bool :=
  let x := nat_of_ascii a in
  let y := nat_of_ascii b in
  let z := nat_of_ascii c in
  (Nat.eqb x 225 && Nat.eqb y 154 && Nat.eqb z 128)
  || (Nat.eqb x 226 && Nat.eqb y 128
      && (((128 <=? z) && (z <=? 138))%nat
          || Nat.eqb z 168 || Nat.eqb z 169 || Nat.eqb z 175))
  || (Nat.eqb x 226 && Nat.eqb y 129 && Nat.eqb z 159)
  || (Nat.eqb x 227 && Nat.eqb y 128 && Nat.eqb z 128).

(** The whitespace at the head of a text is removed; [sp2] and [sp3] tell the
    whitespace characters of two and of three bytes. *)
Fixpoint lstrip_by (sp2 : ascii -> ascii -> bool)
  (sp3 : ascii -> ascii -> ascii -> bool) (s : string) : string :=
  match s with
  | EmptyString => EmptyString
  | String a t =>
      if is_space a then lstrip_by sp2 sp3 t
      else
        match t with
        | String b u =>
            if sp2 a b then lstrip_by sp2 sp3 u
            else
              match u with
              | String c w => if sp3 a b c then lstrip_by sp2 sp3 w else s
              | EmptyString => s
              end
        | EmptyString => s
        end
  end.

Definition lstrip (s : string) : string := lstrip_by is_space2 is_space3 s.

(** The bytes of a text, last first. *)
Definition rev_string (s : string) : string :=
  string_of_list_ascii (rev (list_ascii_of_string s)).

(** The whitespace at the end of a text is removed: it is the whitespace at
    the head of the text read backwards. *)
Definition rstrip (s : string) : string :=
  rev_string (lstrip_by (fun a b => is_space2 b a)
                        (fun a b c => is_space3 c b a)
                        (rev_string s)).

Definition strip (s : string) : string := rstrip (lstrip s).

Definition lower_ascii (a : ascii) : ascii :=
  let k := nat_of_ascii a in
  if ((65 <=? k) && (k <=? 90))%nat then ascii_of_nat (k + 32) else a.

(** [s.lower()] for a text of ASCII characters. *)
Fixpoint ascii_lower (s : string) : string :=
  match s with
  | EmptyString => EmptyString
  | String a t => String (lower_ascii a) (ascii_lower t)
  end.

(** [s.isascii()] *)
Fixpoint is_ascii (s : string) : bool :=
  match s with
  | EmptyString => true
  | String a t => (nat_of_ascii a <? 128)%nat && is_ascii t
  end.

(* ------------------------------------------------------------------ *)
(** ** Requests, responses and the external procedures *)

(** The multipart request: the uploaded files and the form fields, by name. *)
Record request : Type := mkRequest {
  files : list (string * string);
  form : list (string * string)
}.

(** [d.get(k)] *)
Fixpoint get (k : string) (d : list (string * string)) : option string :=
  match d with
  | [] => None
  | (k', x) :: t => if String.eqb k k' then Some x else get k t
  end.

(** The names of a list, each kept where it is first met. *)
Fixpoint first_met (l : list string) : list string :=
  match l with
  | [] => []
  | x :: t => x :: filter (fun y => negb (String.eqb x y)) (first_met t)
  end.

(** [d.keys()]: a field sent several times is listed once, where it is first
    met. *)
Definition keys (d : list (string * string)) : list string :=
  first_met (map fst d).

(** [x or the empty string] *)
Definition or_empty (x : option string) : string :=
  match x with Some s => s | None => "" end.

(** A table turned into a mapping of mappings by [to_dict()]. *)
Definition table (K : Type) : Type := list (K * list (K * float)).

(** What the handler takes from pandas' parsers and from scipy, statsmodels
    and scikit_posthocs.  Each procedure either raises or returns. *)
Record Backend : Type := mkBackend {
  (** [pd.read_csv(f)] *)
  read_csv : string -> raises Pandas.DataFrame;
  (** the number a piece of text stands for, as [pd.to_numeric] reads it *)
  parse_float : string -> option R;
  (** [s.lower()] for a text that is not made of ASCII characters only *)
  unicode_lower : string -> string;
  (** [stats.ttest_ind(g1, g2, equal_var=False)], as [(float(t), float(p))] *)
  ttest_ind : list R -> list R -> raises (float * float);
  (** [sm.stats.anova_lm(smf.ols(formula, data=df).fit(), typ=2).to_dict()] *)
  anova_lm : string -> Pandas.DataFrame -> raises (table string);
  (** [str(pairwise_tukeyhsd(values, labels).summary())] *)
  pairwise_tukeyhsd : Pandas.Series -> Pandas.Series -> raises string;
  (** [stats.kruskal] on the samples, as [(float(H), float(p))] *)
  kruskal : list (list R) -> raises (float * float);
  (** [sp.posthoc_dunn(df, val_col, group_col, bonferroni).to_dict()] *)
  posthoc_dunn : Pandas.DataFrame -> string -> string -> raises (table cell)
}.

(** One record of the list that [to_dict] makes of [descriptives(...)]. *)
Module Desc.
Record record : Type := mkRecord {
  Group : cell;
  mean : float;
  std : float;
  n : nat;
  sem : float;
  ci95_lo : float;
  ci95_hi : float
}.
End Desc.

(** The value of a diagnostic field of a failure payload. *)
Inductive jvalue : Type :=
| JStr (s : string)
| JStrs (l : list string)
| JCells (l : list cell).

(** The fields a test adds to [out]. *)
Inductive test_fields : Type :=
| WelchFields (t p : float)
| AnovaFields (anova : table string) (tukey : string)
| KruskalFields (H p : float) (dunn : table cell).

(** The success payload [out] ([ok] is [True]). *)
Record out : Type := mkOut {
  groups : list cell;
  n_by_group : list (cell * nat);
  descriptives_of : list Desc.record;
  requested_test : string;
  test : string;
  fields : test_fields
}.

Inductive payload : Type :=
| Failure (error : string) (extra : list (string * jvalue))
| Success (o : out).

(** The [ok] field of a payload. *)
Definition ok (p : payload) : bool :=
  match p with Failure _ _ => false | Success _ => true end.

(** What the caller gets: a JSON payload with its HTTP status, or an exception
    that left the handler uncaught. *)
Inductive response : Type :=
| Json (body : payload) (status : nat)
| Uncaught (exc : string).

(** [json_error(msg, code=400, **extra)] *)
Definition json_error (msg : string) (code : nat) (extra : list (string * jvalue))
  : response :=
  Json (Failure msg extra) code.

(** [jsonify(out)] *)
Definition jsonify (o : out) : response := Json (Success o) 200.

(** The 1.96 of the confidence interval. *)
Definition z95 : R := 1.96%R.

(** Lines 53-58 of [descriptives]: the frame [g], indexed by the group
    values, one row per group. *)
Definition aggregate (df : Pandas.DataFrame) (group_col value_col : string)
  : list Desc.record :=
  map (fun g : cell * Pandas.Series =>
         let mean := Pandas.mean (snd g) in
         let std := Pandas.std (snd g) in
         let n := Pandas.count (snd g) in
         let sem := fdiv std (Some (sqrt (INR (Pandas.clip_lower 1 n)))) in
         {| Desc.Group := fst g;
            Desc.mean := mean;
            Desc.std := std;
            Desc.n := n;
            Desc.sem := sem;
            Desc.ci95_lo := fsub mean (fmul (Some z95) sem);
            Desc.ci95_hi := fadd mean (fmul (Some z95) sem) |})
      (Pandas.groupby df group_col value_col).

(** The columns of [g] when line 60 is reached. *)
Definition aggregate_columns : list string :=
  ["mean"; "std"; "n"; "sem"; "ci95_lo"; "ci95_hi"].

(** [descriptives(df, group_col, value_col)]: the frame [g] with its index,
    which is named after the group column, moved into a column that is then
    renamed [Group]. *)
Definition descriptives (df : Pandas.DataFrame) (group_col value_col : string)
  : raises (list Desc.record) :=
  match Pandas.reset_index group_col aggregate_columns with
  | inl e => inl e
  | inr _ => inr (aggregate df group_col value_col)
  end.

(* ------------------------------------------------------------------ *)
(** ** The handler *)

Section Handler.

Variable B : Backend.

(** [s.lower()] *)
Definition lower (s : string) : string :=
  if is_ascii s then ascii_lower s else unicode_lower B s.

(** [pd.to_numeric(arg, errors="coerce")]: a Series is converted entry by
    entry, text that is not a number becoming NaN; an argument with more than
    one dimension (a DataFrame) is refused with a TypeError. *)
Definition coerce (c : cell) : cell :=
  match c with
  | NA => NA
  | Num x => Num x
  | Str s => match parse_float B s with Some x => Num x | None => NA end
  end.

Definition to_numeric (arg : Pandas.item) : raises Pandas.Series :=
  match arg with
  | Pandas.OneColumn s => inr (map coerce s)
  | Pandas.ManyColumns _ => inl "arg must be a list, tuple, 1-d array, or Series"
  end.

(** Lines 103-105: the two columns are kept, the value column is coerced and
    the rows without a value are dropped.  None of this is inside a [try]. *)
Definition clean (df : Pandas.DataFrame) (group_col value_col : string)
  : raises Pandas.DataFrame :=
  let df := Pandas.select df [group_col; value_col] in
  match to_numeric (Pandas.getitem df value_col) with
  | inl e => inl e
  | inr s =>
      let df := Pandas.setitem df value_col s in
      inr (Pandas.dropna_subset df value_col)
  end.

(** How the [try] block of step 5 ends when nothing is raised: with a
    [return], or by falling through with the test's fields added to [out]. *)
Inductive flow : Type :=
| Return (r : response)
| Fallthrough (test : string) (f : test_fields).

(** The model formula of the ANOVA branch. *)
Definition formula (group_col value_col : string) : string :=
  "Q('" ++ value_col ++ "') ~ C(Q('" ++ group_col ++ "'))".

(** The values of one group: [df[df[group_col] == g][value_col].astype(float)] *)
Definition sample (df : Pandas.DataFrame) (group_col value_col : string) (g : cell)
  : list R :=
  Pandas.astype_float (Pandas.column (Pandas.rows_where df group_col g) value_col).

(** Lines 121-153, the body of the [try]. *)
Definition tests (df : Pandas.DataFrame) (group_col value_col test : string)
  (groups : list cell) : raises flow :=
  if String.eqb test "ttest" then
    if negb (Nat.eqb (List.length groups) 2) then
      inr (Return (json_error "t-test requires exactly 2 groups." 400
                              [("groups", JCells groups)]))
    else
      let g1 := sample df group_col value_col (nth 0 groups NA) in
      let g2 := sample df group_col value_col (nth 1 groups NA) in
      match ttest_ind B g1 g2 with
      | inl e => inl e
      | inr (t, p) => inr (Fallthrough "Welch t-test" (WelchFields t p))
      end
  else if String.eqb test "anova" then
    if Nat.ltb (List.length groups) 3 then
      inr (Return (json_error "One-way ANOVA requires ≥3 groups." 400
                              [("groups", JCells groups)]))
    else
      match anova_lm B (formula group_col value_col) df with
      | inl e => inl e
      | inr anova_tbl =>
          match pairwise_tukeyhsd B (Pandas.column df value_col)
                                    (Pandas.column df group_col) with
          | inl e => inl e
          | inr tukey => inr (Fallthrough "One-way ANOVA" (AnovaFields anova_tbl tukey))
          end
      end
  else if String.eqb test "kruskal" then
    if Nat.ltb (List.length groups) 3 then
      inr (Return (json_error "Kruskal–Wallis requires ≥3 groups." 400
                              [("groups", JCells groups)]))
    else
      let samples := map (sample df group_col value_col) groups in
      match kruskal B samples with
      | inl e => inl e
      | inr (H, p) =>
          match posthoc_dunn B df value_col group_col with
          | inl e => inl e
          | inr dunn => inr (Fallthrough "Kruskal–Wallis" (KruskalFields H p dunn))
          end
      end
  else
    inr (Return (json_error "Unknown test. Use: ttest | anova | kruskal." 400 [])).

(** Line 108: [df[group_col].dropna().unique().tolist()] *)
Definition groups_of (df : Pandas.DataFrame) (group_col : string) : list cell :=
  Pandas.unique (Pandas.dropna (Pandas.column df group_col)).

(** Line 109: [df.groupby(group_col)[value_col].size().to_dict()] *)
Definition n_by_group_of (df : Pandas.DataFrame) (group_col value_col : string)
  : list (cell * nat) :=
  map (fun g : cell * Pandas.Series => (fst g, Pandas.size (snd g)))
      (Pandas.groupby df group_col value_col).

(** Lines 107-158: what the handler does with the cleaned table.  The
    descriptives are computed before the [try] block is entered. *)
Definition respond (df : Pandas.DataFrame) (group_col value_col test : string)
  : response :=
  let groups := groups_of df group_col in
  let n_by_group := n_by_group_of df group_col value_col in
  match descriptives df group_col value_col with
  | inl e => Uncaught e
  | inr descr =>
      match tests df group_col value_col test groups with
      | inl e => json_error "Exception during analysis." 500 [("detail", JStr e)]
      | inr (Return r) => r
      | inr (Fallthrough name f) =>
          jsonify {| groups := groups;
                     n_by_group := n_by_group;
                     descriptives_of := descr;
                     requested_test := test;
                     test := name;
                     fields := f |}
      end
  end.

(** Lines 95-105: the columns are validated and the table is cleaned.  The
    result is the cleaned table, or the response the handler ends with. *)
Definition load_table (df : Pandas.DataFrame) (group_col value_col : string)
  : response + Pandas.DataFrame :=
  if negb (Pandas.has_column df group_col) || negb (Pandas.has_column df value_col)
  then
    inl (json_error "Column not found in CSV." 400
                    [("columns", JStrs (Pandas.columns df));
                     ("group_requested", JStr group_col);
                     ("value_requested", JStr value_col)])
  else
    match clean df group_col value_col with
    | inl e => inl (Uncaught e)
    | inr df => inr df
    end.

(** Lines 77-105: the inputs are read and checked and the table is loaded.
    The result is the cleaned table with the group column, the value column
    and the test as the handler uses them, or the response it ends with. *)
Definition load (req : request)
  : response + (Pandas.DataFrame * (string * string * string)) :=
  let f := get "file" (files req) in
  let group_col := strip (or_empty (get "group" (form req))) in
  let value_col := strip (or_empty (get "value" (form req))) in
  let test := lower (strip (or_empty (get "test" (form req)))) in
  match f with
  | None => inl (json_error "No CSV uploaded." 400 [])
  | Some f =>
      if String.eqb group_col "" || String.eqb value_col "" || String.eqb test ""
      then
        inl (json_error "Missing group/value/test parameters." 400
                        [("params", JStrs (keys (form req)))])
      else
        match read_csv B f with
        | inl e => inl (json_error "Could not read CSV." 400 [("detail", JStr e)])
        | inr df =>
            match load_table df group_col value_col with
            | inl r => inl r
            | inr df => inr (df, (group_col, value_col, test))
            end
        end
  end.

(** [run_stats()] *)
Definition run_stats (req : request) : response :=
  match load req with
  | inl r => r
  | inr (df, (group_col, value_col, test)) => respond df group_col value_col test
  end.

End Handler.

(* ------------------------------------------------------------------ *)
(** ** Vocabulary of the statements *)

(** The entries of a Series equal to [k], counted. *)
Definition occurrences (k : cell) (s : Pandas.Series) : nat :=
  List.length (filter (fun c => cell_eqb c k) s).

(** The position at which [k] is first met in a Series. *)
Fixpoint first_index (k : cell) (s : Pandas.Series) : nat :=
  match s with
  | [] => 0
  | x :: t => if cell_eqb x k then 0 else S (first_index k t)
  end.

(** [d[k]] on a mapping from labels to counts. *)
Fixpoint lookup (k : cell) (d : list (cell * nat)) : option nat :=
  match d with
  | [] => None
  | (k', c) :: t => if cell_eqb k' k then Some c else lookup k t
  end.

(** The rows left by cleaning, each as its group entry and its value. *)
Definition kept (B : Backend) (df : Pandas.DataFrame) (group_col value_col : string)
  : list (cell * R) :=
  flat_map (fun r =>
              match coerce B (Pandas.at_label (Pandas.columns df) value_col r) with
              | Num x => [(Pandas.at_label (Pandas.columns df) group_col r, x)]
              | _ => []
              end)
           (Pandas.rows df).

(** The rows whose entry under [value_col] is a number once coerced. *)
Definition parsable (B : Backend) (labels : list string) (value_col : string)
  (r : list cell) : bool :=
  match coerce B (Pandas.at_label labels value_col r) with
  | Num _ => true
  | _ => false
  end.

(** The table made of a group column and a value column. *)
Definition two_columns (group_col value_col : string) (ps : list (cell * R))
  : Pandas.DataFrame :=
  {| Pandas.columns := [group_col; value_col];
     Pandas.rows := map (fun p => [fst p; Num (snd p)]) ps |}.

(** A piece of text made of whitespace characters only (the empty text
    included): every character of it is one that [str.isspace] accepts. *)
Fixpoint blank (s : string) : bool :=
  match s with
  | EmptyString => true
  | String a t =>
      if is_space a then blank t
      else
        match t with
        | String b u =>
            if is_space2 a b then blank u
            else
              match u with
              | String c w => is_space3 a b c && blank w
              | EmptyString => false
              end
        | EmptyString => false
        end
  end.

(** The order of the group keys, as a relation. *)
Definition cell_le (a b : cell) : Prop := cell_leb a b = true.

(* ------------------------------------------------------------------ *)
(** ** A backend to run the handler on examples

    A reader for plain comma-separated text (a header line, then one line per
    row; an empty entry and the usual spellings of a missing entry are missing;
    a column whose other entries are all decimal numerals, with or without
    sign and point, holds numbers, any other column holds text), and
    placeholder statistics.  The examples send ASCII text only, and the
    backend puts any other text in lower case letter by letter on its ASCII
    letters. *)

Module Demo.

Definition digit (a : ascii) : option nat :=
  let k := nat_of_ascii a in
  if ((48 <=? k) && (k <=? 57))%nat then Some (k - 48) else None.

Fixpoint numeral (s : string) (acc : nat) : option nat :=
  match s with
  | EmptyString => Some acc
  | String a t =>
      match digit a with
      | Some d => numeral t (10 * acc + d)
      | None => None
      end
  end.

(** The digits before and after the first point of a numeral. *)
Fixpoint point (s : string) : string * option string :=
  match s with
  | EmptyString => (EmptyString, None)
  | String a t =>
      if Ascii.eqb a "." then (EmptyString, Some t)
      else let (i, f) := point t in (String a i, f)
  end.

(** A numeral without sign: digits, or digits with a point among them. *)
Definition unsigned (s : string) : option R :=
  match point s with
  | (i, None) =>
      match i with
      | EmptyString => None
      | _ => option_map INR (numeral i 0)
      end
  | (i, Some f) =>
      match i, f with
      | EmptyString, EmptyString => None
      | _, _ =>
          match numeral i 0, numeral f 0 with
          | Some a, Some b =>
              Some (INR a + INR b / INR (10 ^ String.length f))%R
          | _, _ => None
          end
      end
  end.

(** The number a field stands for: a decimal numeral with an optional sign. *)
Definition parse_numeral (s : string) : option R :=
  match s with
  | String "-" t => option_map Ropp (unsigned t)
  | String "+" t => unsigned t
  | _ => unsigned s
  end.

(** [s.split(sep)] *)
Fixpoint split (sep : ascii) (s : string) : list string :=
  match s with
  | EmptyString => [EmptyString]
  | String a t =>
      if Ascii.eqb a sep then EmptyString :: split sep t
      else match split sep t with
           | [] => [String a EmptyString]
           | w :: ws => String a w :: ws
           end
  end.

(** The fields that [pd.read_csv] reads as missing. *)
Definition na_values : list string :=
  [""; "#N/A"; "#N/A N/A"; "#NA"; "-1.#IND"; "-1.#QNAN"; "-NaN"; "-nan";
   "1.#IND"; "1.#QNAN"; "<NA>"; "N/A"; "NA"; "NULL"; "NaN"; "None"; "n/a";
   "nan"; "null"].

Definition is_na (s : string) : bool := existsb (String.eqb s) na_values.

(** A column is read as numbers when each of its fields is missing or a
    numeral; otherwise its fields stay text. *)
Definition numeric_column (rows : list (list string)) (j : nat) : bool :=
  forallb (fun r => let s := nth j r "" in
                    is_na s || match parse_numeral s with
                               | Some _ => true
                               | None => false
                               end)
          rows.

Definition read_cell (numeric : bool) (s : string) : cell :=
  if is_na s then NA
  else if numeric
       then match parse_numeral s with
            | Some x => Num x
            | None => Str s
            end
       else Str s.

Fixpoint read_row (rows : list (list string)) (j : nat) (r : list string)
  : list cell :=
  match r with
  | [] => []
  | s :: t => read_cell (numeric_column rows j) s :: read_row rows (S j) t
  end.

Definition newline : ascii := ascii_of_nat 10.

Definition quoted (s : string) : bool :=
  existsb (fun a => Ascii.eqb a (ascii_of_nat 34) || Ascii.eqb a (ascii_of_nat 13))
          (list_ascii_of_string s).

(** A reader for files of plain fields: a header line, then one line per row
    with as many fields as the header; empty lines are skipped and each column
    is typed as a whole.  A file with a quoted field, a carriage return or a
    row of another width is refused. *)
Definition read_text (f : string) : raises Pandas.DataFrame :=
  if quoted f then inl "Error tokenizing data"
  else
    match filter (fun l => negb (String.eqb l "")) (split newline f) with
    | [] => inl "No columns to parse from file"
    | h :: t =>
        let header := split "," h in
        let rows := map (split ",") t in
        if forallb (fun r => Nat.eqb (List.length r) (List.length header)) rows
        then inr {| Pandas.columns := header;
                    Pandas.rows := map (read_row rows 0) rows |}
        else inl "Error tokenizing data"
    end.

(** The lines of a file, joined. *)
Definition unlines (ls : list string) : string :=
  fold_right (fun l acc => l ++ String newline acc) "" ls.

Definition backend : Backend :=
  {| read_csv := read_text;
     parse_float := parse_numeral;
     unicode_lower := ascii_lower;
     ttest_ind := fun _ _ => inr (Some 0%R, Some 1%R);
     anova_lm := fun _ _ => inr [];
     pairwise_tukeyhsd := fun _ _ => inr "";
     kruskal := fun _ => inr (Some 0%R, Some 1%R);
     posthoc_dunn := fun _ _ _ => inr [] |}.

(** A request carrying a file given by its lines and the three parameters. *)
Definition post (lines : list string) (group value test : string) : request :=
  {| files := [("file", unlines lines)];
     form := [("group", group); ("value", value); ("test", test)] |}.

(** Scenario A of the specification: two groups of two rows, t-test. *)
Definition scenario_a : request :=
  post ["group,value"; "A,1"; "A,2"; "B,3"; "B,4"] "group" "value" "ttest".

(** Scenario B: three groups of two rows, ANOVA. *)
Definition scenario_b : request :=
  post ["group,value"; "A,1"; "A,2"; "B,3"; "B,4"; "C,5"; "C,6"]
       "group" "value" "anova".

(** Scenario C: one value is not a number. *)
Definition scenario_c : request :=
  post ["group,value"; "A,1"; "A,oops"; "A,2"; "B,3"; "B,4"]
       "group" "value" "ttest".

(** Scenario D: the requested group column is not in the header. *)
Definition scenario_d : request :=
  post ["group,value"; "A,1"; "B,3"] "cohort" "value" "ttest".

(** The t-test asked on a single group. *)
Definition one_group : request :=
  post ["group,value"; "A,1"; "A,2"] "group" "value" "ttest".


(** The same column asked as group and as value. *)
Definition same_column : request :=
  post ["group,value"; "A,1"; "B,3"] "value" "value" "ttest".

(** A row whose group entry is missing. *)
Definition missing_group : request :=
  post ["group,value"; "A,1"; "B,2"; ",3"] "group" "value" "ttest".

(** A group column that bears the name of a column of the descriptives. *)
Definition reserved_label : request :=
  post ["n,value"; "low,1"; "low,2"; "high,3"; "high,4"] "n" "value" "ttest".

(** The t-test asked on a single group, the group column bearing the name of
    a column of the descriptives. *)
Definition reserved_label_one_group : request :=
  post ["n,value"; "low,1"; "low,2"] "n" "value" "ttest".

(** A group with a single row. *)
Definition single_row : request :=
  post ["group,value"; "A,1"; "B,2"; "B,3"] "group" "value" "ttest".

End Demo.

(* ------------------------------------------------------------------ *)
(** ** The CSV tables kept on the server: [_append_row], [append_csv],
    [list_data], [download_csv] (app.py, lines 160-246)

    The file system is a finite map from the location of a file to the file;
    what a path designates, and how paths are joined and made relative, is
    left to the operating system ([Os]).  The data directory is there and can
    be written to (line 26 makes it), and what a path designates there is a
    regular file that can be opened, or nothing.  A file holds text, and may
    be one that cannot be decoded as UTF-8.

    A [str] is held as the bytes of its UTF-8 encoding; a lone surrogate, which
    [json.loads] lets in and UTF-8 refuses, is held as the three bytes the same
    scheme gives it (ED, then A0-BF, then 80-BF), so that the text that cannot
    be written to a file is told from the text that can.

    The server answers requests in threads.  [_append_row] tests whether the
    file is there (line 177) before it takes [_csv_lock] (line 178), so another
    request may be served between the test and the write: [_append_row] and
    [append_csv] below are the functions run with no other request in
    between, [arrive] and [commit] are their two parts, and [run] serves
    requests in any interleaving of the parts. *)

Module Files.

(** A value decoded from JSON, as far as the handlers look at it: [None], a
    string, a dict, or any other value (a number, a boolean, a list), of which
    only the truth value, the name of the type and the text [str] gives are
    kept. *)
#[warnings="-register-all"]
Inductive pyval : Type :=
| PyNone
| PyStr (s : string)
| PyDict (d : list (string * pyval))
| PyOther (truthy : bool) (type_name : string) (str : string).

Definition truth (x : pyval) : bool :=
  match x with
  | PyNone => false
  | PyStr s => negb (String.eqb s "")
  | PyDict d => match d with [] => false | _ => true end
  | PyOther b _ _ => b
  end.

Definition type_name_of (x : pyval) : string :=
  match x with
  | PyNone => "NoneType"
  | PyStr _ => "str"
  | PyDict _ => "dict"
  | PyOther _ t _ => t
  end.

(** [d.get(k)] on a dict: [None] when the key is absent. *)
Fixpoint dict_get (k : string) (d : list (string * pyval)) : pyval :=
  match d with
  | [] => PyNone
  | (k', x) :: t => if String.eqb k k' then x else dict_get k t
  end.

(** [x or y] *)
Definition por (x y : pyval) : pyval := if truth x then x else y.

(** The message of the AttributeError raised by [x.attr] on a value without
    that attribute. *)
Definition no_attribute (x : pyval) (attr : string) : string :=
  "'" ++ type_name_of x ++ "' object has no attribute '" ++ attr ++ "'".

(** [x.get(k)] *)
Definition pget (x : pyval) (k : string) : raises pyval :=
  match x with
  | PyDict d => inr (dict_get k d)
  | _ => inl (no_attribute x "get")
  end.

(** [x.strip()] *)
Definition pstrip (x : pyval) : raises string :=
  match x with
  | PyStr s => inr (strip s)
  | _ => inl (no_attribute x "strip")
  end.

(** What the handlers take from the operating system and from the [json]
    module. *)
Record Os : Type := mkOs {
  (** [os.path.join(DATA_DIR, name)] *)
  join_data : string -> string;
  (** [os.path.relpath(path, ROOT)] *)
  relpath_root : string -> string;
  (** the location of the file that a path designates *)
  locate : string -> string;
  (** [str(d)] for a dict *)
  str_dict : list (string * pyval) -> string;
  (** [json.loads(s)] *)
  json_loads : string -> raises pyval;
  (** [str(e)] for the UnicodeEncodeError raised when the text cannot be
      encoded *)
  encode_error : string -> string
}.

(** [str(x)] *)
Definition pstr (os : Os) (x : pyval) : string :=
  match x with
  | PyNone => "None"
  | PyStr s => s
  | PyDict d => str_dict os d
  | PyOther _ _ s => s
  end.

(** A file: its name in its directory, whether [glob] finds it among the
    [*.csv] files of the data directory, whether its content can be decoded,
    and its content. *)
Record node : Type := mkNode {
  name : string;
  listed : bool;
  decodable : bool;
  text : string
}.

Definition fs : Type := list (string * node).

Fixpoint lookup_file (loc : string) (s : fs) : option node :=
  match s with
  | [] => None
  | (l, nd) :: t => if String.eqb l loc then Some nd else lookup_file loc t
  end.

(** The file at [loc] is replaced, or added when there is none. *)
Fixpoint put_file (loc : string) (nd : node) (s : fs) : fs :=
  match s with
  | [] => [(loc, nd)]
  | (l, x) :: t =>
      if String.eqb l loc then (l, nd) :: t else (l, x) :: put_file loc nd t
  end.

(** Lines 162-166. *)
Definition ALLOWED_CSV : list (string * list string) :=
  [("animal_log",
    ["date"; "mouse_id"; "strain"; "sex"; "dob"; "age_wk"; "treatment";
     "weight_g"; "notes"]);
   ("lab_notebook",
    ["date"; "title"; "experiment_id"; "project"; "tags"; "body_md"; "links";
     "author"; "notes"]);
   ("meeting_notes",
    ["date"; "title"; "attendees"; "project"; "agenda"; "decisions"; "actions";
     "owner"; "next_meeting"])].

(** [ALLOWED_CSV.get(csv_name)] *)
Fixpoint allowed (csv_name : string) (tables : list (string * list string))
  : option (list string) :=
  match tables with
  | [] => None
  | (k, cols) :: t => if String.eqb csv_name k then Some cols else allowed csv_name t
  end.

(** *** The [csv] writer (the excel dialect, minimal quoting) *)

Definition comma : ascii := ascii_of_nat 44.
Definition dquote : ascii := ascii_of_nat 34.
Definition CR : ascii := ascii_of_nat 13.
Definition LF : ascii := ascii_of_nat 10.
Definition CRLF : string := String CR (String LF EmptyString).

Definition linebreak (a : ascii) : bool := Ascii.eqb a CR || Ascii.eqb a LF.

Definition special (a : ascii) : bool :=
  Ascii.eqb a comma || Ascii.eqb a dquote || linebreak a.

Fixpoint has_special (s : string) : bool :=
  match s with
  | EmptyString => false
  | String a t => special a || has_special t
  end.

(** Every quote character is written twice. *)
Fixpoint double_quotes (s : string) : string :=
  match s with
  | EmptyString => EmptyString
  | String a t =>
      if Ascii.eqb a dquote then String a (String a (double_quotes t))
      else String a (double_quotes t)
  end.

Definition quote_field (s : string) : string :=
  if has_special s
  then String dquote (double_quotes s ++ String dquote EmptyString)
  else s.

Fixpoint join_fields (fields : list string) : string :=
  match fields with
  | [] => EmptyString
  | [f] => f
  | f :: t => f ++ String comma (join_fields t)
  end.

(** [writer.writerow(fields)]: the text written.  A row made of one empty
    field is written as a pair of quotes. *)
Definition csv_line (fields : list string) : string :=
  match fields with
  | [EmptyString] => String dquote (String dquote CRLF)
  | _ => join_fields (map quote_field fields) ++ CRLF
  end.

(** *** Text that cannot be encoded *)

(** The text holds a lone surrogate: [f.write] raises UnicodeEncodeError. *)
Fixpoint has_surrogate (s : string) : bool :=
  match s with
  | EmptyString => false
  | String a t =>
      match t with
      | String b _ =>
          (Nat.eqb (nat_of_ascii a) 237
           && ((160 <=? nat_of_ascii b) && (nat_of_ascii b <=? 191))%nat)
          || has_surrogate t
      | EmptyString => false
      end
  end.

(** *** [_append_row] *)

(** The dict [cleaned], as the list of its values in the order of
    [cols + ["_ts"]]. *)
Definition cleaned (os : Os) (cols : list string) (row : list (string * pyval))
  (ts : string) : list string :=
  map (fun c => match dict_get c row with
                | PyNone => EmptyString
                | x => pstr os x
                end) cols
  ++ [ts].

(** [os.path.exists(path)] *)
Definition path_exists (os : Os) (s : fs) (path : string) : bool :=
  match lookup_file (locate os path) s with
  | Some _ => true
  | None => false
  end.

(** What lines 171-177 leave for the block of lines 178-182: the name and the
    path of the file, the text that [writeheader] writes, the text that
    [writerow] writes, and [new_file]. *)
Record ticket : Type := mkTicket {
  t_name : string;
  t_path : string;
  t_header : string;
  t_row : string;
  t_new_file : bool
}.

(** Lines 171-177, the clock reading [ts] at line 175. *)
Definition prepare (os : Os) (ts : string) (s : fs) (csv_name : string)
  (row : list (string * pyval)) : raises ticket :=
  match allowed csv_name ALLOWED_CSV with
  | None => inl ("Unknown csv_name: " ++ csv_name)
  | Some cols =>
      let path := join_data os (csv_name ++ ".csv") in
      inr {| t_name := csv_name ++ ".csv";
             t_path := path;
             t_header := csv_line (cols ++ ["_ts"]);
             t_row := csv_line (cleaned os cols row ts);
             t_new_file := negb (path_exists os s path) |}
  end.

(** [open(path, "a", ...)]: a file that is not there is made, empty. *)
Definition open_append (loc name : string) (s : fs) : fs :=
  match lookup_file loc s with
  | Some _ => s
  | None =>
      put_file loc {| name := name; listed := true; decodable := true;
                      text := EmptyString |} s
  end.

(** The text is put at the end of the file at [loc]. *)
Definition append_text (loc t : string) (s : fs) : fs :=
  match lookup_file loc s with
  | Some nd =>
      put_file loc {| name := name nd; listed := listed nd;
                      decodable := decodable nd; text := text nd ++ t |} s
  | None => s
  end.

(** [f.write(t)] on the file opened at [loc]: the text is encoded, which
    raises when it holds a lone surrogate, and put at the end of the file. *)
Definition write (os : Os) (loc t : string) (s : fs) : raises fs :=
  if has_surrogate t then inl (encode_error os t) else inr (append_text loc t s).

(** Lines 178-183, run under [_csv_lock].  The result is the path returned or
    the exception raised, with the file system left: when a write raises, the
    file is closed on the way out with what was written before. *)
Definition locked (os : Os) (s : fs) (t : ticket) : raises string * fs :=
  let loc := locate os (t_path t) in
  let s0 := open_append loc (t_name t) s in
  match (if t_new_file t then write os loc (t_header t) s0 else inr s0) with
  | inl e => (inl e, s0)
  | inr s1 =>
      match write os loc (t_row t) s1 with
      | inl e => (inl e, s1)
      | inr s2 => (inr (t_path t), s2)
      end
  end.

(** [_append_row(csv_name, row)], no other request being served between line
    177 and line 178. *)
Definition _append_row (os : Os) (ts : string) (s : fs) (csv_name : string)
  (row : list (string * pyval)) : raises string * fs :=
  match prepare os ts s csv_name row with
  | inl e => (inl e, s)
  | inr t => locked os s t
  end.

(** *** [append_csv] *)

(** The body of the request: JSON (with what [request.get_json(force=True)]
    gives: the value decoded, or the exception raised), or form fields. *)
Inductive body : Type :=
| JsonBody (parsed : raises pyval)
| FormBody (form : list (string * string)).

Inductive append_reply : Type :=
| Appended (path : string)
| Refused (error : string) (status : nat).

Definition opt_str (x : option string) : pyval :=
  match x with Some s => PyStr s | None => PyNone end.

(** Lines 197-205: the payload. *)
Definition payload_of (os : Os) (b : body) : raises pyval :=
  match b with
  | JsonBody parsed => parsed
  | FormBody form =>
      let csv_name := opt_str (get "csv_name" form) in
      match get "row" form with
      | Some r =>
          match json_loads os r with
          | inl e => inl e
          | inr x => inr (PyDict [("csv_name", csv_name); ("row", x)])
          end
      | None => inr (PyDict [("csv_name", csv_name); ("row", PyNone)])
      end
  end.

(** Lines 197-210: the name of the table and the row, or the answer that ends
    the request there. *)
Definition inputs (os : Os) (b : body)
  : raises (append_reply + string * list (string * pyval)) :=
  match payload_of os b with
  | inl e => inl e
  | inr payload =>
      match pget payload "csv_name" with
      | inl e => inl e
      | inr c =>
          match pstrip (por c (PyStr "")) with
          | inl e => inl e
          | inr csv_name =>
              match pget payload "row" with
              | inl e => inl e
              | inr r =>
                  match por r (PyDict []) with
                  | PyDict row =>
                      if String.eqb csv_name ""
                      then inr (inl (Refused "csv_name and row required" 400))
                      else inr (inr (csv_name, row))
                  | _ => inr (inl (Refused "csv_name and row required" 400))
                  end
              end
          end
      end
  end.

(** Lines 196-214: everything is inside the [try]; the result is the answer
    returned or the exception raised, with the file system left. *)
Definition try_append (os : Os) (ts : string) (s : fs) (b : body)
  : raises append_reply * fs :=
  match inputs os b with
  | inl e => (inl e, s)
  | inr (inl r) => (inr r, s)
  | inr (inr (csv_name, row)) =>
      match _append_row os ts s csv_name row with
      | (inl e, s') => (inl e, s')
      | (inr saved, s') => (inr (Appended (relpath_root os saved)), s')
      end
  end.

(** [append_csv()], no other request being served meanwhile. *)
Definition append_csv (os : Os) (ts : string) (s : fs) (b : body)
  : append_reply * fs :=
  match try_append os ts s b with
  | (inl e, s') => (Refused e 500, s')
  | (inr r, s') => (r, s')
  end.

(** *** Requests served in threads *)

(** A request that has come to line 178 waits for the lock with its ticket;
    otherwise it is answered. *)
Inductive arrival : Type :=
| Answered (r : append_reply)
| Waiting (t : ticket).

(** [append_csv()] up to line 177 of [_append_row]. *)
Definition arrive (os : Os) (ts : string) (s : fs) (b : body) : arrival :=
  match inputs os b with
  | inl e => Answered (Refused e 500)
  | inr (inl r) => Answered r
  | inr (inr (csv_name, row)) =>
      match prepare os ts s csv_name row with
      | inl e => Answered (Refused e 500)
      | inr t => Waiting t
      end
  end.

(** [append_csv()] from line 178 of [_append_row] on. *)
Definition commit (os : Os) (s : fs) (t : ticket) : append_reply * fs :=
  match locked os s t with
  | (inl e, s') => (Refused e 500, s')
  | (inr saved, s') => (Appended (relpath_root os saved), s')
  end.

(** What happens on the server: the request [id] comes in and runs up to the
    lock, the clock reading [ts]; or the request [id], which waits for the
    lock, takes it and runs to its end. *)
Inductive event : Type :=
| Arrive (id : nat) (ts : string) (b : body)
| Commit (id : nat).

(** The files, the requests that wait for the lock, and the answers given. *)
Record server : Type := mkServer {
  disk : fs;
  waiting : list (nat * ticket);
  answered : list (nat * append_reply)
}.

(** The first ticket of request [id] is taken from the list. *)
Fixpoint take (id : nat) (w : list (nat * ticket))
  : option (ticket * list (nat * ticket)) :=
  match w with
  | [] => None
  | (i, t) :: rest =>
      if Nat.eqb i id then Some (t, rest)
      else match take id rest with
           | Some (t', rest') => Some (t', (i, t) :: rest')
           | None => None
           end
  end.

Definition step (os : Os) (sv : server) (e : event) : server :=
  match e with
  | Arrive id ts b =>
      match arrive os ts (disk sv) b with
      | Answered r =>
          {| disk := disk sv; waiting := waiting sv;
             answered := answered sv ++ [(id, r)] |}
      | Waiting t =>
          {| disk := disk sv; waiting := waiting sv ++ [(id, t)];
             answered := answered sv |}
      end
  | Commit id =>
      match take id (waiting sv) with
      | None => sv
      | Some (t, rest) =>
          let (r, s') := commit os (disk sv) t in
          {| disk := s'; waiting := rest; answered := answered sv ++ [(id, r)] |}
      end
  end.

(** The events of a list, one after the other. *)
Definition run (os : Os) (sv : server) (events : list event) : server :=
  fold_left (step os) events sv.

(** A server that has just started, with the files [s]. *)
Definition started (s : fs) : server :=
  {| disk := s; waiting := []; answered := [] |}.

(** *** [list_data] *)

(** The lines a text file is read in, counted: a line ends with LF, with CR or
    with CR followed by LF, and what follows the last end of line is one more
    line when it is not empty. *)
Fixpoint count_lines (s : string) (pending : bool) : nat :=
  match s with
  | EmptyString => if pending then 1 else 0
  | String a t =>
      if Ascii.eqb a LF then S (count_lines t false)
      else if Ascii.eqb a CR then
        match t with
        | String b t' =>
            if Ascii.eqb b LF then S (count_lines t' false)
            else S (count_lines t false)
        | EmptyString => 1
        end
      else count_lines t true
  end.

(** Lines 223-229 for one file. *)
Definition rows_of (nd : node) : option Z :=
  if decodable nd then
    let n := (Z.of_nat (count_lines (text nd) false) - 1)%Z in
    Some (if (n <? 0)%Z then 0%Z else n)
  else None.

(** [list_data()]: the items, in the order in which [glob] yields the files. *)
Definition list_data (s : fs) : list (string * option Z) :=
  map (fun e => (name (snd e), rows_of (snd e)))
      (filter (fun e => listed (snd e)) s).

(** *** [download_csv] *)

(** [s.endswith(suffix)] *)
Fixpoint ends_with (suffix s : string) : bool :=
  if String.eqb s suffix then true
  else match s with
       | EmptyString => false
       | String _ t => ends_with suffix t
       end.

Inductive download_reply : Type :=
| Error (r : response)
| Attachment (data mimetype disposition : string).

(** The value of the Content-Disposition header. *)
Definition disposition (name : string) : string :=
  "attachment; filename=" ++ String dquote (name ++ String dquote EmptyString).

(** [download_csv()], [arg] being [request.args.get("name")]. *)
Definition download_csv (os : Os) (s : fs) (arg : option string) : download_reply :=
  let name := match arg with Some n => n | None => EmptyString end in
  if negb (ends_with ".csv" name) then
    Error (json_error "Specify ?name=<file>.csv" 400 [])
  else
    match lookup_file (locate os (join_data os name)) s with
    | None => Error (json_error "File not found" 404 [])
    | Some nd => Attachment (text nd) "text/csv" (disposition name)
    end.

(** *** Vocabulary of the statements *)

(** Pieces of text put end to end. *)
Definition flat_text (ls : list string) : string :=
  fold_right String.append EmptyString ls.

(** The file that [open] gives: the one that was there, or a new, empty one. *)
Definition opened (name : string) (old : option node) : node :=
  match old with
  | Some nd => nd
  | None => {| name := name; listed := true; decodable := true;
               text := EmptyString |}
  end.

(** What a request writes to the file of a table: the header of the table, or
    a row. *)
Inductive written : Type :=
| Header
| Row (fields : list string).

Definition written_text (cols : list string) (w : written) : string :=
  match w with
  | Header => csv_line (cols ++ ["_ts"])
  | Row fields => csv_line fields
  end.

Definition is_row (w : written) : bool :=
  match w with
  | Header => false
  | Row _ => true
  end.

(** A row has one field per column and one for the time. *)
Definition well_sized (cols : list string) (w : written) : Prop :=
  match w with
  | Header => True
  | Row fields => List.length fields = S (List.length cols)
  end.

(** The file of table [c] is absent and [n] is 0, or it holds the header of
    the table and then headers and rows, [n] of them rows, and nothing
    else. *)
Definition lines_in (os : Os) (s : fs) (c : string) (cols : list string) (n : nat)
  : Prop :=
  (lookup_file (locate os (join_data os (c ++ ".csv"))) s = None /\ n = 0)
  \/ (exists nd ws,
         lookup_file (locate os (join_data os (c ++ ".csv"))) s = Some nd
         /\ text nd
            = csv_line (cols ++ ["_ts"]) ++ flat_text (map (written_text cols) ws)
         /\ List.length (filter is_row ws) = n
         /\ Forall (well_sized cols) ws).

(** Every table of the whitelist is in that state, with [k c] rows for table
    [c]. *)
Definition shaped (os : Os) (s : fs) (k : string -> nat) : Prop :=
  forall c cols, allowed c ALLOWED_CSV = Some cols -> lines_in os s c cols (k c).

(** A ticket made for a table of the whitelist: the header and the row are
    those of the table, and the file was there when [new_file] says so. *)
Definition sound (os : Os) (s : fs) (t : ticket) : Prop :=
  exists c cols fields,
    allowed c ALLOWED_CSV = Some cols
    /\ t_name t = c ++ ".csv"
    /\ t_path t = join_data os (c ++ ".csv")
    /\ t_header t = csv_line (cols ++ ["_ts"])
    /\ t_row t = csv_line fields
    /\ List.length fields = S (List.length cols)
    /\ (t_new_file t = false ->
        lookup_file (locate os (join_data os (c ++ ".csv"))) s <> None).

(** The rows of the three tables, counted. *)
Definition total (k : string -> nat) : nat :=
  k "animal_log" + k "lab_notebook" + k "meeting_notes".

(** The requests of a list that were answered ok, counted. *)
Definition appended_count (rs : list append_reply) : nat :=
  List.length (filter (fun r => match r with Appended _ => true | _ => false end) rs).

(** No two tables are kept in the same file. *)
Definition separate (os : Os) : Prop :=
  forall c c', allowed c ALLOWED_CSV <> None -> allowed c' ALLOWED_CSV <> None ->
               locate os (join_data os (c ++ ".csv"))
               = locate os (join_data os (c' ++ ".csv")) ->
               c = c'.

(** A piece of text without end of line. *)
Fixpoint one_line (s : string) : bool :=
  match s with
  | EmptyString => true
  | String a t => negb (linebreak a) && one_line t
  end.

(** An operating system for the examples: paths are joined with a slash and
    designate the file of that very path. *)
Definition plain_os : Os :=
  {| join_data := fun n => "data/" ++ n;
     relpath_root := fun p => p;
     locate := fun p => p;
     str_dict := fun _ => "{...}";
     json_loads := fun s =>
       if String.eqb s "{}" then inr (PyDict [])
       else inl "Expecting value: line 1 column 1 (char 0)";
     encode_error := fun _ => "'utf-8' codec can't encode: surrogates not allowed" |}.

(** A lone surrogate (U+D800), as it is held. *)
Definition lone_surrogate : string :=
  String (ascii_of_nat 237) (String (ascii_of_nat 160)
    (String (ascii_of_nat 128) EmptyString)).

End Files.

(* ------------------------------------------------------------------ *)
(** * Properties *)

(** ** Cells and the list operations of pandas *)

Lemma cell_eqb_eq (a b : cell) : cell_eqb a b = true <-> a = b.
Proof.
  unfold cell_eqb; destruct (cell_eq_dec a b); split; intros; congruence.
Qed.

Lemma cell_eqb_refl (a : cell) : cell_eqb a a = true.
Proof. now apply cell_eqb_eq. Qed.

Lemma cell_eqb_neq (a b : cell) : cell_eqb a b = false <-> a <> b.
Proof.
  unfold cell_eqb; destruct (cell_eq_dec a b); split; intros; congruence.
Qed.

Lemma cell_eqb_sym (a b : cell) : cell_eqb a b = cell_eqb b a.
Proof.
  destruct (cell_eqb b a) eqn:E.
  - apply cell_eqb_eq in E; subst; apply cell_eqb_refl.
  - apply cell_eqb_neq in E; apply cell_eqb_neq; congruence.
Qed.

Lemma notna_true (c : cell) : notna c = true <-> c <> NA.
Proof.
  destruct c; simpl; split; intros H;
    try reflexivity; try discriminate; now elim H.
Qed.

Module PandasFacts.
Import Pandas.

Lemma In_dropna (x : cell) (s : Series) : In x (dropna s) <-> In x s /\ x <> NA.
Proof.
  unfold dropna; rewrite filter_In, notna_true; tauto.
Qed.

Lemma In_unique (x : cell) (s : Series) : In x (unique s) <-> In x s.
Proof.
  induction s as [|a s IH]; simpl; [tauto|].
  rewrite filter_In, IH; split.
  - intros [H|[H _]]; auto.
  - intros [H|H]; auto.
    destruct (cell_eq_dec a x) as [e|ne]; [now left|right].
    split; [assumption|].
    apply Bool.negb_true_iff, cell_eqb_neq; assumption.
Qed.

Lemma NoDup_unique (s : Series) : NoDup (unique s).
Proof.
  induction s as [|a s IH]; simpl; constructor.
  - rewrite filter_In; intros [_ H].
    rewrite cell_eqb_refl in H; discriminate.
  - now apply NoDup_filter.
Qed.

Lemma insert_key_perm (k : cell) (l : list cell) :
  Permutation (insert_key k l) (k :: l).
Proof.
  induction l as [|h t IH]; simpl; [reflexivity|].
  destruct (cell_leb k h); [reflexivity|].
  rewrite IH; apply perm_swap.
Qed.

Lemma sort_keys_perm (l : list cell) : Permutation (sort_keys l) l.
Proof.
  induction l as [|h t IH]; simpl; [reflexivity|].
  rewrite insert_key_perm; now constructor.
Qed.

Lemma In_sort_keys (x : cell) (l : list cell) : In x (sort_keys l) <-> In x l.
Proof.
  split; apply Permutation_in;
    [apply sort_keys_perm | apply Permutation_sym, sort_keys_perm].
Qed.

Lemma NoDup_sort_keys (l : list cell) : NoDup l -> NoDup (sort_keys l).
Proof.
  apply Permutation_NoDup, Permutation_sym, sort_keys_perm.
Qed.


Lemma occurrences_notin (k : cell) (s : Series) : ~ In k s -> occurrences k s = 0.
Proof.
  unfold occurrences; induction s as [|a s IH]; simpl; intros H; [reflexivity|].
  destruct (cell_eqb a k) eqn:E.
  - apply cell_eqb_eq in E; subst; tauto.
  - apply IH; tauto.
Qed.

Lemma occurrences_in (k : cell) (s : Series) : In k s -> 1 <= occurrences k s.
Proof.
  unfold occurrences; induction s as [|a s IH]; simpl; intros H; [tauto|].
  destruct (cell_eqb a k) eqn:E; simpl; [lia|].
  apply cell_eqb_neq in E; destruct H; [congruence|auto].
Qed.

Lemma occurrences_dropna (k : cell) (s : Series) :
  k <> NA -> occurrences k (dropna s) = occurrences k s.
Proof.
  intros Hk; unfold occurrences, dropna.
  induction s as [|a s IH]; simpl; [reflexivity|].
  destruct (notna a) eqn:Ea; simpl; destruct (cell_eqb a k) eqn:E;
    simpl; try (now rewrite IH).
  apply cell_eqb_eq in E; subst a.
  apply notna_true in Hk; congruence.
Qed.

Lemma list_sum_perm (l l' : list nat) :
  Permutation l l' -> list_sum l = list_sum l'.
Proof.
  induction 1; simpl; lia.
Qed.

(** Summing over a duplicate-free list, one key set apart. *)
Lemma list_sum_split (f : cell -> nat) (a : cell) (u : list cell) :
  NoDup u ->
  list_sum (map f u) =
  (if in_dec cell_eq_dec a u then f a else 0)
  + list_sum (map f (filter (fun y => negb (cell_eqb a y)) u)).
Proof.
  induction 1 as [|x u Hx Hu IH]; simpl; [reflexivity|].
  destruct (cell_eq_dec x a) as [e|ne].
  - subst x; rewrite cell_eqb_refl; simpl.
    rewrite IH; destruct (in_dec cell_eq_dec a u); [contradiction|lia].
  - assert (E : cell_eqb a x = false) by (apply cell_eqb_neq; congruence).
    rewrite E; simpl; rewrite IH.
    destruct (in_dec cell_eq_dec a u); lia.
Qed.


Lemma sum_occurrences_unique (s : Series) :
  list_sum (map (fun k => occurrences k s) (unique s)) = List.length s.
Proof.
  induction s as [|a s IH]; simpl; [reflexivity|].
  unfold occurrences at 1; simpl; rewrite cell_eqb_refl; simpl.
  fold (occurrences a s); f_equal.
  rewrite <- IH, (list_sum_split (fun k => occurrences k s) a (unique s))
    by apply NoDup_unique.
  replace (if in_dec cell_eq_dec a (unique s) then occurrences a s else 0)
    with (occurrences a s).
  - f_equal; f_equal; apply map_ext_in; intros k Hk.
    apply filter_In in Hk; destruct Hk as [_ Hk].
    unfold occurrences; simpl.
    apply Bool.negb_true_iff in Hk; now rewrite Hk.
  - destruct (in_dec cell_eq_dec a (unique s)) as [i|ni]; [reflexivity|].
    apply occurrences_notin; now rewrite <- In_unique.
Qed.


Lemma StronglySorted_impl_in {A : Type} (P Q : A -> A -> Prop) (l : list A) :
  (forall x y, In x l -> In y l -> P x y -> Q x y) ->
  StronglySorted P l -> StronglySorted Q l.
Proof.
  intros H S; induction S as [|a l S IH F]; constructor.
  - apply IH; intros x y Hx Hy; apply H; now right.
  - rewrite Forall_forall in *; intros y Hy.
    apply H; [now left | now right | now apply F].
Qed.

Lemma StronglySorted_filter {A : Type} (P : A -> A -> Prop) (f : A -> bool)
  (l : list A) : StronglySorted P l -> StronglySorted P (filter f l).
Proof.
  induction 1 as [|a l S IH F]; simpl; [constructor|].
  destruct (f a); [constructor|]; try assumption.
  rewrite Forall_forall in *; intros y Hy.
  apply F; now apply filter_In in Hy.
Qed.

(** [unique] keeps the entries in the order in which they are first met. *)
Lemma unique_dropna_first_met (s : Series) :
  StronglySorted (fun a b => first_index a s < first_index b s)
                 (unique (dropna s)).
Proof.
  induction s as [|a s IH]; simpl; [constructor|].
  destruct (notna a) eqn:Ea; simpl.
  - constructor.
    + eapply StronglySorted_impl_in;
        [|apply StronglySorted_filter; exact IH].
      intros x y Hx Hy Hxy; simpl in *.
      apply filter_In in Hx; destruct Hx as [_ Hx].
      apply filter_In in Hy; destruct Hy as [_ Hy].
      apply Bool.negb_true_iff in Hx, Hy.
      rewrite Hx, Hy; lia.
    + apply Forall_forall; intros y Hy.
      apply filter_In in Hy; destruct Hy as [_ Hy].
      apply Bool.negb_true_iff in Hy.
      rewrite cell_eqb_refl, Hy; lia.
  - eapply StronglySorted_impl_in; [|exact IH].
    intros x y Hx Hy Hxy; simpl in Hxy.
    apply In_unique, In_dropna in Hx; apply In_unique, In_dropna in Hy.
    destruct a; try discriminate.
    assert (Ex : cell_eqb NA x = false) by (apply cell_eqb_neq; intuition congruence).
    assert (Ey : cell_eqb NA y = false) by (apply cell_eqb_neq; intuition congruence).
    rewrite Ex, Ey; lia.
Qed.


Lemma lookup_map (f : cell -> nat) (k : cell) (l : list cell) :
  In k l -> lookup k (map (fun x => (x, f x)) l) = Some (f k).
Proof.
  induction l as [|a l IH]; simpl; [tauto|]; intros H.
  destruct (cell_eqb a k) eqn:E.
  - apply cell_eqb_eq in E; now subst.
  - apply cell_eqb_neq in E; destruct H; [congruence|auto].
Qed.

Lemma length_filter_map {A B : Type} (f : A -> B) (p : B -> bool) (l : list A) :
  List.length (filter p (map f l)) = List.length (filter (fun x => p (f x)) l).
Proof.
  induction l as [|a l IH]; simpl; [reflexivity|].
  destruct (p (f a)); simpl; now rewrite IH.
Qed.

(** The rows of a group are the rows carrying its key. *)
Lemma size_group (df : DataFrame) (g v : string) (k : cell) :
  size (column (rows_where df g k) v) = occurrences k (column df g).
Proof.
  unfold size, column, rows_where, occurrences; simpl.
  now rewrite length_map, length_filter_map.
Qed.

Lemma In_group_keys (df : DataFrame) (g : string) (k : cell) :
  In k (group_keys df g) <-> In k (column df g) /\ k <> NA.
Proof.
  unfold group_keys; now rewrite In_sort_keys, In_unique, In_dropna.
Qed.

Lemma NoDup_group_keys (df : DataFrame) (g : string) : NoDup (group_keys df g).
Proof. apply NoDup_sort_keys, NoDup_unique. Qed.

Lemma groupby_keys (df : DataFrame) (g v : string) :
  map fst (groupby df g v) = group_keys df g.
Proof.
  unfold groupby; rewrite map_map; simpl; apply map_id.
Qed.

End PandasFacts.

(** ** The cleaned table *)

Section Cleaning.

Variable B : Backend.



Lemma coerce_not_text (c : cell) (s : string) : coerce B c <> Str s.
Proof.
  destruct c as [|x|t]; simpl; try discriminate.
  destruct (parse_float B t); discriminate.
Qed.

(** Asking for the same column as group and as value makes the coercion raise. *)
Lemma clean_same_column (df : Pandas.DataFrame) (c : string) :
  clean B df c c = inl "arg must be a list, tuple, 1-d array, or Series".
Proof.
  unfold clean, Pandas.getitem; simpl.
  destruct (string_dec c c) as [_|n]; [reflexivity|now elim n].
Qed.



Lemma clean_distinct (df : Pandas.DataFrame) (g v : string) :
  g <> v -> clean B df g v = inr (two_columns g v (kept B df g v)).
Proof.
  intros Hgv; unfold clean, Pandas.getitem; simpl.
  destruct (string_dec g v) as [e|_]; [contradiction|].
  destruct (string_dec v v) as [_|n]; [simpl|now elim n].
  unfold Pandas.setitem, Pandas.dropna_subset, two_columns, kept; simpl.
  assert (Evg : String.eqb v g = false) by (apply String.eqb_neq; congruence).
  rewrite Evg, String.eqb_refl; simpl.
  do 2 f_equal.
  unfold Pandas.column; simpl.
  set (fg := Pandas.at_label (Pandas.columns df) g).
  set (fv := Pandas.at_label (Pandas.columns df) v).
  unfold Pandas.at_label; simpl.
  rewrite Evg, !String.eqb_refl; simpl.
  induction (Pandas.rows df) as [|r rs IH]; simpl; [reflexivity|].
  rewrite IH.
  destruct (coerce B (fv r)) as [|x|t] eqn:E; simpl; try reflexivity.
  now apply coerce_not_text in E.
Qed.

Lemma clean_inv (df cdf : Pandas.DataFrame) (g v : string) :
  clean B df g v = inr cdf -> g <> v /\ cdf = two_columns g v (kept B df g v).
Proof.
  intros H; destruct (string_dec g v) as [e|n].
  - subst v; rewrite clean_same_column in H; discriminate.
  - split; [assumption|].
    rewrite (clean_distinct df g v n) in H; congruence.
Qed.

(** The columns of a cleaned table. *)
Lemma column_group (g v : string) (ps : list (cell * R)) :
  Pandas.column (two_columns g v ps) g = map fst ps.
Proof.
  unfold Pandas.column, Pandas.at_label; simpl.
  rewrite String.eqb_refl, map_map; reflexivity.
Qed.

Lemma at_value (g v : string) (p : cell * R) :
  g <> v -> Pandas.at_label [g; v] v [fst p; Num (snd p)] = Num (snd p).
Proof.
  intros H; unfold Pandas.at_label; simpl.
  assert (E : String.eqb v g = false) by (apply String.eqb_neq; congruence).
  now rewrite E, String.eqb_refl.
Qed.

Lemma column_value (g v : string) (ps : list (cell * R)) :
  g <> v ->
  Pandas.column (two_columns g v ps) v = map (fun p => Num (snd p)) ps.
Proof.
  intros H; unfold Pandas.column; simpl; rewrite map_map.
  apply map_ext; intros p; now apply at_value.
Qed.

Lemma rows_where_two_columns (g v : string) (ps : list (cell * R)) (k : cell) :
  Pandas.rows_where (two_columns g v ps) g k =
  two_columns g v (filter (fun p => cell_eqb (fst p) k) ps).
Proof.
  unfold Pandas.rows_where, two_columns; simpl; f_equal.
  induction ps as [|p ps IH]; simpl; [reflexivity|].
  unfold Pandas.at_label at 1; simpl; rewrite String.eqb_refl; simpl.
  destruct (cell_eqb (fst p) k); simpl; now rewrite IH.
Qed.

Lemma astype_float_numbers (ps : list (cell * R)) :
  Pandas.astype_float (map (fun p => Num (snd p)) ps) = map snd ps.
Proof.
  induction ps as [|p ps IH]; simpl; [reflexivity|now rewrite IH].
Qed.

Lemma dropna_numbers (ps : list (cell * R)) :
  Pandas.dropna (map (fun p => Num (snd p)) ps) = map (fun p => Num (snd p)) ps.
Proof.
  induction ps as [|p ps IH]; simpl; [reflexivity|now rewrite IH].
Qed.

(** What a request that reaches the cleaned table looks like. *)
Lemma load_inv (req : request) (cdf : Pandas.DataFrame) (g v t : string) :
  load B req = inr (cdf, (g, v, t)) ->
  exists f df,
    get "file" (files req) = Some f /\
    g = strip (or_empty (get "group" (form req))) /\
    v = strip (or_empty (get "value" (form req))) /\
    t = lower B (strip (or_empty (get "test" (form req)))) /\
    g <> "" /\ v <> "" /\ t <> "" /\
    read_csv B f = inr df /\
    Pandas.has_column df g = true /\ Pandas.has_column df v = true /\
    clean B df g v = inr cdf.
Proof.
  unfold load, load_table.
  destruct (get "file" (files req)) as [f|]; [|discriminate].
  set (g' := strip (or_empty (get "group" (form req)))).
  set (v' := strip (or_empty (get "value" (form req)))).
  set (t' := lower B (strip (or_empty (get "test" (form req))))).
  destruct (String.eqb g' "") eqn:Eg; [discriminate|].
  destruct (String.eqb v' "") eqn:Ev; [discriminate|].
  destruct (String.eqb t' "") eqn:Et; [discriminate|]; simpl.
  destruct (read_csv B f) as [e|df] eqn:Er; [discriminate|].
  destruct (Pandas.has_column df g') eqn:Hg; [|discriminate].
  destruct (Pandas.has_column df v') eqn:Hv; [|discriminate]; simpl.
  destruct (clean B df g' v') as [e|cdf'] eqn:Ec; [discriminate|].
  intros H; inversion H; subst.
  apply String.eqb_neq in Eg, Ev, Et.
  exists f, df; repeat split; assumption.
Qed.

Lemma run_stats_respond (req : request) (cdf : Pandas.DataFrame) (g v t : string) :
  load B req = inr (cdf, (g, v, t)) -> run_stats B req = respond B cdf g v t.
Proof. intros H; unfold run_stats; now rewrite H. Qed.

End Cleaning.

(* ------------------------------------------------------------------ *)
(** ** Validation and dispatch *)

Lemma has_column_In (df : Pandas.DataFrame) (c : string) :
  Pandas.has_column df c = true <-> In c (Pandas.columns df).
Proof.
  unfold Pandas.has_column; rewrite existsb_exists; split.
  - intros [x [Hx E]]; apply String.eqb_eq in E; now subst.
  - intros H; exists c; split; [assumption|apply String.eqb_refl].
Qed.

Lemma has_column_false (df : Pandas.DataFrame) (c : string) :
  Pandas.has_column df c = false <-> ~ In c (Pandas.columns df).
Proof.
  rewrite <- has_column_In; destruct (Pandas.has_column df c); split;
    intros H; try reflexivity; try discriminate; now elim H.
Qed.

Lemma neq_eqb (s t : string) : s <> t -> String.eqb s t = false.
Proof. apply String.eqb_neq. Qed.

(** A [return] inside the [try] block hands back a failure payload of
    status 400. *)
Lemma tests_return (B : Backend) (df : Pandas.DataFrame) (g v t : string)
  (gs : list cell) (r : response) :
  tests B df g v t gs = inr (Return r) ->
  exists msg extra, r = Json (Failure msg extra) 400.
Proof.
  unfold tests, json_error.
  destruct (String.eqb t "ttest").
  { destruct (negb (Nat.eqb (List.length gs) 2)).
    - intros H; inversion H; eauto.
    - destruct (ttest_ind B _ _) as [e|[t' p]]; discriminate. }
  destruct (String.eqb t "anova").
  { destruct (Nat.ltb (List.length gs) 3).
    - intros H; inversion H; eauto.
    - destruct (anova_lm B _ _) as [e|tbl]; [discriminate|].
      destruct (pairwise_tukeyhsd B _ _) as [e|tukey]; discriminate. }
  destruct (String.eqb t "kruskal").
  { destruct (Nat.ltb (List.length gs) 3).
    - intros H; inversion H; eauto.
    - destruct (kruskal B _) as [e|[H p]]; [discriminate|].
      destruct (posthoc_dunn B _ _ _) as [e|dunn]; discriminate. }
  intros H; inversion H; eauto.
Qed.

(** [descriptives] raises exactly when the group column bears the name of
    one of the columns it builds. *)
Lemma descriptives_returns (df : Pandas.DataFrame) (g v : string) :
  ~ In g aggregate_columns -> descriptives df g v = inr (aggregate df g v).
Proof.
  intros H; unfold descriptives, Pandas.reset_index.
  destruct (existsb (String.eqb g) aggregate_columns) eqn:E; [|reflexivity].
  apply existsb_exists in E; destruct E as [x [Hx E]].
  apply String.eqb_eq in E; subst x; contradiction.
Qed.

Lemma descriptives_raises (df : Pandas.DataFrame) (g v : string) :
  In g aggregate_columns ->
  descriptives df g v = inl ("cannot insert " ++ g ++ ", already exists").
Proof.
  intros H; unfold descriptives, Pandas.reset_index.
  destruct (existsb (String.eqb g) aggregate_columns) eqn:E; [reflexivity|].
  assert (E' : existsb (String.eqb g) aggregate_columns = true).
  { apply existsb_exists; exists g; split; [assumption|apply String.eqb_refl]. }
  rewrite E in E'; discriminate.
Qed.

Lemma descriptives_inv (df : Pandas.DataFrame) (g v : string)
  (recs : list Desc.record) :
  descriptives df g v = inr recs ->
  ~ In g aggregate_columns /\ recs = aggregate df g v.
Proof.
  intros H; destruct (in_dec string_dec g aggregate_columns) as [i|ni].
  - rewrite (descriptives_raises df g v i) in H; discriminate.
  - rewrite (descriptives_returns df g v ni) in H; split; congruence.
Qed.

(** Once the descriptives are computed, no exception leaves the handler. *)
Lemma respond_caught (B : Backend) (df : Pandas.DataFrame) (g v t e : string)
  (recs : list Desc.record) :
  descriptives df g v = inr recs -> respond B df g v t <> Uncaught e.
Proof.
  intros D; unfold respond; rewrite D.
  destruct (tests B df g v t (groups_of df g)) as [e'|[r|name f]] eqn:E;
    try discriminate.
  apply tests_return in E; destruct E as [msg [extra ->]]; discriminate.
Qed.

(** C1.  The answer of a request that reaches the cleaned table is not
    always the one the number of groups calls for.  When the group column
    bears the name of one of the columns that [descriptives] builds, the
    descriptives raise at line 115, before the [try] block is entered: the
    request ends with that exception, whatever the test and the number of
    groups, and no failure payload is produced.  For every other group column
    the request is answered by the number of groups alone when the test does
    not apply to it, with the failure payload carrying the list of groups,
    whatever the statistical procedures would compute; when the number of
    groups fits, the answer is what the procedure of the requested test
    yields. *)
Theorem run_stats_applicability (B : Backend) (req : request)
  (df : Pandas.DataFrame) (g v t : string) :
  load B req = inr (df, (g, v, t)) ->
  (In g aggregate_columns ->
   run_stats B req = Uncaught ("cannot insert " ++ g ++ ", already exists")
   /\ forall msg extra st, run_stats B req <> Json (Failure msg extra) st)
  /\
  (~ In g aggregate_columns ->
   (t = "ttest" -> List.length (groups_of df g) <> 2 ->
    run_stats B req =
    Json (Failure "t-test requires exactly 2 groups."
                  [("groups", JCells (groups_of df g))]) 400)
   /\
   (t = "anova" -> List.length (groups_of df g) < 3 ->
    run_stats B req =
    Json (Failure "One-way ANOVA requires ≥3 groups."
                  [("groups", JCells (groups_of df g))]) 400)
   /\
   (t = "kruskal" -> List.length (groups_of df g) < 3 ->
    run_stats B req =
    Json (Failure "Kruskal–Wallis requires ≥3 groups."
                  [("groups", JCells (groups_of df g))]) 400)
   /\
   (t = "ttest" -> List.length (groups_of df g) = 2 ->
    run_stats B req =
    match ttest_ind B (sample df g v (nth 0 (groups_of df g) NA))
                      (sample df g v (nth 1 (groups_of df g) NA)) with
    | inl e => Json (Failure "Exception during analysis." [("detail", JStr e)]) 500
    | inr (t', p) =>
        Json (Success {| groups := groups_of df g;
                         n_by_group := n_by_group_of df g v;
                         descriptives_of := aggregate df g v;
                         requested_test := "ttest";
                         test := "Welch t-test";
                         fields := WelchFields t' p |}) 200
    end)
   /\
   (t = "anova" -> 3 <= List.length (groups_of df g) ->
    run_stats B req =
    match anova_lm B (formula g v) df with
    | inl e => Json (Failure "Exception during analysis." [("detail", JStr e)]) 500
    | inr tbl =>
        match pairwise_tukeyhsd B (Pandas.column df v) (Pandas.column df g) with
        | inl e =>
            Json (Failure "Exception during analysis." [("detail", JStr e)]) 500
        | inr tukey =>
            Json (Success {| groups := groups_of df g;
                             n_by_group := n_by_group_of df g v;
                             descriptives_of := aggregate df g v;
                             requested_test := "anova";
                             test := "One-way ANOVA";
                             fields := AnovaFields tbl tukey |}) 200
        end
    end)
   /\
   (t = "kruskal" -> 3 <= List.length (groups_of df g) ->
    run_stats B req =
    match kruskal B (map (sample df g v) (groups_of df g)) with
    | inl e => Json (Failure "Exception during analysis." [("detail", JStr e)]) 500
    | inr (H, p) =>
        match posthoc_dunn B df v g with
        | inl e =>
            Json (Failure "Exception during analysis." [("detail", JStr e)]) 500
        | inr dunn =>
            Json (Success {| groups := groups_of df g;
                             n_by_group := n_by_group_of df g v;
                             descriptives_of := aggregate df g v;
                             requested_test := "kruskal";
                             test := "Kruskal–Wallis";
                             fields := KruskalFields H p dunn |}) 200
        end
    end)).
Proof.
  intros L; rewrite (run_stats_respond B req df g v t L); split.
  - intros H; unfold respond; rewrite (descriptives_raises df g v H).
    split; [reflexivity|discriminate].
  - intros H; unfold respond; rewrite (descriptives_returns df g v H).
    unfold tests, json_error, jsonify.
    repeat split; intros -> Hn; simpl.
    + apply Nat.eqb_neq in Hn; now rewrite Hn.
    + apply Nat.ltb_lt in Hn; now rewrite Hn.
    + apply Nat.ltb_lt in Hn; now rewrite Hn.
    + rewrite Hn; simpl.
      destruct (ttest_ind B _ _) as [e|[t' p]]; reflexivity.
    + apply Nat.ltb_ge in Hn; rewrite Hn.
      destruct (anova_lm B _ _) as [e|tbl]; [reflexivity|].
      destruct (pairwise_tukeyhsd B _ _) as [e|tukey]; reflexivity.
    + apply Nat.ltb_ge in Hn; rewrite Hn.
      destruct (kruskal B _) as [e|[H' p]]; [reflexivity|].
      destruct (posthoc_dunn B _ _ _) as [e|dunn]; reflexivity.
Qed.

Lemma run_stats_applicability_witness :
  load Demo.backend Demo.reserved_label_one_group
  = inr (two_columns "n" "value" [(Str "low", INR 1); (Str "low", INR 2)],
         ("n", "value", "ttest"))
  /\ groups_of (two_columns "n" "value" [(Str "low", INR 1); (Str "low", INR 2)])
               "n"
     = [Str "low"]
  /\ run_stats Demo.backend Demo.reserved_label_one_group
     = Uncaught "cannot insert n, already exists".
Proof.
  split; [reflexivity|]. split; [reflexivity|].
  apply (proj1 (run_stats_applicability Demo.backend
                  Demo.reserved_label_one_group
                  (two_columns "n" "value"
                     [(Str "low", INR 1); (Str "low", INR 2)])
                  "n" "value" "ttest" eq_refl)).
  simpl; auto.
Defined.

(** The t-test asked on a single group whose column bears a name that is free:
    the answer is the failure payload with the list of groups. *)
Example one_group_refused :
  run_stats Demo.backend Demo.one_group
  = Json (Failure "t-test requires exactly 2 groups."
                  [("groups", JCells [Str "A"])]) 400.
Proof. reflexivity. Qed.



(** C6.  A request whose file is read as a table and whose group column or
    value column is not in the header of that table is answered with the
    failure payload listing the columns of the header and both requested
    names. *)
Theorem run_stats_column_not_found (B : Backend) (req : request) (f : string)
  (df : Pandas.DataFrame) :
  get "file" (files req) = Some f ->
  strip (or_empty (get "group" (form req))) <> "" ->
  strip (or_empty (get "value" (form req))) <> "" ->
  lower B (strip (or_empty (get "test" (form req)))) <> "" ->
  read_csv B f = inr df ->
  ~ In (strip (or_empty (get "group" (form req)))) (Pandas.columns df)
  \/ ~ In (strip (or_empty (get "value" (form req)))) (Pandas.columns df) ->
  run_stats B req
  = Json (Failure "Column not found in CSV."
            [("columns", JStrs (Pandas.columns df));
             ("group_requested", JStr (strip (or_empty (get "group" (form req)))));
             ("value_requested", JStr (strip (or_empty (get "value" (form req)))))])
         400.
Proof.
  intros Hf Hg Hv Ht Hr Hc.
  unfold run_stats, load, load_table; rewrite Hf.
  rewrite (neq_eqb _ _ Hg), (neq_eqb _ _ Hv), (neq_eqb _ _ Ht), Hr; simpl.
  destruct Hc as [Hc|Hc]; apply has_column_false in Hc; rewrite Hc; simpl;
    [reflexivity|].
  now rewrite Bool.orb_true_r.
Qed.

Lemma run_stats_column_not_found_witness :
  run_stats Demo.backend Demo.scenario_d
  = Json (Failure "Column not found in CSV."
            [("columns", JStrs ["group"; "value"]);
             ("group_requested", JStr "cohort");
             ("value_requested", JStr "value")])
         400.
Proof.
  apply (run_stats_column_not_found Demo.backend Demo.scenario_d
           (Demo.unlines ["group,value"; "A,1"; "B,3"])
           {| Pandas.columns := ["group"; "value"];
              Pandas.rows := [[Str "A"; Num (INR 1)]; [Str "B"; Num (INR 3)]] |});
    try reflexivity; try discriminate.
  left; simpl; intros [H|[H|H]]; try discriminate; exact H.
Defined.

(** C5.  A request that names one and the same column of the table as group
    and as value leaves the handler with an exception that nothing catches:
    the coercion of line 104 raises outside every [try]. *)
Theorem run_stats_same_column_uncaught (B : Backend) (req : request)
  (f c : string) (df : Pandas.DataFrame) :
  get "file" (files req) = Some f ->
  strip (or_empty (get "group" (form req))) = c ->
  strip (or_empty (get "value" (form req))) = c ->
  c <> "" ->
  lower B (strip (or_empty (get "test" (form req)))) <> "" ->
  read_csv B f = inr df ->
  In c (Pandas.columns df) ->
  run_stats B req = Uncaught "arg must be a list, tuple, 1-d array, or Series".
Proof.
  intros Hf Hg Hv Hc Ht Hr Hin.
  unfold run_stats, load, load_table; rewrite Hf, Hg, Hv.
  rewrite (neq_eqb _ _ Hc), (neq_eqb _ _ Ht), Hr; simpl.
  apply has_column_In in Hin; rewrite Hin; simpl.
  now rewrite clean_same_column.
Qed.

Lemma run_stats_same_column_uncaught_witness :
  run_stats Demo.backend Demo.same_column
  = Uncaught "arg must be a list, tuple, 1-d array, or Series".
Proof.
  apply (run_stats_same_column_uncaught Demo.backend Demo.same_column
           (Demo.unlines ["group,value"; "A,1"; "B,3"]) "value"
           {| Pandas.columns := ["group"; "value"];
              Pandas.rows := [[Str "A"; Num (INR 1)]; [Str "B"; Num (INR 3)]] |});
    try reflexivity; try discriminate.
  simpl; auto.
Defined.

(** The same happens when the group column bears the name of a column of the
    descriptives: [reset_index] raises at line 60, outside every [try]. *)
Lemma run_stats_reserved_label_uncaught (B : Backend) (req : request)
  (cdf : Pandas.DataFrame) (g v t : string) :
  load B req = inr (cdf, (g, v, t)) ->
  In g aggregate_columns ->
  run_stats B req = Uncaught ("cannot insert " ++ g ++ ", already exists").
Proof.
  intros L H; rewrite (run_stats_respond B req cdf g v t L).
  unfold respond; now rewrite (descriptives_raises cdf g v H).
Qed.

(** Apart from these two cases, every answer is a payload with its status:
    400 or 500 with a failure, 200 with a success. *)
Lemma run_stats_structured (B : Backend) (req : request) :
  strip (or_empty (get "group" (form req)))
  <> strip (or_empty (get "value" (form req))) ->
  ~ In (strip (or_empty (get "group" (form req)))) aggregate_columns ->
  (exists msg extra, run_stats B req = Json (Failure msg extra) 400)
  \/ (exists detail,
         run_stats B req
         = Json (Failure "Exception during analysis." [("detail", JStr detail)]) 500)
  \/ (exists o, run_stats B req = Json (Success o) 200).
Proof.
  intros Hgv Hres; unfold run_stats.
  destruct (load B req) as [r|[cdf [[g v] t]]] eqn:L.
  - left; revert L; unfold load, load_table, json_error.
    destruct (get "file" (files req)) as [f|]; [|intros H; inversion H; eauto].
    destruct (_ || _ || _); [intros H; inversion H; eauto|].
    destruct (read_csv B f) as [e|df]; [intros H; inversion H; eauto|].
    destruct (_ || _); [intros H; inversion H; eauto|].
    rewrite (clean_distinct B df _ _ Hgv); discriminate.
  - destruct (load_inv B req cdf g v t L) as [f [df [_ [Eg _]]]].
    rewrite <- Eg in Hres.
    unfold respond, json_error, jsonify.
    rewrite (descriptives_returns cdf g v Hres).
    destruct (tests B cdf g v t (groups_of cdf g)) as [e|[r|name fl]] eqn:E.
    + right; left; eauto.
    + left; now apply tests_return in E.
    + right; right; eauto.
Qed.

(* ------------------------------------------------------------------ *)
(** ** Groups and counts *)

Lemma n_by_group_of_keys (df : Pandas.DataFrame) (g v : string) :
  n_by_group_of df g v
  = map (fun k => (k, occurrences k (Pandas.column df g))) (Pandas.group_keys df g).
Proof.
  unfold n_by_group_of, Pandas.groupby; rewrite map_map; simpl.
  apply map_ext; intros k; now rewrite PandasFacts.size_group.
Qed.

Lemma n_by_group_of_fst (df : Pandas.DataFrame) (g v : string) :
  map fst (n_by_group_of df g v) = Pandas.group_keys df g.
Proof.
  rewrite n_by_group_of_keys, map_map; simpl; apply map_id.
Qed.

Lemma aggregate_groups (df : Pandas.DataFrame) (g v : string) :
  map Desc.Group (aggregate df g v) = Pandas.group_keys df g.
Proof.
  unfold aggregate; rewrite map_map; simpl.
  apply PandasFacts.groupby_keys.
Qed.

Lemma In_groups_of (df : Pandas.DataFrame) (g : string) (k : cell) :
  In k (groups_of df g) <-> In k (Pandas.column df g) /\ k <> NA.
Proof.
  unfold groups_of; now rewrite PandasFacts.In_unique, PandasFacts.In_dropna.
Qed.

Lemma In_groups_of_keys (df : Pandas.DataFrame) (g : string) (k : cell) :
  In k (groups_of df g) <-> In k (Pandas.group_keys df g).
Proof.
  now rewrite In_groups_of, PandasFacts.In_group_keys.
Qed.

(** The rows of a table whose entry under [g] is [k], counted. *)
Lemma occurrences_rows (df : Pandas.DataFrame) (g : string) (k : cell) :
  occurrences k (Pandas.column df g)
  = List.length
      (filter (fun r => cell_eqb (Pandas.at_label (Pandas.columns df) g r) k)
              (Pandas.rows df)).
Proof.
  unfold occurrences, Pandas.column; apply PandasFacts.length_filter_map.
Qed.

(** The counts add up to the number of rows that carry a group. *)
Lemma sum_n_by_group (df : Pandas.DataFrame) (g v : string) :
  list_sum (map snd (n_by_group_of df g v))
  = List.length
      (filter (fun r => notna (Pandas.at_label (Pandas.columns df) g r))
              (Pandas.rows df)).
Proof.
  rewrite n_by_group_of_keys, map_map; simpl.
  unfold Pandas.group_keys.
  rewrite (PandasFacts.list_sum_perm _ _
             (Permutation_map _ (PandasFacts.sort_keys_perm _))).
  rewrite <- PandasFacts.length_filter_map.
  fold (Pandas.column df g); fold (Pandas.dropna (Pandas.column df g)).
  rewrite <- PandasFacts.sum_occurrences_unique.
  f_equal; apply map_ext_in; intros k Hk.
  apply PandasFacts.In_unique, PandasFacts.In_dropna in Hk.
  symmetry; now apply PandasFacts.occurrences_dropna.
Qed.

(** C3, as the handler has it.  The cleaned table holds the rows of the
    dataset whose value is a number after coercion, and the counts of
    [n_by_group] add up to the number of those rows whose group entry is not
    missing; they add up to the number of all rows of the cleaned table when
    no group entry is missing. *)
Theorem n_by_group_sum (B : Backend) (df cdf : Pandas.DataFrame) (g v : string) :
  clean B df g v = inr cdf ->
  Pandas.rows cdf = map (fun p => [fst p; Num (snd p)]) (kept B df g v)
  /\
  list_sum (map snd (n_by_group_of cdf g v))
  = List.length
      (filter (fun r => notna (Pandas.at_label (Pandas.columns cdf) g r))
              (Pandas.rows cdf))
  /\
  ((forall r, In r (Pandas.rows cdf) ->
              Pandas.at_label (Pandas.columns cdf) g r <> NA) ->
   list_sum (map snd (n_by_group_of cdf g v)) = List.length (Pandas.rows cdf)).
Proof.
  intros C; split; [|split; [apply sum_n_by_group|]].
  - apply clean_inv in C; destruct C as [_ ->]; reflexivity.
  - intros H; rewrite sum_n_by_group; f_equal.
    apply forallb_filter_id, forallb_forall; intros r Hr.
    now apply notna_true, H.
Qed.

Lemma n_by_group_sum_witness :
  list_sum (map snd (n_by_group_of
                       (two_columns "group" "value"
                          [(Str "A", INR 1); (Str "B", INR 2); (NA, INR 3)])
                       "group" "value"))
  = 2.
Proof.
  apply (proj1 (proj2 (n_by_group_sum Demo.backend
                  {| Pandas.columns := ["group"; "value"];
                     Pandas.rows := [[Str "A"; Num (INR 1)];
                                     [Str "B"; Num (INR 2)];
                                     [NA; Str "3"]] |}
                  (two_columns "group" "value"
                     [(Str "A", INR 1); (Str "B", INR 2); (NA, INR 3)])
                  "group" "value" eq_refl))).
Defined.

(** C3, as the claim has it, fails: a row whose group entry is missing stays
    in the cleaned table and is counted in no group. *)
Lemma n_by_group_sum_counterexample :
  exists cdf o,
    load Demo.backend Demo.missing_group = inr (cdf, ("group", "value", "ttest"))
    /\ run_stats Demo.backend Demo.missing_group = Json (Success o) 200
    /\ list_sum (map snd (n_by_group o)) = 2
    /\ List.length (Pandas.rows cdf) = 3
    /\ list_sum (map snd (n_by_group o)) <> List.length (Pandas.rows cdf).
Proof.
  eexists; eexists; split; [reflexivity|].
  split; [reflexivity|].
  split; [reflexivity|].
  split; [reflexivity|].
  simpl; discriminate.
Qed.

Lemma lookup_map_some (f : cell -> nat) (k : cell) (l : list cell) (c : nat) :
  lookup k (map (fun x => (x, f x)) l) = Some c -> In k l.
Proof.
  induction l as [|a l IH]; simpl; [discriminate|].
  destruct (cell_eqb a k) eqn:E; [|auto].
  apply cell_eqb_eq in E; auto.
Qed.

(** C8.  On the cleaned table, [groups] holds each group value that is not
    missing once, the values standing in the order in which the rows first
    show them, and [n_by_group] maps each of them, and nothing else, to the
    number of rows that carry it. *)
Theorem groups_first_met_and_counted (B : Backend) (df cdf : Pandas.DataFrame)
  (g v : string) :
  clean B df g v = inr cdf ->
  NoDup (groups_of cdf g)
  /\
  (forall k, In k (groups_of cdf g) <->
             k <> NA /\
             exists r, In r (Pandas.rows cdf) /\
                       Pandas.at_label (Pandas.columns cdf) g r = k)
  /\
  StronglySorted (fun a b => first_index a (Pandas.column cdf g)
                             < first_index b (Pandas.column cdf g))
                 (groups_of cdf g)
  /\
  (forall k, In k (groups_of cdf g) ->
             lookup k (n_by_group_of cdf g v)
             = Some (List.length
                       (filter (fun r => cell_eqb
                                           (Pandas.at_label (Pandas.columns cdf) g r) k)
                               (Pandas.rows cdf))))
  /\
  (forall k c, lookup k (n_by_group_of cdf g v) = Some c -> In k (groups_of cdf g)).
Proof.
  intros _; repeat split.
  - apply PandasFacts.NoDup_unique.
  - now apply In_groups_of in H.
  - apply In_groups_of in H; destruct H as [H _].
    unfold Pandas.column in H; apply in_map_iff in H.
    destruct H as [r [E Hr]]; eauto.
  - intros [Hk [r [Hr E]]]; apply In_groups_of; split; [|assumption].
    unfold Pandas.column; apply in_map_iff; eauto.
  - apply PandasFacts.unique_dropna_first_met.
  - intros k Hk; rewrite n_by_group_of_keys, <- occurrences_rows.
    apply (PandasFacts.lookup_map (fun k => occurrences k (Pandas.column cdf g))).
    now apply In_groups_of_keys.
  - intros k c Hk; rewrite n_by_group_of_keys in Hk.
    apply lookup_map_some in Hk; now apply In_groups_of_keys.
Qed.

Lemma groups_first_met_and_counted_witness :
  groups_of (two_columns "group" "value"
               [(Str "B", INR 1); (NA, INR 5); (Str "A", INR 2); (Str "B", INR 3)])
            "group"
  = [Str "B"; Str "A"]
  /\ lookup (Str "B")
            (n_by_group_of
               (two_columns "group" "value"
                  [(Str "B", INR 1); (NA, INR 5); (Str "A", INR 2); (Str "B", INR 3)])
               "group" "value")
     = Some 2.
Proof.
  split; [reflexivity|].
  apply (proj1 (proj2 (proj2 (proj2
           (groups_first_met_and_counted Demo.backend
              {| Pandas.columns := ["value"; "group"];
                 Pandas.rows := [[Str "1"; Str "B"]; [Num (INR 5); NA];
                                 [Str "oops"; Str "B"]; [Str "2"; Str "A"];
                                 [Num (INR 3); Str "B"]] |}
              (two_columns "group" "value"
                 [(Str "B", INR 1); (NA, INR 5); (Str "A", INR 2); (Str "B", INR 3)])
              "group" "value" eq_refl)))) (Str "B")).
  simpl; auto.
Defined.

(* ------------------------------------------------------------------ *)
(** ** The success payload *)

(** The values of a group of the cleaned table. *)
Lemma group_values (g v : string) (ps : list (cell * R)) (k : cell) :
  g <> v ->
  Pandas.column (Pandas.rows_where (two_columns g v ps) g k) v
  = map (fun p => Num (snd p)) (filter (fun p => cell_eqb (fst p) k) ps).
Proof.
  intros H; rewrite rows_where_two_columns; now apply column_value.
Qed.

Lemma occurrences_fst (ps : list (cell * R)) (k : cell) :
  List.length (filter (fun p => cell_eqb (fst p) k) ps) = occurrences k (map fst ps).
Proof.
  unfold occurrences; symmetry; apply PandasFacts.length_filter_map.
Qed.

(** A failure of loading is never a success payload. *)
Lemma load_failure (B : Backend) (req : request) (r : response) :
  load B req = inl r ->
  (exists msg extra, r = Json (Failure msg extra) 400) \/ (exists e, r = Uncaught e).
Proof.
  unfold load, load_table, json_error.
  destruct (get "file" (files req)) as [f|]; [|intros H; inversion H; eauto].
  destruct (_ || _ || _); [intros H; inversion H; eauto|].
  destruct (read_csv B f) as [e|df]; [intros H; inversion H; eauto|].
  destruct (_ || _); [intros H; inversion H; eauto|].
  destruct (clean B df _ _) as [e|cdf]; [|discriminate].
  intros H; inversion H; eauto.
Qed.

(** A success payload is the one built from the cleaned table. *)
Lemma run_stats_success (B : Backend) (req : request) (o : out) (st : nat) :
  run_stats B req = Json (Success o) st ->
  exists cdf g v t,
    load B req = inr (cdf, (g, v, t))
    /\ st = 200
    /\ groups o = groups_of cdf g
    /\ n_by_group o = n_by_group_of cdf g v
    /\ descriptives cdf g v = inr (descriptives_of o)
    /\ requested_test o = t.
Proof.
  unfold run_stats.
  destruct (load B req) as [r|[cdf [[g v] t]]] eqn:L.
  - intros ->; apply load_failure in L.
    destruct L as [[msg [extra L]]|[e L]]; discriminate.
  - unfold respond, json_error, jsonify.
    destruct (descriptives cdf g v) as [e|recs] eqn:D; [discriminate|].
    destruct (tests B cdf g v t (groups_of cdf g)) as [e|[r|name fl]] eqn:E.
    + discriminate.
    + apply tests_return in E; destruct E as [msg [extra ->]]; discriminate.
    + intros H; inversion H; subst; simpl.
      exists cdf, g, v, t; repeat split; try reflexivity; assumption.
Qed.

(** The [n] of a record of the cleaned table is the number of rows of its
    group. *)
Lemma aggregate_n (g v : string) (ps : list (cell * R)) (r : Desc.record) :
  g <> v ->
  In r (aggregate (two_columns g v ps) g v) ->
  Desc.n r = occurrences (Desc.Group r) (map fst ps).
Proof.
  intros Hgv Hr; unfold aggregate, Pandas.groupby in Hr.
  rewrite map_map in Hr; apply in_map_iff in Hr.
  destruct Hr as [k [<- _]]; simpl.
  rewrite (group_values g v ps k Hgv).
  unfold Pandas.count; rewrite dropna_numbers, length_map.
  apply occurrences_fst.
Qed.

(** C9.  In every success payload, [groups], the keys of [n_by_group] and the
    [Group] fields of the descriptive records hold the same values: the group
    values of the cleaned table that are not missing.  No count is zero.  A
    row with a number as value is in the cleaned table even when its group
    entry is missing. *)
Theorem success_groups_agree (B : Backend) (req : request) (o : out) (st : nat) :
  run_stats B req = Json (Success o) st ->
  exists cdf g v t,
    load B req = inr (cdf, (g, v, t))
    /\ (forall k, In k (groups o) <-> In k (map fst (n_by_group o)))
    /\ (forall k, In k (groups o) <-> In k (map Desc.Group (descriptives_of o)))
    /\ ~ In NA (groups o)
    /\ (forall k, In k (groups o) <-> k <> NA /\ In k (Pandas.column cdf g))
    /\ (forall k c, In (k, c) (n_by_group o) -> 1 <= c)
    /\ (forall r, In r (descriptives_of o) -> 1 <= Desc.n r)
    /\ (forall f df row x,
           get "file" (files req) = Some f -> read_csv B f = inr df ->
           In row (Pandas.rows df) ->
           coerce B (Pandas.at_label (Pandas.columns df) v row) = Num x ->
           In [Pandas.at_label (Pandas.columns df) g row; Num x] (Pandas.rows cdf)).
Proof.
  intros S; apply run_stats_success in S.
  destruct S as [cdf [g [v [t [L [_ [Eg [En [Ed _]]]]]]]]].
  exists cdf, g, v, t; split; [exact L|].
  apply descriptives_inv in Ed; destruct Ed as [_ Ed].
  rewrite Eg, En, Ed, n_by_group_of_fst, aggregate_groups.
  destruct (load_inv B req cdf g v t L)
    as [f [df [Hf [_ [_ [_ [_ [_ [_ [Hr [_ [_ C]]]]]]]]]]]].
  destruct (clean_inv B df cdf g v C) as [Hgv Ec].
  split; [intros k; apply In_groups_of_keys|].
  split; [intros k; apply In_groups_of_keys|].
  split; [intros H; apply In_groups_of in H; now destruct H|].
  split; [intros k; rewrite In_groups_of; tauto|].
  split; [|split].
  - intros k c H; rewrite n_by_group_of_keys in H.
    apply in_map_iff in H; destruct H as [k' [E Hk]]; inversion E; subst.
    apply PandasFacts.occurrences_in.
    now apply PandasFacts.In_group_keys in Hk.
  - intros r Hr'; rewrite Ec in Hr'.
    rewrite (aggregate_n g v _ r Hgv Hr').
    apply PandasFacts.occurrences_in.
    assert (Hk : In (Desc.Group r) (map Desc.Group (aggregate cdf g v))).
    { rewrite Ec; now apply in_map. }
    rewrite aggregate_groups in Hk.
    apply PandasFacts.In_group_keys in Hk; destruct Hk as [Hk _].
    now rewrite Ec, column_group in Hk.
  - intros f' df' row x Hf' Hr' Hrow Hx.
    rewrite Hf in Hf'; inversion Hf'; subst f'.
    rewrite Hr in Hr'; inversion Hr'; subst df'.
    rewrite Ec; simpl.
    apply in_map_iff.
    exists (Pandas.at_label (Pandas.columns df) g row, x); split; [reflexivity|].
    unfold kept; apply in_flat_map; exists row; split; [assumption|].
    rewrite Hx; now left.
Qed.

Lemma success_groups_agree_witness :
  exists o,
    run_stats Demo.backend Demo.missing_group = Json (Success o) 200
    /\ groups o = [Str "A"; Str "B"]
    /\ map fst (n_by_group o) = [Str "A"; Str "B"]
    /\ exists cdf g v t,
        load Demo.backend Demo.missing_group = inr (cdf, (g, v, t))
        /\ forall k, In k (groups o) <-> In k (map fst (n_by_group o)).
Proof.
  eexists; split; [reflexivity|].
  split; [reflexivity|]. split; [reflexivity|].
  destruct (success_groups_agree Demo.backend Demo.missing_group _ 200 eq_refl)
    as [cdf [g [v [t [L [H _]]]]]].
  exists cdf, g, v, t; split; [exact L|exact H].
Defined.

(* ------------------------------------------------------------------ *)
(** ** Rows dropped by the coercion *)

Lemma kept_without (B : Backend) (cols : list string)
  (before after : list (list cell)) (bad : list cell) (g v : string) :
  coerce B (Pandas.at_label cols v bad) = NA ->
  kept B {| Pandas.columns := cols; Pandas.rows := before ++ bad :: after |} g v
  = kept B {| Pandas.columns := cols; Pandas.rows := before ++ after |} g v.
Proof.
  intros H; unfold kept; simpl.
  rewrite !flat_map_app; simpl; now rewrite H.
Qed.

Lemma load_table_without (B : Backend) (cols : list string)
  (before after : list (list cell)) (bad : list cell) (g v : string) :
  coerce B (Pandas.at_label cols v bad) = NA ->
  load_table B {| Pandas.columns := cols; Pandas.rows := before ++ bad :: after |} g v
  = load_table B {| Pandas.columns := cols; Pandas.rows := before ++ after |} g v.
Proof.
  intros H; unfold load_table, Pandas.has_column; simpl.
  destruct (_ || _); [reflexivity|].
  destruct (string_dec g v) as [e|n].
  - subst v; now rewrite !clean_same_column.
  - rewrite !(clean_distinct B _ g v n); now rewrite (kept_without B _ _ _ _ g v H).
Qed.

Lemma In_kept (B : Backend) (df : Pandas.DataFrame) (g v : string) (k : cell)
  (x : R) :
  In (k, x) (kept B df g v) <->
  exists r, In r (Pandas.rows df)
            /\ Pandas.at_label (Pandas.columns df) g r = k
            /\ coerce B (Pandas.at_label (Pandas.columns df) v r) = Num x.
Proof.
  unfold kept; rewrite in_flat_map; split.
  - intros [r [Hr H]]; exists r; split; [assumption|].
    destruct (coerce B _) as [|y|t]; simpl in H; try contradiction.
    destruct H as [H|[]]; inversion H; subst; auto.
  - intros [r [Hr [Hk Hx]]]; exists r; split; [assumption|].
    rewrite Hx, Hk; now left.
Qed.

Lemma kept_count (B : Backend) (df : Pandas.DataFrame) (g v : string) (k : cell) :
  List.length (filter (fun p => cell_eqb (fst p) k) (kept B df g v))
  = List.length
      (filter (fun r => cell_eqb (Pandas.at_label (Pandas.columns df) g r) k
                        && parsable B (Pandas.columns df) v r)
              (Pandas.rows df)).
Proof.
  unfold kept, parsable.
  induction (Pandas.rows df) as [|r rs IH]; simpl; [reflexivity|].
  rewrite filter_app, length_app, IH.
  destruct (coerce B _) as [|x|t]; simpl;
    rewrite ?Bool.andb_false_r; try reflexivity.
  rewrite Bool.andb_true_r.
  destruct (cell_eqb _ k); reflexivity.
Qed.

(** C4.  A row whose value does not parse as a number is dropped and nothing
    else is.  A request that carries a file and the three parameters is loaded
    as the table without that row is: it ends with the same answer, or reaches
    the analysis with the same cleaned table.  When the table has both columns
    (two distinct ones) the request reaches the analysis; the table the
    analysis works on holds, in their order, the rows whose value is a number
    after coercion; the answer is computed from that table alone; every row
    whose value is a number is in it; the groups are the group entries of
    those rows, and [n_by_group] counts those rows only. *)
Theorem unparsable_row_dropped (B : Backend) (req : request) (f g v t : string)
  (cols : list string) (before after : list (list cell)) (bad : list cell) :
  get "file" (files req) = Some f ->
  g = strip (or_empty (get "group" (form req))) ->
  v = strip (or_empty (get "value" (form req))) ->
  t = lower B (strip (or_empty (get "test" (form req)))) ->
  g <> "" -> v <> "" -> t <> "" ->
  read_csv B f
  = inr {| Pandas.columns := cols; Pandas.rows := before ++ bad :: after |} ->
  coerce B (Pandas.at_label cols v bad) = NA ->
  load B req
  = match load_table B {| Pandas.columns := cols; Pandas.rows := before ++ after |}
                     g v with
    | inl r => inl r
    | inr cdf => inr (cdf, (g, v, t))
    end
  /\
  (In g cols -> In v cols -> g <> v ->
   exists cdf,
     load B req = inr (cdf, (g, v, t))
     /\ run_stats B req = respond B cdf g v t
     /\ clean B {| Pandas.columns := cols; Pandas.rows := before ++ after |} g v
        = inr cdf
     /\ Pandas.rows cdf
        = map (fun p => [fst p; Num (snd p)])
              (kept B {| Pandas.columns := cols; Pandas.rows := before ++ after |}
                    g v)
     /\ (forall r x, In r (before ++ after) ->
                     coerce B (Pandas.at_label cols v r) = Num x ->
                     In [Pandas.at_label cols g r; Num x] (Pandas.rows cdf))
     /\ (forall k, In k (groups_of cdf g) <->
                   k <> NA
                   /\ exists r, In r (before ++ after)
                                /\ Pandas.at_label cols g r = k
                                /\ parsable B cols v r = true)
     /\ (forall k, In k (groups_of cdf g) ->
                   lookup k (n_by_group_of cdf g v)
                   = Some (List.length
                             (filter (fun r => cell_eqb (Pandas.at_label cols g r) k
                                               && parsable B cols v r)
                                     (before ++ after))))).
Proof.
  intros Hf Eg Ev Et Hg Hv Ht Hr Hbad.
  set (df' := {| Pandas.columns := cols; Pandas.rows := before ++ after |}).
  assert (L0 : load B req
               = match load_table B df' g v with
                 | inl r => inl r
                 | inr cdf => inr (cdf, (g, v, t))
                 end).
  { unfold load; rewrite Hf, <- Eg, <- Ev, <- Et.
    rewrite (neq_eqb _ _ Hg), (neq_eqb _ _ Hv), (neq_eqb _ _ Ht); simpl.
    rewrite Hr.
    now rewrite (load_table_without B cols before after bad g v Hbad). }
  split; [exact L0|].
  intros Ig Iv Hgv.
  assert (L : load B req = inr (two_columns g v (kept B df' g v), (g, v, t))).
  { rewrite L0; unfold load_table.
    assert (Cg : Pandas.has_column df' g = true)
      by (apply has_column_In; exact Ig).
    assert (Cv : Pandas.has_column df' v = true)
      by (apply has_column_In; exact Iv).
    rewrite Cg, Cv; simpl.
    now rewrite (clean_distinct B df' g v Hgv). }
  exists (two_columns g v (kept B df' g v)).
  split; [exact L|].
  split; [now apply run_stats_respond|].
  split; [now apply clean_distinct|].
  split; [reflexivity|].
  split.
  { intros r x Ir Hx; simpl; apply in_map_iff.
    exists (Pandas.at_label cols g r, x); split; [reflexivity|].
    apply In_kept; exists r; auto. }
  split.
  { intros k; rewrite In_groups_of, column_group; split.
    - intros [Hk Hna]; split; [assumption|].
      apply in_map_iff in Hk; destruct Hk as [[k' x] [E Hk]]; simpl in E; subst k'.
      apply In_kept in Hk; destruct Hk as [r [Ir [Hk Hx]]].
      exists r; split; [assumption|]; split; [assumption|].
      unfold parsable; simpl in Hx; now rewrite Hx.
    - intros [Hna [r [Ir [Hk Hp]]]]; split; [|assumption].
      unfold parsable in Hp.
      destruct (coerce B (Pandas.at_label cols v r)) as [|x|s] eqn:Hx;
        try discriminate.
      apply in_map_iff; exists (k, x); split; [reflexivity|].
      apply In_kept; exists r; auto. }
  intros k Hk.
  rewrite n_by_group_of_keys.
  rewrite (PandasFacts.lookup_map
             (fun k => occurrences k
                         (Pandas.column (two_columns g v (kept B df' g v)) g))
             k _ (proj1 (In_groups_of_keys _ _ _) Hk)).
  f_equal.
  rewrite column_group, <- occurrences_fst.
  apply (kept_count B df' g v k).
Qed.

Lemma unparsable_row_dropped_witness :
  load Demo.backend Demo.scenario_c
  = inr (two_columns "group" "value"
           [(Str "A", INR 1); (Str "A", INR 2); (Str "B", INR 3); (Str "B", INR 4)],
         ("group", "value", "ttest"))
  /\ lookup (Str "A")
            (n_by_group_of
               (two_columns "group" "value"
                  [(Str "A", INR 1); (Str "A", INR 2); (Str "B", INR 3);
                   (Str "B", INR 4)])
               "group" "value")
     = Some 2.
Proof.
  destruct (proj2 (unparsable_row_dropped Demo.backend Demo.scenario_c
                     (Demo.unlines ["group,value"; "A,1"; "A,oops"; "A,2"; "B,3";
                                    "B,4"])
                     "group" "value" "ttest"
                     ["group"; "value"]
                     [[Str "A"; Str "1"]]
                     [[Str "A"; Str "2"]; [Str "B"; Str "3"]; [Str "B"; Str "4"]]
                     [Str "A"; Str "oops"]
                     eq_refl eq_refl eq_refl eq_refl
                     ltac:(discriminate) ltac:(discriminate) ltac:(discriminate)
                     eq_refl eq_refl)
                  ltac:(simpl; auto) ltac:(simpl; auto) ltac:(discriminate))
    as [cdf [L [_ [C [_ [_ [_ N]]]]]]].
  inversion C; subst cdf.
  split; [exact L|].
  apply (N (Str "A")); simpl; auto.
Defined.

(* ------------------------------------------------------------------ *)
(** ** Descriptive records *)

Lemma interval_symmetric (m s : float) :
  fsub (fadd m (fmul (Some z95) s)) m = fsub m (fsub m (fmul (Some z95) s)).
Proof.
  destruct m as [m|], s as [s|]; simpl; try reflexivity.
  f_equal; ring.
Qed.

(** C2.  In every record that [descriptives] returns, [sem] is [std] divided
    by the square root of [max(n, 1)], the bounds of the interval are the mean
    minus and plus 1.96 times [sem], and the two bounds are at the same
    distance from the mean.  Floats are read as real numbers, NaN as an absent
    value that every operation hands on. *)
Theorem descriptives_interval (df : Pandas.DataFrame) (g v : string)
  (recs : list Desc.record) (r : Desc.record) :
  descriptives df g v = inr recs ->
  In r recs ->
  Desc.sem r = fdiv (Desc.std r) (Some (sqrt (INR (Nat.max (Desc.n r) 1))))
  /\ Desc.ci95_lo r = fsub (Desc.mean r) (fmul (Some 1.96%R) (Desc.sem r))
  /\ Desc.ci95_hi r = fadd (Desc.mean r) (fmul (Some 1.96%R) (Desc.sem r))
  /\ fsub (Desc.ci95_hi r) (Desc.mean r) = fsub (Desc.mean r) (Desc.ci95_lo r).
Proof.
  intros D H; apply descriptives_inv in D; destruct D as [_ ->].
  unfold aggregate in H; apply in_map_iff in H.
  destruct H as [[k s] [<- _]]; simpl.
  split; [reflexivity|].
  split; [reflexivity|].
  split; [reflexivity|].
  apply interval_symmetric.
Qed.

Lemma descriptives_interval_witness :
  exists r m s,
    In r (aggregate
            (two_columns "group" "value"
               [(Str "A", 1%R); (Str "A", 2%R); (Str "B", 3%R); (Str "B", 4%R)])
            "group" "value")
    /\ Desc.Group r = Str "A" /\ Desc.n r = 2
    /\ Desc.mean r = Some m /\ Desc.sem r = Some s
    /\ Desc.ci95_lo r = Some (m - 1.96 * s)%R
    /\ Desc.ci95_hi r = Some (m + 1.96 * s)%R
    /\ fsub (Desc.ci95_hi r) (Desc.mean r) = fsub (Desc.mean r) (Desc.ci95_lo r).
Proof.
  eexists; eexists; eexists.
  split; [left; reflexivity|].
  repeat (split; [reflexivity|]).
  refine (proj2 (proj2 (proj2
            (descriptives_interval
               (two_columns "group" "value"
                  [(Str "A", 1%R); (Str "A", 2%R); (Str "B", 3%R); (Str "B", 4%R)])
               "group" "value" _ _ eq_refl _)))).
  left; reflexivity.
Defined.

(** The record of a group of the cleaned table that has one row. *)
Lemma aggregate_record (g v : string) (ps : list (cell * R)) (r : Desc.record) :
  g <> v ->
  In r (aggregate (two_columns g v ps) g v) ->
  List.length (filter (fun p => cell_eqb (fst p) (Desc.Group r)) ps) = 1 ->
  (exists m, Desc.mean r = Some m)
  /\ Desc.std r = NaN /\ Desc.sem r = NaN
  /\ Desc.ci95_lo r = NaN /\ Desc.ci95_hi r = NaN.
Proof.
  intros Hgv Hr; unfold aggregate, Pandas.groupby in Hr.
  rewrite map_map in Hr; apply in_map_iff in Hr.
  destruct Hr as [k [<- _]]; simpl.
  rewrite (group_values g v ps k Hgv).
  unfold Pandas.mean, Pandas.std; rewrite astype_float_numbers.
  destruct (filter (fun p => cell_eqb (fst p) k) ps) as [|q [|q' qs]];
    simpl; try discriminate.
  intros _; repeat split; eauto.
Qed.

Lemma occurrences_one_in (k : cell) (s : Pandas.Series) :
  occurrences k s = 1 -> In k s.
Proof.
  intros H; destruct (in_dec cell_eq_dec k s) as [i|ni]; [assumption|].
  rewrite (PandasFacts.occurrences_notin k s ni) in H; discriminate.
Qed.

(** What holds of the groups with one row when [descriptives] returns: the
    record of such a group has a mean and carries the missing marker as [std],
    [sem], [ci95_lo] and [ci95_hi]; every group with exactly one row has such
    a record; no exception leaves the handler; and whenever the requested test
    goes through, the answer is a success payload carrying these records. *)
Lemma single_row_group_missing_fields (B : Backend) (req : request)
  (cdf : Pandas.DataFrame) (g v t : string) (recs : list Desc.record) :
  load B req = inr (cdf, (g, v, t)) ->
  descriptives cdf g v = inr recs ->
  (forall e, run_stats B req <> Uncaught e)
  /\
  (forall r, In r recs -> Desc.n r = 1 ->
             (exists m, Desc.mean r = Some m)
             /\ Desc.std r = NaN /\ Desc.sem r = NaN
             /\ Desc.ci95_lo r = NaN /\ Desc.ci95_hi r = NaN)
  /\
  (forall k, k <> NA -> occurrences k (Pandas.column cdf g) = 1 ->
             exists r, In r recs /\ Desc.Group r = k /\ Desc.n r = 1)
  /\
  (forall name f,
      tests B cdf g v t (groups_of cdf g) = inr (Fallthrough name f) ->
      exists o, run_stats B req = Json (Success o) 200
                /\ ok (Success o) = true
                /\ descriptives_of o = recs).
Proof.
  intros L D; rewrite (run_stats_respond B req cdf g v t L).
  destruct (load_inv B req cdf g v t L)
    as [f [df [_ [_ [_ [_ [_ [_ [_ [_ [_ [_ C]]]]]]]]]]]].
  destruct (clean_inv B df cdf g v C) as [Hgv Ec].
  split; [intros e; now apply (respond_caught B cdf g v t e recs)|].
  destruct (descriptives_inv cdf g v recs D) as [_ Er].
  split; [|split].
  - intros r Hr Hn; subst cdf recs.
    apply (aggregate_record g v _ r Hgv Hr).
    now rewrite occurrences_fst, <- (aggregate_n g v _ r Hgv Hr).
  - intros k Hk Hocc.
    assert (Hkeys : In k (Pandas.group_keys cdf g)).
    { apply PandasFacts.In_group_keys; split; [|assumption].
      now apply occurrences_one_in. }
    rewrite <- (aggregate_groups cdf g v) in Hkeys.
    apply in_map_iff in Hkeys; destruct Hkeys as [r [Ek Hr]].
    exists r; subst recs; repeat split; try assumption.
    subst cdf; rewrite (aggregate_n g v _ r Hgv Hr), Ek.
    now rewrite column_group in Hocc.
  - intros name fl E; unfold respond; rewrite D, E.
    eexists; repeat split.
Qed.

(** C10.  The descriptives are not computed for every cleaned table: when the
    group column bears the name of one of the columns that [descriptives]
    builds, moving the index into the frame raises, and the exception leaves
    the handler uncaught. *)
Theorem descriptives_reserved_label_raises (B : Backend) (req : request)
  (cdf : Pandas.DataFrame) (g v t : string) :
  load B req = inr (cdf, (g, v, t)) ->
  In g ["mean"; "std"; "n"; "sem"; "ci95_lo"; "ci95_hi"] ->
  Pandas.rows cdf <> [] ->
  descriptives cdf g v = inl ("cannot insert " ++ g ++ ", already exists")
  /\ run_stats B req = Uncaught ("cannot insert " ++ g ++ ", already exists").
Proof.
  intros L H _; split.
  - now apply descriptives_raises.
  - now apply (run_stats_reserved_label_uncaught B req cdf g v t).
Qed.

Lemma descriptives_reserved_label_raises_witness :
  load Demo.backend Demo.reserved_label
  = inr (two_columns "n" "value"
           [(Str "low", INR 1); (Str "low", INR 2);
            (Str "high", INR 3); (Str "high", INR 4)],
         ("n", "value", "ttest"))
  /\ run_stats Demo.backend Demo.reserved_label
     = Uncaught "cannot insert n, already exists".
Proof.
  split; [reflexivity|].
  apply (descriptives_reserved_label_raises Demo.backend Demo.reserved_label
           (two_columns "n" "value"
              [(Str "low", INR 1); (Str "low", INR 2);
               (Str "high", INR 3); (Str "high", INR 4)])
           "n" "value" "ttest");
    [reflexivity | simpl; auto | discriminate].
Defined.

(** A request with a group of one row, answered with a success payload. *)
Example single_row_success :
  exists o r,
    run_stats Demo.backend Demo.single_row = Json (Success o) 200
    /\ In r (descriptives_of o)
    /\ Desc.Group r = Str "A" /\ Desc.n r = 1
    /\ Desc.std r = NaN /\ Desc.sem r = NaN
    /\ Desc.ci95_lo r = NaN /\ Desc.ci95_hi r = NaN.
Proof.
  eexists; eexists.
  split; [reflexivity|].
  split; [left; reflexivity|].
  repeat split.
Qed.

(* ------------------------------------------------------------------ *)
(** ** The scenarios of the specification, run on the example backend *)

Example scenario_a_runs :
  exists o,
    run_stats Demo.backend Demo.scenario_a = Json (Success o) 200
    /\ groups o = [Str "A"; Str "B"]
    /\ n_by_group o = [(Str "A", 2); (Str "B", 2)]
    /\ test o = "Welch t-test".
Proof. eexists; repeat split. Qed.

Example scenario_b_runs :
  exists o tbl tukey,
    run_stats Demo.backend Demo.scenario_b = Json (Success o) 200
    /\ groups o = [Str "A"; Str "B"; Str "C"]
    /\ test o = "One-way ANOVA"
    /\ fields o = AnovaFields tbl tukey.
Proof. eexists; eexists; eexists; repeat split. Qed.

Example scenario_c_runs :
  exists o,
    run_stats Demo.backend Demo.scenario_c = Json (Success o) 200
    /\ groups o = [Str "A"; Str "B"]
    /\ n_by_group o = [(Str "A", 2); (Str "B", 2)].
Proof. eexists; repeat split. Qed.

Example scenario_d_runs :
  run_stats Demo.backend Demo.scenario_d
  = Json (Failure "Column not found in CSV."
            [("columns", JStrs ["group"; "value"]);
             ("group_requested", JStr "cohort");
             ("value_requested", JStr "value")])
         400.
Proof. reflexivity. Qed.

(** Whitespace that is not ASCII is trimmed as well: a no-break space before
    the name and an en space after it. *)
Example strip_unicode :
  strip (String (ascii_of_nat 194) (String (ascii_of_nat 160) "group")
         ++ String (ascii_of_nat 226)
              (String (ascii_of_nat 128) (String (ascii_of_nat 130) "")))
  = "group".
Proof. reflexivity. Qed.

(** A field sent twice is listed once, where it is first met. *)
Example keys_first_met :
  keys [("test", "ttest"); ("group", "g"); ("test", "anova")] = ["test"; "group"].
Proof. reflexivity. Qed.

(* ------------------------------------------------------------------ *)
(** * Further properties of the handler *)

(** ** Blank parameters *)

Lemma blank_lstrip (n : nat) :
  forall s, (String.length s <= n)%nat -> blank s = true -> lstrip s = "".
Proof.
  unfold lstrip; induction n as [|n IH]; intros s Hn Hb.
  - destruct s; [reflexivity|simpl in Hn; lia].
  - destruct s as [|a t]; [reflexivity|].
    cbn [blank lstrip_by] in *.
    destruct (is_space a); [apply IH; [simpl in Hn; lia|exact Hb]|].
    destruct t as [|b u]; [discriminate|].
    destruct (is_space2 a b); [apply IH; [simpl in Hn; lia|exact Hb]|].
    destruct u as [|c w]; [discriminate|].
    destruct (is_space3 a b c); [|discriminate].
    apply IH; [simpl in Hn; lia|exact Hb].
Qed.

Lemma blank_strip (s : string) : blank s = true -> strip s = "".
Proof.
  intros H; unfold strip.
  now rewrite (blank_lstrip (String.length s) s (Nat.le_refl _) H).
Qed.

Lemma lower_empty (B : Backend) : lower B "" = "".
Proof. reflexivity. Qed.

(** X1.  A request that carries a file and in which the group, the value or
    the test parameter is absent, empty or made of whitespace only is answered
    with the failure payload that lists the names of the form fields it did
    send; the file is not read. *)
Theorem run_stats_blank_parameter (B : Backend) (req : request) (f : string) :
  get "file" (files req) = Some f ->
  blank (or_empty (get "group" (form req))) = true
  \/ blank (or_empty (get "value" (form req))) = true
  \/ blank (or_empty (get "test" (form req))) = true ->
  run_stats B req
  = Json (Failure "Missing group/value/test parameters."
                  [("params", JStrs (keys (form req)))]) 400.
Proof.
  intros Hf H; unfold run_stats, load; rewrite Hf.
  assert (E : String.eqb (strip (or_empty (get "group" (form req)))) ""
              || String.eqb (strip (or_empty (get "value" (form req)))) ""
              || String.eqb (lower B
                               (strip (or_empty (get "test" (form req))))) ""
              = true).
  { destruct H as [H|[H|H]]; apply blank_strip in H; rewrite H;
      rewrite ?lower_empty; simpl; rewrite ?Bool.orb_true_r; reflexivity. }
  now rewrite E.
Qed.

Lemma run_stats_blank_parameter_witness :
  run_stats Demo.backend
            (Demo.post ["group,value"; "A,1"; "B,2"] "group" "   " "ttest")
  = Json (Failure "Missing group/value/test parameters."
                  [("params", JStrs ["group"; "value"; "test"])]) 400.
Proof.
  apply (run_stats_blank_parameter Demo.backend
           (Demo.post ["group,value"; "A,1"; "B,2"] "group" "   " "ttest")
           (Demo.unlines ["group,value"; "A,1"; "B,2"]));
    [reflexivity | right; left; reflexivity].
Defined.

(** ** Statuses *)

(** An exception inside the [try] block comes from one of the procedures. *)
Lemma tests_raise (B : Backend) (df : Pandas.DataFrame) (g v t : string)
  (gs : list cell) (e : string) :
  tests B df g v t gs = inl e ->
  (exists a b, ttest_ind B a b = inl e)
  \/ (exists f d, anova_lm B f d = inl e)
  \/ (exists a b, pairwise_tukeyhsd B a b = inl e)
  \/ (exists l, kruskal B l = inl e)
  \/ (exists d a b, posthoc_dunn B d a b = inl e).
Proof.
  unfold tests, json_error.
  destruct (String.eqb t "ttest").
  { destruct (negb (Nat.eqb (List.length gs) 2)); [discriminate|].
    destruct (ttest_ind B _ _) as [e'|[t' p]] eqn:E; [|discriminate].
    intros H; inversion H; subst; left; eauto. }
  destruct (String.eqb t "anova").
  { destruct (Nat.ltb (List.length gs) 3); [discriminate|].
    destruct (anova_lm B _ _) as [e'|tbl] eqn:E.
    - intros H; inversion H; subst; right; left; eauto.
    - destruct (pairwise_tukeyhsd B _ _) as [e'|tukey] eqn:E'; [|discriminate].
      intros H; inversion H; subst; right; right; left; eauto. }
  destruct (String.eqb t "kruskal").
  { destruct (Nat.ltb (List.length gs) 3); [discriminate|].
    destruct (kruskal B _) as [e'|[H p]] eqn:E.
    - intros H; inversion H; subst; right; right; right; left; eauto.
    - destruct (posthoc_dunn B _ _ _) as [e'|dunn] eqn:E'; [|discriminate].
      intros H'; inversion H'; subst; right; right; right; right; eauto. }
  discriminate.
Qed.

(** X2.  Whenever the handler answers with a payload, the status is 200 with a
    success payload, or 400 or 500 with a failure payload; and a status 500
    is only ever the answer to an exception raised by one of the statistical
    procedures, whose message it carries as [detail]. *)
Theorem run_stats_status (B : Backend) (req : request) (p : payload) (st : nat) :
  run_stats B req = Json p st ->
  ((st = 200 /\ ok p = true) \/ (st = 400 /\ ok p = false)
   \/ (st = 500 /\ ok p = false))
  /\
  (st = 500 ->
   exists e,
     p = Failure "Exception during analysis." [("detail", JStr e)]
     /\ ((exists a b, ttest_ind B a b = inl e)
         \/ (exists f d, anova_lm B f d = inl e)
         \/ (exists a b, pairwise_tukeyhsd B a b = inl e)
         \/ (exists l, kruskal B l = inl e)
         \/ (exists d a b, posthoc_dunn B d a b = inl e))).
Proof.
  unfold run_stats.
  destruct (load B req) as [r|[cdf [[g v] t]]] eqn:L.
  - intros ->; apply load_failure in L.
    destruct L as [[msg [extra L]]|[e L]]; [|discriminate].
    inversion L; subst; split; [right; left; now split|discriminate].
  - unfold respond, json_error, jsonify.
    destruct (descriptives cdf g v) as [e|recs]; [discriminate|].
    destruct (tests B cdf g v t (groups_of cdf g)) as [e|[r|name fl]] eqn:E.
    + intros H; inversion H; subst; split; [right; right; now split|].
      intros _; exists e; split; [reflexivity|].
      now apply tests_raise in E.
    + apply tests_return in E; destruct E as [msg [extra ->]].
      intros H; inversion H; subst; split; [right; left; now split|discriminate].
    + intros H; inversion H; subst; split; [left; now split|discriminate].
Qed.

Lemma run_stats_status_witness :
  exists e,
    run_stats
      {| read_csv := read_csv Demo.backend;
         parse_float := parse_float Demo.backend;
         unicode_lower := unicode_lower Demo.backend;
         ttest_ind := fun _ _ => inl "division by zero";
         anova_lm := anova_lm Demo.backend;
         pairwise_tukeyhsd := pairwise_tukeyhsd Demo.backend;
         kruskal := kruskal Demo.backend;
         posthoc_dunn := posthoc_dunn Demo.backend |}
      Demo.scenario_a
    = Json (Failure "Exception during analysis." [("detail", JStr e)]) 500.
Proof.
  destruct (proj2 (run_stats_status
                     {| read_csv := read_csv Demo.backend;
                        parse_float := parse_float Demo.backend;
                        unicode_lower := unicode_lower Demo.backend;
                        ttest_ind := fun _ _ => inl "division by zero";
                        anova_lm := anova_lm Demo.backend;
                        pairwise_tukeyhsd := pairwise_tukeyhsd Demo.backend;
                        kruskal := kruskal Demo.backend;
                        posthoc_dunn := posthoc_dunn Demo.backend |}
                     Demo.scenario_a
                     (Failure "Exception during analysis."
                              [("detail", JStr "division by zero")])
                     500 eq_refl) eq_refl) as [e [He _]].
  exists e; now rewrite <- He.
Defined.

(** ** Parameters are read up to blanks and case *)

(** X3.  Two requests with the same file and the same form field names whose
    group and value parameters agree once trimmed, and whose test parameters
    agree once trimmed and put in lower case, get the same answer. *)
Theorem run_stats_normal_form (B : Backend) (req req' : request) :
  get "file" (files req) = get "file" (files req') ->
  keys (form req) = keys (form req') ->
  strip (or_empty (get "group" (form req)))
  = strip (or_empty (get "group" (form req'))) ->
  strip (or_empty (get "value" (form req)))
  = strip (or_empty (get "value" (form req'))) ->
  lower B (strip (or_empty (get "test" (form req))))
  = lower B (strip (or_empty (get "test" (form req')))) ->
  run_stats B req = run_stats B req'.
Proof.
  intros Hf Hk Hg Hv Ht; unfold run_stats, load.
  now rewrite Hf, Hk, Hg, Hv, Ht.
Qed.

Lemma run_stats_normal_form_witness :
  run_stats Demo.backend
            (Demo.post ["group,value"; "A,1"; "A,2"; "B,3"; "B,4"]
                       " group" "value  " " TTest ")
  = run_stats Demo.backend Demo.scenario_a.
Proof.
  apply (run_stats_normal_form Demo.backend
           (Demo.post ["group,value"; "A,1"; "A,2"; "B,3"; "B,4"]
                      " group" "value  " " TTest ")
           Demo.scenario_a); reflexivity.
Defined.

(** ** The order of the records *)

Lemma cell_leb_total (a b : cell) : cell_leb a b = true \/ cell_leb b a = true.
Proof.
  destruct a as [|x|s], b as [|y|t]; simpl; auto.
  - destruct (Rle_dec x y) as [H|H]; [now left|right].
    destruct (Rle_dec y x) as [H'|H']; [reflexivity|].
    exfalso; apply H; left; now apply Rnot_le_lt.
  - apply String.leb_total.
Qed.

Lemma insert_key_sorted (k : cell) (l : list cell) :
  Sorted cell_le l -> Sorted cell_le (Pandas.insert_key k l).
Proof.
  induction 1 as [|h t S IH Hd]; simpl; [repeat constructor|].
  destruct (cell_leb k h) eqn:E.
  - constructor; [now constructor|now constructor].
  - constructor; [exact IH|].
    assert (Hh : cell_le h k).
    { destruct (cell_leb_total k h) as [H|H]; [congruence|exact H]. }
    destruct t as [|h' t']; simpl; [now constructor|].
    destruct (cell_leb k h'); constructor; [exact Hh|].
    now inversion Hd.
Qed.

Lemma sort_keys_sorted (l : list cell) : Sorted cell_le (Pandas.sort_keys l).
Proof.
  induction l as [|h t IH]; simpl; [constructor|now apply insert_key_sorted].
Qed.

(** X4.  In every success payload there is exactly one descriptive record and
    one entry of [n_by_group] per element of [groups]; the two list the groups
    in the same order, the sorted one, which is a rearrangement of the order
    of first appearance that [groups] has. *)
Theorem success_records_sorted (B : Backend) (req : request) (o : out) (st : nat) :
  run_stats B req = Json (Success o) st ->
  map fst (n_by_group o) = map Desc.Group (descriptives_of o)
  /\ Sorted cell_le (map Desc.Group (descriptives_of o))
  /\ Permutation (groups o) (map Desc.Group (descriptives_of o))
  /\ NoDup (map Desc.Group (descriptives_of o))
  /\ List.length (descriptives_of o) = List.length (groups o)
  /\ List.length (n_by_group o) = List.length (groups o).
Proof.
  intros S; apply run_stats_success in S.
  destruct S as [cdf [g [v [t [_ [_ [Eg [En [Ed _]]]]]]]]].
  apply descriptives_inv in Ed; destruct Ed as [_ Ed].
  assert (P : Permutation (groups_of cdf g) (Pandas.group_keys cdf g)).
  { unfold groups_of, Pandas.group_keys.
    apply Permutation_sym, PandasFacts.sort_keys_perm. }
  rewrite Eg, En, Ed, n_by_group_of_fst, aggregate_groups.
  split; [reflexivity|].
  split; [apply sort_keys_sorted|].
  split; [exact P|].
  split; [apply PandasFacts.NoDup_group_keys|].
  split.
  - rewrite <- (length_map Desc.Group), aggregate_groups.
    symmetry; now apply Permutation_length.
  - rewrite <- (length_map fst), n_by_group_of_fst.
    symmetry; now apply Permutation_length.
Qed.

Lemma success_records_sorted_witness :
  exists o,
    run_stats Demo.backend
              (Demo.post ["group,value"; "B,1"; "A,2"; "B,3"; "A,4"]
                         "group" "value" "ttest")
    = Json (Success o) 200
    /\ groups o = [Str "B"; Str "A"]
    /\ map Desc.Group (descriptives_of o) = [Str "A"; Str "B"]
    /\ map fst (n_by_group o) = map Desc.Group (descriptives_of o).
Proof.
  eexists; split; [reflexivity|].
  split; [reflexivity|]. split; [reflexivity|].
  exact (proj1 (success_records_sorted Demo.backend
                  (Demo.post ["group,value"; "B,1"; "A,2"; "B,3"; "A,4"]
                             "group" "value" "ttest") _ 200 eq_refl)).
Defined.

(** X5.  In every success payload the [n] of a descriptive record is the count
    that [n_by_group] gives for the group of the record. *)
Theorem success_counts_agree (B : Backend) (req : request) (o : out) (st : nat)
  (r : Desc.record) :
  run_stats B req = Json (Success o) st ->
  In r (descriptives_of o) ->
  lookup (Desc.Group r) (n_by_group o) = Some (Desc.n r).
Proof.
  intros S Hr; apply run_stats_success in S.
  destruct S as [cdf [g [v [t [L [_ [_ [En [Ed _]]]]]]]]].
  apply descriptives_inv in Ed; destruct Ed as [_ Ed].
  destruct (load_inv B req cdf g v t L)
    as [f [df [_ [_ [_ [_ [_ [_ [_ [_ [_ [_ C]]]]]]]]]]]].
  destruct (clean_inv B df cdf g v C) as [Hgv Ec].
  rewrite En, n_by_group_of_keys; rewrite Ed in Hr.
  assert (Hk : In (Desc.Group r) (Pandas.group_keys cdf g)).
  { rewrite <- (aggregate_groups cdf g v); now apply in_map. }
  rewrite (PandasFacts.lookup_map
             (fun k => occurrences k (Pandas.column cdf g)) _ _ Hk).
  subst cdf; rewrite column_group.
  now rewrite (aggregate_n g v _ r Hgv Hr).
Qed.

Lemma success_counts_agree_witness :
  exists o r,
    run_stats Demo.backend Demo.single_row = Json (Success o) 200
    /\ In r (descriptives_of o)
    /\ Desc.Group r = Str "B" /\ Desc.n r = 2
    /\ lookup (Desc.Group r) (n_by_group o) = Some (Desc.n r).
Proof.
  eexists; eexists; split; [reflexivity|].
  split; [right; left; reflexivity|].
  split; [reflexivity|]. split; [reflexivity|].
  refine (success_counts_agree Demo.backend Demo.single_row _ 200 _ eq_refl _).
  right; left; reflexivity.
Defined.

(** ** The interval around the mean *)

Lemma std_nonneg (s : Pandas.Series) (sd : R) :
  Pandas.std s = Some sd -> (0 <= sd)%R.
Proof.
  unfold Pandas.std.
  destruct (Pandas.astype_float s) as [|x [|y xs]]; try discriminate.
  intros H; inversion H; apply sqrt_pos.
Qed.

Lemma sqrt_clip_pos (n : nat) : (0 < sqrt (INR (Pandas.clip_lower 1 n)))%R.
Proof.
  apply sqrt_lt_R0, lt_0_INR; unfold Pandas.clip_lower; lia.
Qed.

(** X6.  In a record that [descriptives] returns with a mean and a standard
    error that are numbers, the standard error is not negative, both bounds of
    the interval are numbers, the mean lies between them, and the interval is
    2 * 1.96 standard errors wide. *)
Theorem descriptives_interval_order (df : Pandas.DataFrame) (g v : string)
  (recs : list Desc.record) (r : Desc.record) (m s : R) :
  descriptives df g v = inr recs ->
  In r recs ->
  Desc.mean r = Some m ->
  Desc.sem r = Some s ->
  (0 <= s)%R
  /\ exists lo hi,
      Desc.ci95_lo r = Some lo /\ Desc.ci95_hi r = Some hi
      /\ (lo <= m <= hi)%R /\ (hi - lo = 2 * 1.96 * s)%R.
Proof.
  intros D H; apply descriptives_inv in D; destruct D as [_ ->].
  unfold aggregate in H; apply in_map_iff in H.
  destruct H as [[k ser] [<- _]]; simpl.
  intros Hm Hs; rewrite Hm.
  destruct (Pandas.std ser) as [sd|] eqn:Esd; [|discriminate].
  simpl in Hs; inversion Hs as [Es]; simpl.
  assert (Hsd : (0 <= sd)%R) by now apply std_nonneg in Esd.
  pose proof (sqrt_clip_pos (Pandas.count ser)) as Hq.
  set (q := sqrt (INR (Pandas.clip_lower 1 (Pandas.count ser)))) in *.
  assert (Hpos : (0 <= sd / q)%R).
  { unfold Rdiv; apply Rmult_le_pos; [exact Hsd|].
    left; now apply Rinv_0_lt_compat. }
  split; [exact Hpos|].
  eexists; eexists; split; [reflexivity|]; split; [reflexivity|].
  unfold z95; split; [split|]; nra.
Qed.

Lemma descriptives_interval_order_witness :
  exists r m s,
    In r (aggregate
            (two_columns "group" "value"
               [(Str "A", 1%R); (Str "A", 2%R); (Str "B", 3%R); (Str "B", 4%R)])
            "group" "value")
    /\ Desc.mean r = Some m /\ Desc.sem r = Some s /\ (0 <= s)%R.
Proof.
  eexists; eexists; eexists.
  split; [left; reflexivity|].
  split; [reflexivity|]. split; [reflexivity|].
  refine (proj1 (descriptives_interval_order
                   (two_columns "group" "value"
                      [(Str "A", 1%R); (Str "A", 2%R);
                       (Str "B", 3%R); (Str "B", 4%R)])
                   "group" "value" _ _ _ _ eq_refl _ _ _));
    [left; reflexivity | reflexivity | reflexivity].
Defined.

(** ** The samples handed to the tests *)

(** X7.  The sample of a group is made of the values of the rows of the
    dataset that carry the group and whose value is a number after coercion,
    in the order of the rows; its size is the count that [n_by_group] gives
    for the group; and the samples of all the groups together hold as many
    values as there are cleaned rows whose group entry is not missing. *)
Theorem samples_by_group (B : Backend) (df cdf : Pandas.DataFrame) (g v : string) :
  clean B df g v = inr cdf ->
  (forall k,
      sample cdf g v k
      = map snd (filter (fun p => cell_eqb (fst p) k) (kept B df g v)))
  /\
  (forall k, In k (groups_of cdf g) ->
             lookup k (n_by_group_of cdf g v)
             = Some (List.length (sample cdf g v k)))
  /\
  list_sum (map (fun k => List.length (sample cdf g v k)) (groups_of cdf g))
  = List.length (filter (fun p => notna (fst p)) (kept B df g v)).
Proof.
  intros C; destruct (clean_inv B df cdf g v C) as [Hgv ->].
  assert (S : forall k,
             sample (two_columns g v (kept B df g v)) g v k
             = map snd (filter (fun p => cell_eqb (fst p) k) (kept B df g v))).
  { intros k; unfold sample.
    now rewrite (group_values g v _ k Hgv), astype_float_numbers. }
  assert (N : forall k,
             List.length (sample (two_columns g v (kept B df g v)) g v k)
             = occurrences k (map fst (kept B df g v))).
  { intros k; now rewrite S, length_map, occurrences_fst. }
  split; [exact S|split].
  - intros k Hk; rewrite n_by_group_of_keys, N, column_group.
    apply (PandasFacts.lookup_map
             (fun k => occurrences k (map fst (kept B df g v)))).
    now apply In_groups_of_keys.
  - rewrite (map_ext _ _ N).
    unfold groups_of; rewrite column_group.
    rewrite <- PandasFacts.length_filter_map.
    fold (Pandas.dropna (map fst (kept B df g v))).
    rewrite <- PandasFacts.sum_occurrences_unique.
    f_equal; apply map_ext_in; intros k Hk.
    apply PandasFacts.In_unique, PandasFacts.In_dropna in Hk.
    symmetry; now apply PandasFacts.occurrences_dropna.
Qed.

Lemma samples_by_group_witness :
  sample (two_columns "group" "value"
            [(Str "B", INR 1); (NA, INR 5); (Str "A", INR 2); (Str "B", INR 3)])
         "group" "value" (Str "B")
  = [INR 1; INR 3].
Proof.
  apply (proj1 (samples_by_group Demo.backend
                  {| Pandas.columns := ["value"; "group"];
                     Pandas.rows := [[Str "1"; Str "B"]; [Num (INR 5); NA];
                                     [Str "oops"; Str "B"]; [Str "2"; Str "A"];
                                     [Num (INR 3); Str "B"]] |}
                  (two_columns "group" "value"
                     [(Str "B", INR 1); (NA, INR 5);
                      (Str "A", INR 2); (Str "B", INR 3)])
                  "group" "value" eq_refl) (Str "B")).
Defined.

(** ** Degenerate datasets *)

Lemma Rsum_const (xs : list R) (x : R) :
  Forall (fun y => y = x) xs -> Pandas.Rsum xs = (INR (List.length xs) * x)%R.
Proof.
  induction 1 as [|y ys Hy _ IH]; [simpl; ring|].
  change (Pandas.Rsum (y :: ys)) with (y + Pandas.Rsum ys)%R.
  change (List.length (y :: ys)) with (S (List.length ys)).
  rewrite IH, Hy, S_INR; ring.
Qed.

Lemma Rsum_zero (xs : list R) :
  Forall (fun y => y = 0%R) xs -> Pandas.Rsum xs = 0%R.
Proof.
  intros H; rewrite (Rsum_const xs 0%R H); ring.
Qed.

Lemma mean_const (s : Pandas.Series) (x : R) :
  Pandas.astype_float s <> [] ->
  Forall (fun y => y = x) (Pandas.astype_float s) ->
  Pandas.mean s = Some x.
Proof.
  unfold Pandas.mean; intros Hne H.
  rewrite (Rsum_const _ x H).
  destruct (Pandas.astype_float s) as [|y ys]; [now elim Hne|].
  f_equal; field.
  apply not_0_INR; simpl; discriminate.
Qed.

Lemma std_const (s : Pandas.Series) (x : R) :
  2 <= List.length (Pandas.astype_float s) ->
  Forall (fun y => y = x) (Pandas.astype_float s) ->
  Pandas.std s = Some 0%R.
Proof.
  unfold Pandas.std; intros Hlen H.
  rewrite (Rsum_const _ x H).
  destruct (Pandas.astype_float s) as [|y [|z zs]] eqn:E;
    [simpl in Hlen; lia | simpl in Hlen; lia |].
  f_equal.
  rewrite Rsum_zero.
  - unfold Rdiv; rewrite Rmult_0_l; apply sqrt_0.
  - apply Forall_forall; intros d Hd; apply in_map_iff in Hd.
    destruct Hd as [w [<- Hw]].
    rewrite Forall_forall in H; rewrite (H w Hw).
    field; apply not_0_INR; simpl; discriminate.
Qed.

(** X8.  A group of two rows or more whose values are all the same number has
    that number as mean, 0 as standard deviation and as standard error, and an
    interval reduced to the mean. *)
Theorem constant_group_record (B : Backend) (df cdf : Pandas.DataFrame)
  (g v : string) (recs : list Desc.record) (r : Desc.record) (x : R) :
  clean B df g v = inr cdf ->
  descriptives cdf g v = inr recs ->
  In r recs ->
  2 <= Desc.n r ->
  (forall p, In p (kept B df g v) -> fst p = Desc.Group r -> snd p = x) ->
  Desc.mean r = Some x
  /\ Desc.std r = Some 0%R /\ Desc.sem r = Some 0%R
  /\ Desc.ci95_lo r = Some x /\ Desc.ci95_hi r = Some x.
Proof.
  intros C D Hr Hn Hx.
  destruct (clean_inv B df cdf g v C) as [Hgv ->].
  apply descriptives_inv in D; destruct D as [_ ->].
  pose proof (aggregate_n g v _ r Hgv Hr) as En.
  unfold aggregate, Pandas.groupby in Hr.
  rewrite map_map in Hr; apply in_map_iff in Hr.
  destruct Hr as [k [<- _]]; simpl in *.
  set (ser := Pandas.column
                (Pandas.rows_where (two_columns g v (kept B df g v)) g k) v) in *.
  assert (Ev : Pandas.astype_float ser
               = map snd (filter (fun p => cell_eqb (fst p) k) (kept B df g v))).
  { unfold ser; now rewrite (group_values g v _ k Hgv), astype_float_numbers. }
  assert (Hall : Forall (fun y => y = x) (Pandas.astype_float ser)).
  { rewrite Ev; apply Forall_forall; intros y Hy.
    apply in_map_iff in Hy; destruct Hy as [p [<- Hp]].
    apply filter_In in Hp; destruct Hp as [Hp E].
    apply cell_eqb_eq in E; now apply Hx. }
  assert (Hlen : 2 <= List.length (Pandas.astype_float ser)).
  { rewrite Ev, length_map, occurrences_fst, <- En; exact Hn. }
  assert (Hne : Pandas.astype_float ser <> []).
  { intros E; rewrite E in Hlen; simpl in Hlen; lia. }
  rewrite (mean_const ser x Hne Hall), (std_const ser x Hlen Hall); simpl.
  assert (Z : (0 / sqrt (INR (Pandas.clip_lower 1 (Pandas.count ser))) = 0)%R).
  { unfold Rdiv; apply Rmult_0_l. }
  rewrite Z.
  repeat split; f_equal; unfold z95; ring.
Qed.

Lemma constant_group_record_witness :
  exists r,
    In r (aggregate
            (two_columns "group" "value"
               [(Str "A", 7%R); (Str "A", 7%R); (Str "B", 3%R)])
            "group" "value")
    /\ Desc.Group r = Str "A"
    /\ Desc.mean r = Some 7%R /\ Desc.std r = Some 0%R
    /\ Desc.ci95_lo r = Some 7%R /\ Desc.ci95_hi r = Some 7%R.
Proof.
  eexists; split; [left; reflexivity|].
  split; [reflexivity|].
  destruct (constant_group_record Demo.backend
              {| Pandas.columns := ["group"; "value"];
                 Pandas.rows := [[Str "A"; Num 7%R]; [Str "A"; Num 7%R];
                                 [Str "B"; Num 3%R]] |}
              (two_columns "group" "value"
                 [(Str "A", 7%R); (Str "A", 7%R); (Str "B", 3%R)])
              "group" "value" _ _ 7%R eq_refl eq_refl
              (or_introl eq_refl) (le_n 2))
    as [Hm [Hs [_ [Hlo Hhi]]]].
  - simpl; intros p [<-|[<-|[<-|[]]]]; simpl; intros E;
      try reflexivity; discriminate.
  - repeat split; assumption.
Defined.

(** X9.  A request that comes to the tests with fewer than two groups in its
    cleaned table (an empty table among them) is answered with a failure
    payload of status 400, whatever test it asks for. *)
Theorem run_stats_fewer_than_two_groups (B : Backend) (req : request)
  (cdf : Pandas.DataFrame) (g v t : string) (recs : list Desc.record) :
  load B req = inr (cdf, (g, v, t)) ->
  descriptives cdf g v = inr recs ->
  List.length (groups_of cdf g) < 2 ->
  exists msg extra, run_stats B req = Json (Failure msg extra) 400.
Proof.
  intros L D Hn; rewrite (run_stats_respond B req cdf g v t L).
  unfold respond; rewrite D; unfold tests, json_error.
  assert (E2 : Nat.eqb (List.length (groups_of cdf g)) 2 = false)
    by (apply Nat.eqb_neq; lia).
  assert (E3 : Nat.ltb (List.length (groups_of cdf g)) 3 = true)
    by (apply Nat.ltb_lt; lia).
  rewrite E2, E3; simpl.
  destruct (String.eqb t "ttest"); [eauto|].
  destruct (String.eqb t "anova"); [eauto|].
  destruct (String.eqb t "kruskal"); eauto.
Qed.

Lemma run_stats_fewer_than_two_groups_witness :
  exists msg extra,
    run_stats Demo.backend
              (Demo.post ["group,value"; "A,oops"; "B,"] "group" "value" "kruskal")
    = Json (Failure msg extra) 400.
Proof.
  apply (run_stats_fewer_than_two_groups Demo.backend
           (Demo.post ["group,value"; "A,oops"; "B,"] "group" "value" "kruskal")
           (two_columns "group" "value" []) "group" "value" "kruskal" []);
    [reflexivity | reflexivity | simpl; lia].
Defined.

(* ------------------------------------------------------------------ *)
(** * Properties of the CSV tables *)

Module FilesFacts.
Import Files.

Lemma lookup_put_same (loc : string) (nd : node) (s : fs) :
  lookup_file loc (put_file loc nd s) = Some nd.
Proof.
  induction s as [|[l x] t IH]; simpl.
  - now rewrite String.eqb_refl.
  - destruct (String.eqb l loc) eqn:E; simpl; now rewrite E.
Qed.

Lemma lookup_put_other (loc loc' : string) (nd : node) (s : fs) :
  loc' <> loc -> lookup_file loc' (put_file loc nd s) = lookup_file loc' s.
Proof.
  intros H; induction s as [|[l x] t IH]; simpl.
  - assert (E : String.eqb loc loc' = false) by (apply String.eqb_neq; congruence).
    now rewrite E.
  - destruct (String.eqb l loc) eqn:E; simpl.
    + apply String.eqb_eq in E; subst l.
      assert (E' : String.eqb loc loc' = false)
        by (apply String.eqb_neq; congruence).
      now rewrite E'.
    + destruct (String.eqb l loc'); [reflexivity|exact IH].
Qed.

Lemma append_assoc (a b c : string) : (a ++ b) ++ c = a ++ (b ++ c).
Proof. induction a as [|x a IH]; simpl; [reflexivity|now rewrite IH]. Qed.

Lemma append_empty_r (s : string) : s ++ "" = s.
Proof. induction s as [|a s IH]; simpl; [reflexivity|now rewrite IH]. Qed.

Lemma flat_text_app (l l' : list string) :
  flat_text (l ++ l') = flat_text l ++ flat_text l'.
Proof.
  induction l as [|x l IH]; simpl; [reflexivity|].
  now rewrite IH, append_assoc.
Qed.

Lemma length_cleaned (os : Os) (cols : list string) (row : list (string * pyval))
  (ts : string) :
  List.length (cleaned os cols row ts) = S (List.length cols).
Proof.
  unfold cleaned; rewrite length_app, length_map; simpl; lia.
Qed.

Lemma allowed_names (c : string) (cols : list string) :
  allowed c ALLOWED_CSV = Some cols ->
  c = "animal_log" \/ c = "lab_notebook" \/ c = "meeting_notes".
Proof.
  unfold allowed, ALLOWED_CSV.
  destruct (String.eqb c "animal_log") eqn:E1;
    [apply String.eqb_eq in E1; auto|].
  destruct (String.eqb c "lab_notebook") eqn:E2;
    [apply String.eqb_eq in E2; auto|].
  destruct (String.eqb c "meeting_notes") eqn:E3;
    [apply String.eqb_eq in E3; auto|discriminate].
Qed.

(** The header of a table can be encoded. *)
Lemma header_encodable (c : string) (cols : list string) :
  allowed c ALLOWED_CSV = Some cols ->
  has_surrogate (csv_line (cols ++ ["_ts"])) = false.
Proof.
  intros H; pose proof (allowed_names c cols H) as N.
  destruct N as [-> | [-> | ->]]; inversion H; subst; reflexivity.
Qed.

(** ** Files opened and written *)

Lemma lookup_open_other (loc loc' name : string) (s : fs) :
  loc' <> loc -> lookup_file loc' (open_append loc name s) = lookup_file loc' s.
Proof.
  intros H; unfold open_append.
  destruct (lookup_file loc s); [reflexivity|now apply lookup_put_other].
Qed.

Lemma lookup_append_other (loc loc' t : string) (s : fs) :
  loc' <> loc -> lookup_file loc' (append_text loc t s) = lookup_file loc' s.
Proof.
  intros H; unfold append_text.
  destruct (lookup_file loc s); [now apply lookup_put_other|reflexivity].
Qed.

Lemma lookup_append_same (loc t : string) (s : fs) (nd : node) :
  lookup_file loc s = Some nd ->
  lookup_file loc (append_text loc t s)
  = Some {| name := name nd; listed := listed nd; decodable := decodable nd;
            text := text nd ++ t |}.
Proof. intros H; unfold append_text; rewrite H; apply lookup_put_same. Qed.

Lemma lookup_open_same (loc name : string) (s : fs) :
  lookup_file loc (open_append loc name s)
  = Some (opened name (lookup_file loc s)).
Proof.
  unfold open_append, opened.
  destruct (lookup_file loc s) eqn:E; [exact E|apply lookup_put_same].
Qed.

(** The block under the lock changes no other file. *)
Lemma locked_frame (os : Os) (s : fs) (t : ticket) (loc : string) :
  loc <> locate os (t_path t) ->
  lookup_file loc (snd (locked os s t)) = lookup_file loc s.
Proof.
  intros H; unfold locked, write.
  destruct (t_new_file t); [destruct (has_surrogate (t_header t))|];
    destruct (has_surrogate (t_row t)); simpl;
    rewrite ?lookup_append_other by exact H;
    now apply lookup_open_other.
Qed.

(** What the block under the lock returns. *)
Lemma locked_result (os : Os) (s : fs) (t : ticket) :
  has_surrogate (t_header t) = false ->
  fst (locked os s t)
  = if has_surrogate (t_row t) then inl (encode_error os (t_row t))
    else inr (t_path t).
Proof.
  intros H; unfold locked, write; rewrite H.
  destruct (t_new_file t); destruct (has_surrogate (t_row t)); reflexivity.
Qed.

(** What the block under the lock leaves in the file. *)
Lemma locked_file (os : Os) (s : fs) (t : ticket) :
  has_surrogate (t_header t) = false ->
  exists nd,
    lookup_file (locate os (t_path t)) (snd (locked os s t)) = Some nd
    /\ text nd
       = text (opened (t_name t) (lookup_file (locate os (t_path t)) s))
         ++ (if t_new_file t then t_header t else "")
         ++ (if has_surrogate (t_row t) then "" else t_row t)
    /\ name nd = name (opened (t_name t) (lookup_file (locate os (t_path t)) s))
    /\ listed nd
       = listed (opened (t_name t) (lookup_file (locate os (t_path t)) s))
    /\ decodable nd
       = decodable (opened (t_name t) (lookup_file (locate os (t_path t)) s)).
Proof.
  intros H; unfold locked, write; rewrite H.
  set (loc := locate os (t_path t)).
  pose proof (lookup_open_same loc (t_name t) s) as O.
  set (nd0 := opened (t_name t) (lookup_file loc s)) in *.
  destruct (t_new_file t); destruct (has_surrogate (t_row t)); simpl.
  - eexists; split; [apply (lookup_append_same _ _ _ _ O)|simpl].
    rewrite append_empty_r; repeat split.
  - eexists; split;
      [apply (lookup_append_same _ _ _ _ (lookup_append_same _ _ _ _ O))|simpl].
    rewrite append_assoc; repeat split.
  - exists nd0; split; [exact O|].
    simpl; rewrite append_empty_r; repeat split.
  - eexists; split; [apply (lookup_append_same _ _ _ _ O)|simpl].
    repeat split.
Qed.

(** A row that cannot be encoded leaves a file that was there as it was. *)
Lemma locked_unchanged (os : Os) (s : fs) (t : ticket) :
  lookup_file (locate os (t_path t)) s <> None ->
  t_new_file t = false ->
  has_surrogate (t_row t) = true ->
  snd (locked os s t) = s.
Proof.
  intros E N Su; unfold locked, write, open_append; rewrite N, Su.
  destruct (lookup_file _ s); [reflexivity|now elim E].
Qed.

(** A file that is there stays there. *)
Lemma locked_keeps_files (os : Os) (s : fs) (t : ticket) (loc : string) :
  has_surrogate (t_header t) = false ->
  lookup_file loc s <> None -> lookup_file loc (snd (locked os s t)) <> None.
Proof.
  intros H E; destruct (string_dec loc (locate os (t_path t))) as [->|n].
  - destruct (locked_file os s t H) as [nd [L _]]; rewrite L; discriminate.
  - now rewrite (locked_frame os s t loc n).
Qed.

(** ** One request *)

Lemma inputs_refused (os : Os) (b : body) (r : append_reply) :
  inputs os b = inr (inl r) -> r = Refused "csv_name and row required" 400.
Proof.
  unfold inputs.
  destruct (payload_of os b) as [e|payload]; [discriminate|].
  destruct (pget payload "csv_name") as [e|c]; [discriminate|].
  destruct (pstrip (por c (PyStr ""))) as [e|n]; [discriminate|].
  destruct (pget payload "row") as [e|x]; [discriminate|].
  destruct (por x (PyDict [])) as [|y|row|y z w];
    try (intros H; inversion H; reflexivity).
  destruct (String.eqb n ""); intros H; inversion H; reflexivity.
Qed.

(** A request run alone is a request that arrives and goes on at once. *)
Lemma append_csv_alone (os : Os) (ts : string) (s : fs) (b : body) :
  append_csv os ts s b
  = match arrive os ts s b with
    | Answered r => (r, s)
    | Waiting t => commit os s t
    end.
Proof.
  unfold append_csv, try_append, arrive, _append_row, commit.
  destruct (inputs os b) as [e|[r|[c row]]]; try reflexivity.
  destruct (prepare os ts s c row) as [e|t]; [reflexivity|].
  destruct (locked os s t) as [[e|saved] s']; reflexivity.
Qed.

(** The ticket of a request that waits for the lock. *)
Lemma arrive_waiting (os : Os) (ts : string) (s : fs) (b : body) (t : ticket) :
  arrive os ts s b = Waiting t ->
  exists c cols row,
    inputs os b = inr (inr (c, row))
    /\ allowed c ALLOWED_CSV = Some cols
    /\ t = {| t_name := c ++ ".csv";
              t_path := join_data os (c ++ ".csv");
              t_header := csv_line (cols ++ ["_ts"]);
              t_row := csv_line (cleaned os cols row ts);
              t_new_file := negb (path_exists os s (join_data os (c ++ ".csv"))) |}.
Proof.
  unfold arrive.
  destruct (inputs os b) as [e|[r|[c row]]]; try discriminate.
  unfold prepare.
  destruct (allowed c ALLOWED_CSV) as [cols|] eqn:A; [|discriminate].
  intros H; inversion H; subst; exists c, cols, row.
  split; [reflexivity|]. split; [exact A|reflexivity].
Qed.

Lemma arrive_answered (os : Os) (ts : string) (s : fs) (b : body)
  (r : append_reply) :
  arrive os ts s b = Answered r -> exists e st, r = Refused e st.
Proof.
  unfold arrive.
  destruct (inputs os b) as [e|[r'|[c row]]] eqn:I.
  - intros H; inversion H; eauto.
  - intros H; inversion H; subst; apply inputs_refused in I; eauto.
  - destruct (prepare os ts s c row) as [e|t];
      intros H; inversion H; eauto.
Qed.

Lemma arrive_sound (os : Os) (ts : string) (s : fs) (b : body) (t : ticket) :
  arrive os ts s b = Waiting t -> sound os s t.
Proof.
  intros H; destruct (arrive_waiting os ts s b t H) as [c [cols [row [_ [A ->]]]]].
  exists c, cols, (cleaned os cols row ts); simpl.
  repeat split; try assumption; try apply length_cleaned.
  unfold path_exists.
  destruct (lookup_file _ s); [discriminate|intros E; discriminate].
Qed.

Lemma sound_header (os : Os) (s : fs) (t : ticket) :
  sound os s t -> has_surrogate (t_header t) = false.
Proof.
  intros [c [cols [fields [A [_ [_ [-> _]]]]]]]; now apply (header_encodable c).
Qed.

Lemma sound_later (os : Os) (s s' : fs) (t : ticket) :
  (forall loc, lookup_file loc s <> None -> lookup_file loc s' <> None) ->
  sound os s t -> sound os s' t.
Proof.
  intros K [c [cols [fields [A [N [P [Hh [Hr [Hl Hn]]]]]]]]].
  exists c, cols, fields; repeat split; try assumption.
  intros E; apply K; now apply Hn.
Qed.

Lemma por_dict (d : list (string * pyval)) : por (PyDict d) (PyDict []) = PyDict d.
Proof. destruct d; reflexivity. Qed.

Lemma cleaned_agree (os : Os) (cols : list string) (d d' : list (string * pyval))
  (ts : string) :
  (forall col, In col cols -> dict_get col d = dict_get col d') ->
  cleaned os cols d ts = cleaned os cols d' ts.
Proof.
  intros H; unfold cleaned; f_equal.
  apply map_ext_in; intros col Hc; now rewrite (H col Hc).
Qed.

(** The inputs of a JSON request that names a table and carries a dict. *)
Lemma inputs_json (os : Os) (n : string) (d : list (string * pyval))
  (cols : list string) :
  allowed (strip n) ALLOWED_CSV = Some cols ->
  inputs os (JsonBody (inr (PyDict [("csv_name", PyStr n); ("row", PyDict d)])))
  = inr (inr (strip n, d)).
Proof.
  intros A; unfold inputs; simpl.
  assert (E : pstrip (por (PyStr n) (PyStr "")) = inr (strip n)).
  { unfold por; simpl.
    destruct (String.eqb n "") eqn:En; simpl; [|reflexivity].
    apply String.eqb_eq in En; now subst n. }
  rewrite E, por_dict.
  destruct (String.eqb (strip n) "") eqn:En; [|reflexivity].
  apply String.eqb_eq in En; rewrite En in A; discriminate.
Qed.

(** X10.  An append request, run alone, that is refused with status 400, or
    with status 500 before the file is opened, or with status 500 on a file
    that was there, leaves every file as it was; any other request names a
    table of the whitelist and changes the file of that table and no other
    file: answered ok, it has put a row at the end of the file, after the
    header when the file was not there; refused because the row cannot be
    encoded when the file was not there, it has left a file that holds the
    header only. *)
Theorem append_csv_frame (os : Os) (ts : string) (s s' : fs) (b : body)
  (r : append_reply) :
  append_csv os ts s b = (r, s') ->
  (exists e st, r = Refused e st /\ (st = 400 \/ st = 500) /\ s' = s)
  \/ (exists c cols row nd,
         inputs os b = inr (inr (c, row))
         /\ allowed c ALLOWED_CSV = Some cols
         /\ (forall loc, loc <> locate os (join_data os (c ++ ".csv")) ->
                         lookup_file loc s' = lookup_file loc s)
         /\ lookup_file (locate os (join_data os (c ++ ".csv"))) s' = Some nd
         /\ ((r = Appended (relpath_root os (join_data os (c ++ ".csv")))
              /\ has_surrogate (csv_line (cleaned os cols row ts)) = false
              /\ text nd
                 = match lookup_file (locate os (join_data os (c ++ ".csv"))) s with
                   | Some old => text old
                   | None => csv_line (cols ++ ["_ts"])
                   end ++ csv_line (cleaned os cols row ts))
             \/ (r = Refused (encode_error os (csv_line (cleaned os cols row ts)))
                             500
                 /\ has_surrogate (csv_line (cleaned os cols row ts)) = true
                 /\ lookup_file (locate os (join_data os (c ++ ".csv"))) s = None
                 /\ text nd = csv_line (cols ++ ["_ts"])))).
Proof.
  rewrite append_csv_alone.
  destruct (arrive os ts s b) as [r0|t] eqn:Ar.
  - intros H; inversion H; subst; left.
    unfold arrive in Ar.
    destruct (inputs os b) as [e|[r'|[c row]]] eqn:I.
    + inversion Ar; subst; exists e, 500; auto.
    + inversion Ar; subst; apply inputs_refused in I; subst.
      eexists; exists 400; auto.
    + destruct (prepare _ _ _ _ _) as [e|t]; inversion Ar; subst.
      exists e, 500; auto.
  - destruct (arrive_waiting os ts s b t Ar) as [c [cols [row [I [A Et]]]]].
    pose proof (header_encodable c cols A) as Hh.
    assert (Hh' : has_surrogate (t_header t) = false) by (subst t; exact Hh).
    pose proof (locked_result os s t Hh') as R.
    pose proof (locked_frame os s t) as F.
    pose proof (locked_unchanged os s t) as U.
    destruct (locked_file os s t Hh') as [nd [L [T _]]].
    unfold commit; destruct (locked os s t) as [res s1].
    cbn [fst snd] in R, F, L, U.
    subst t; cbn [t_name t_path t_header t_row t_new_file] in *.
    unfold path_exists in T, U.
    set (loc := locate os (join_data os (c ++ ".csv"))) in *.
    set (line := csv_line (cleaned os cols row ts)) in *.
    destruct (has_surrogate line) eqn:Su; subst res; intros H; inversion H; subst.
    + destruct (lookup_file loc s) as [old|] eqn:E; cbn [opened negb] in T, U.
      * left; exists (encode_error os line), 500; split; [reflexivity|].
        split; [now right|].
        apply U; [discriminate|reflexivity|reflexivity].
      * right; exists c, cols, row, nd.
        split; [exact I|]. split; [exact A|]. split; [exact F|].
        split; [exact L|]. right.
        split; [reflexivity|]. split; [exact Su|]. split; [exact E|].
        rewrite T; cbn [text String.append]; now rewrite append_empty_r.
    + right; exists c, cols, row, nd.
      split; [exact I|]. split; [exact A|]. split; [exact F|].
      split; [exact L|]. left.
      split; [reflexivity|]. split; [exact Su|].
      rewrite T; change (locate os (join_data os (c ++ ".csv"))) with loc.
      destruct (lookup_file loc s) as [old|]; reflexivity.
Qed.

Lemma append_csv_frame_witness :
  exists s' nd,
    append_csv plain_os "2024-01-01T00:00:00"
               [("data/notes.csv",
                 {| name := "notes.csv"; listed := true; decodable := true;
                    text := "kept" |})]
               (JsonBody (inr (PyDict [("csv_name", PyStr "animal_log");
                                       ("row", PyDict [("notes",
                                                        PyStr lone_surrogate)])])))
    = (Refused "'utf-8' codec can't encode: surrogates not allowed" 500, s')
    /\ lookup_file "data/notes.csv" s'
       = Some {| name := "notes.csv"; listed := true; decodable := true;
                 text := "kept" |}
    /\ lookup_file "data/animal_log.csv" s' = Some nd
    /\ text nd = "date,mouse_id,strain,sex,dob,age_wk,treatment,weight_g,notes,_ts"
                 ++ CRLF.
Proof.
  destruct (append_csv_frame plain_os "2024-01-01T00:00:00"
              [("data/notes.csv",
                {| name := "notes.csv"; listed := true; decodable := true;
                   text := "kept" |})]
              (snd (append_csv plain_os "2024-01-01T00:00:00"
                      [("data/notes.csv",
                        {| name := "notes.csv"; listed := true;
                           decodable := true; text := "kept" |})]
                      (JsonBody
                         (inr (PyDict [("csv_name", PyStr "animal_log");
                                       ("row", PyDict [("notes",
                                                        PyStr lone_surrogate)])])))))
              (JsonBody (inr (PyDict [("csv_name", PyStr "animal_log");
                                      ("row", PyDict [("notes",
                                                       PyStr lone_surrogate)])])))
              (Refused "'utf-8' codec can't encode: surrogates not allowed" 500)
              eq_refl)
    as [[e [st [_ [_ E]]]]|[c [cols [row [nd [I [A [F [L [[E _]|[_ [_ [_ T]]]]]]]]]]]]].
  - discriminate E.
  - discriminate E.
  - inversion I; subst c row; inversion A; subst cols.
    eexists; exists nd; split; [reflexivity|].
    split; [apply (F "data/notes.csv"); discriminate|].
    split; [exact L|exact T].
Defined.

(** X11.  Of the row of an append request only the values under the columns of
    the table count: two rows that agree on them are written alike, whatever
    other keys they have, and a request without a row is handled as one with
    an empty row. *)
Theorem append_csv_columns_only (os : Os) (ts : string) (s : fs) (n : string)
  (cols : list string) (d d' : list (string * pyval)) :
  allowed (strip n) ALLOWED_CSV = Some cols ->
  (forall col, In col cols -> dict_get col d = dict_get col d') ->
  append_csv os ts s
    (JsonBody (inr (PyDict [("csv_name", PyStr n); ("row", PyDict d)])))
  = append_csv os ts s
      (JsonBody (inr (PyDict [("csv_name", PyStr n); ("row", PyDict d')])))
  /\
  append_csv os ts s (JsonBody (inr (PyDict [("csv_name", PyStr n)])))
  = append_csv os ts s
      (JsonBody (inr (PyDict [("csv_name", PyStr n); ("row", PyDict [])]))).
Proof.
  intros Ha Hd; split; [|reflexivity].
  unfold append_csv, try_append.
  rewrite (inputs_json os n d cols Ha), (inputs_json os n d' cols Ha).
  unfold _append_row, prepare; rewrite Ha.
  now rewrite (cleaned_agree os cols d d' ts Hd).
Qed.

Lemma append_csv_columns_only_witness :
  append_csv plain_os "2024-01-01T00:00:00" []
    (JsonBody (inr (PyDict [("csv_name", PyStr " animal_log ");
                            ("row", PyDict [("sex", PyStr "F");
                                            ("password", PyStr "secret")])])))
  = append_csv plain_os "2024-01-01T00:00:00" []
      (JsonBody (inr (PyDict [("csv_name", PyStr " animal_log ");
                              ("row", PyDict [("sex", PyStr "F");
                                              ("notes", PyNone)])]))).
Proof.
  refine (proj1 (append_csv_columns_only plain_os "2024-01-01T00:00:00" []
                   " animal_log "
                   ["date"; "mouse_id"; "strain"; "sex"; "dob"; "age_wk";
                    "treatment"; "weight_g"; "notes"]
                   [("sex", PyStr "F"); ("password", PyStr "secret")]
                   [("sex", PyStr "F"); ("notes", PyNone)] eq_refl _)).
  intros col H; simpl in H.
  repeat (destruct H as [<-|H]; [reflexivity|]); contradiction.
Defined.

(** ** The shape of the table files *)

(** The row count of table [c] raised by one. *)
Lemma total_bump (k : string -> nat) (c : string) (cols : list string) :
  allowed c ALLOWED_CSV = Some cols ->
  total (fun x => if String.eqb x c then S (k x) else k x) = S (total k).
Proof.
  intros H; apply allowed_names in H; unfold total.
  destruct H as [-> | [-> | ->]]; simpl; lia.
Qed.

Lemma plain_os_separate : separate plain_os.
Proof.
  intros c c' _ _ H; simpl in H.
  inversion H as [E]; clear H.
  revert c' E; induction c as [|a c IH]; intros [|a' c'] E; simpl in E;
    try reflexivity; try discriminate.
  - destruct c' as [|? [|? [|? [|? ?]]]]; discriminate.
  - destruct c as [|? [|? [|? [|? ?]]]]; discriminate.
  - inversion E; f_equal; now apply IH.
Qed.

Lemma appended_count_app (l l' : list append_reply) :
  appended_count (l ++ l') = appended_count l + appended_count l'.
Proof. unfold appended_count; now rewrite filter_app, length_app. Qed.

Lemma commit_locked (os : Os) (s : fs) (t : ticket) :
  commit os s t
  = (match fst (locked os s t) with
     | inl e => Refused e 500
     | inr saved => Appended (relpath_root os saved)
     end,
     snd (locked os s t)).
Proof. unfold commit; destruct (locked os s t) as [[e|saved] s']; reflexivity. Qed.

(** What is written at the end of a file, as headers and rows. *)
Lemma written_after (cols : list string) (base : string) (ws : list written)
  (nf su : bool) (fields : list string) :
  base = csv_line (cols ++ ["_ts"]) ++ flat_text (map (written_text cols) ws) ->
  base ++ (if nf then csv_line (cols ++ ["_ts"]) else "")
       ++ (if su then "" else csv_line fields)
  = csv_line (cols ++ ["_ts"])
    ++ flat_text (map (written_text cols)
                      (ws ++ (if nf then [Header] else [])
                          ++ (if su then [] else [Row fields]))).
Proof.
  intros ->; rewrite !map_app, !flat_text_app, append_assoc.
  f_equal; f_equal.
  destruct nf, su; simpl; rewrite ?append_empty_r; reflexivity.
Qed.

(** The block under the lock keeps the table files in shape: a row is added to
    one table when it returns, none when it raises. *)
Lemma commit_shaped (os : Os) (s : fs) (t : ticket) (k : string -> nat) :
  separate os -> shaped os s k -> sound os s t ->
  exists k',
    shaped os (snd (commit os s t)) k'
    /\ total k' = total k + appended_count [fst (commit os s t)].
Proof.
  intros Hsep Hk So.
  pose proof (sound_header os s t So) as Hh.
  destruct So as [c [cols [fields [A [N [P [Eh [Er [Hl Hn]]]]]]]]].
  rewrite commit_locked; cbn [fst snd].
  pose proof (locked_result os s t Hh) as R.
  pose proof (locked_frame os s t) as F.
  destruct (locked_file os s t Hh) as [nd [L [T _]]].
  set (su := has_surrogate (t_row t)) in *.
  rewrite P in F, L, T; rewrite Eh, Er in T.
  set (loc := locate os (join_data os (c ++ ".csv"))) in *.
  set (k' := fun x => if su then k x
                      else if String.eqb x c then S (k x) else k x).
  assert (Hc : lines_in os (snd (locked os s t)) c cols (k' c)).
  { right; destruct (Hk c cols A) as [[Hnone Hz]|[old [ws [Hold [Ht [Hcount Hsz]]]]]].
    - fold loc in Hnone.
      assert (Nf : t_new_file t = true).
      { destruct (t_new_file t); [reflexivity|].
        elim (Hn eq_refl); exact Hnone. }
      rewrite Hnone, Nf in T; cbn [opened text String.append] in T.
      exists nd, (if su then [] else [Row fields]).
      split; [exact L|]. split.
      + rewrite T; f_equal.
        destruct su; simpl; rewrite ?append_empty_r; reflexivity.
      + unfold k'; rewrite String.eqb_refl, Hz.
        destruct su; simpl; split; auto.
    - fold loc in Hold; rewrite Hold in T; cbn [opened] in T.
      exists nd, (ws ++ (if t_new_file t then [Header] else [])
                     ++ (if su then [] else [Row fields]))%list.
      split; [exact L|]. split; [|split].
      + rewrite T; now apply written_after.
      + unfold k'; rewrite String.eqb_refl, !filter_app, !length_app, Hcount.
        destruct (t_new_file t), su; simpl; lia.
      + apply Forall_app; split; [exact Hsz|].
        destruct (t_new_file t), su; simpl; repeat constructor; exact Hl. }
  exists k'; split.
  - intros c' cols' A'.
    destruct (String.eqb c' c) eqn:E.
    + apply String.eqb_eq in E; subst c'.
      assert (cols' = cols) by congruence; subst cols'; exact Hc.
    + assert (Hloc : locate os (join_data os (c' ++ ".csv")) <> loc).
      { intros Eq; apply String.eqb_neq in E; apply E.
        apply Hsep; [congruence|congruence|exact Eq]. }
      assert (Ek : k' c' = k c') by (unfold k'; rewrite E; now destruct su).
      rewrite Ek.
      destruct (Hk c' cols' A') as [[Hnone Hz]|[old [ws [Hold [Ht Hrest]]]]].
      * left; split; [now rewrite (F _ Hloc)|exact Hz].
      * right; exists old, ws; split; [now rewrite (F _ Hloc)|].
        split; assumption.
  - rewrite R; unfold k', appended_count.
    destruct su; simpl; [unfold total; lia|].
    rewrite (total_bump k c cols A); lia.
Qed.

Lemma commit_keeps_files (os : Os) (s : fs) (t : ticket) (loc : string) :
  sound os s t ->
  lookup_file loc s <> None -> lookup_file loc (snd (commit os s t)) <> None.
Proof.
  intros So; rewrite commit_locked; cbn [snd].
  apply locked_keeps_files; now apply (sound_header os s).
Qed.

Lemma take_Forall (P : ticket -> Prop) (id : nat) (w rest : list (nat * ticket))
  (t : ticket) :
  take id w = Some (t, rest) ->
  Forall (fun p => P (snd p)) w ->
  P t /\ Forall (fun p => P (snd p)) rest.
Proof.
  revert rest; induction w as [|[i x] w IH]; intros rest; simpl; [discriminate|].
  destruct (Nat.eqb i id).
  - intros H F; inversion H; subst; inversion F; subst; auto.
  - destruct (take id w) as [[t' rest']|]; [|discriminate].
    intros H F; inversion H; subst; inversion F; subst.
    destruct (IH rest' eq_refl H3) as [Pt Fr]; split; [exact Pt|].
    constructor; assumption.
Qed.

(** One event on a server whose table files are in shape. *)
Lemma step_invariant (os : Os) (sv : server) (e : event) (k : string -> nat) :
  separate os ->
  shaped os (disk sv) k ->
  Forall (fun p => sound os (disk sv) (snd p)) (waiting sv) ->
  exists k',
    shaped os (disk (step os sv e)) k'
    /\ Forall (fun p => sound os (disk (step os sv e)) (snd p))
              (waiting (step os sv e))
    /\ total k' + appended_count (map snd (answered sv))
       = total k + appended_count (map snd (answered (step os sv e))).
Proof.
  intros Hsep Hk Hw; destruct e as [id ts b|id]; simpl.
  - destruct (arrive os ts (disk sv) b) as [r|t] eqn:Ar; simpl.
    + exists k; split; [exact Hk|]. split; [exact Hw|].
      destruct (arrive_answered os ts (disk sv) b r Ar) as [e [st ->]].
      rewrite map_app, appended_count_app; unfold appended_count; simpl; lia.
    + exists k; split; [exact Hk|]. split; [|reflexivity].
      apply Forall_app; split; [exact Hw|].
      constructor; [|constructor].
      now apply (arrive_sound os ts (disk sv) b).
  - destruct (take id (waiting sv)) as [[t rest]|] eqn:Tk.
    + destruct (take_Forall (sound os (disk sv)) id _ rest t Tk Hw) as [So Hrest].
      destruct (commit_shaped os (disk sv) t k Hsep Hk So) as [k' [Hk' Ht]].
      pose proof (commit_keeps_files os (disk sv) t) as Kf.
      destruct (commit os (disk sv) t) as [r s'] eqn:C; simpl in *.
      exists k'; split; [exact Hk'|]. split.
      * eapply Forall_impl; [|exact Hrest].
        intros p Hp; apply (sound_later os (disk sv) s'); [|exact Hp].
        intros loc; now apply Kf.
      * rewrite map_app, appended_count_app; simpl; lia.
    + exists k; split; [exact Hk|]. split; [exact Hw|reflexivity].
Qed.

Lemma run_invariant (os : Os) (events : list event) :
  separate os ->
  forall (sv : server) (k : string -> nat),
    shaped os (disk sv) k ->
    Forall (fun p => sound os (disk sv) (snd p)) (waiting sv) ->
    exists k',
      shaped os (disk (run os sv events)) k'
      /\ total k' + appended_count (map snd (answered sv))
         = total k + appended_count (map snd (answered (run os sv events))).
Proof.
  intros Hsep; induction events as [|e events IH]; intros sv k Hk Hw.
  - exists k; split; [exact Hk|reflexivity].
  - destruct (step_invariant os sv e k Hsep Hk Hw) as [k1 [Hk1 [Hw1 Ht1]]].
    destruct (IH (step os sv e) k1 Hk1 Hw1) as [k2 [Hk2 Ht2]].
    exists k2; split; [exact Hk2|].
    change (run os sv (e :: events)) with (run os (step os sv e) events).
    lia.
Qed.

(** X12.  On a server where no two tables share a file, every table file is
    absent or made of the header of its table followed by headers and rows of
    one field per column and one for the time, and every request that waits
    for the lock has a ticket made for a table, whatever happens next (a
    request comes in, or a waiting request takes the lock and writes) keeps it
    so; the rows of the tables grow by one when the event answers a request
    ok, and not at all otherwise. *)
Theorem step_keeps_tables (os : Os) (sv : server) (e : event) (k : string -> nat) :
  separate os ->
  shaped os (disk sv) k ->
  Forall (fun p => sound os (disk sv) (snd p)) (waiting sv) ->
  exists k',
    shaped os (disk (step os sv e)) k'
    /\ Forall (fun p => sound os (disk (step os sv e)) (snd p))
              (waiting (step os sv e))
    /\ total k' + appended_count (map snd (answered sv))
       = total k + appended_count (map snd (answered (step os sv e))).
Proof. apply step_invariant. Qed.

Lemma step_keeps_tables_witness :
  exists k',
    shaped plain_os
      (disk (step plain_os
               (step plain_os (started [])
                     (Arrive 1 "2024-01-01T00:00:00"
                        (FormBody [("csv_name", "meeting_notes"); ("row", "{}")])))
               (Commit 1)))
      k'
    /\ total k' = 1.
Proof.
  destruct (step_keeps_tables plain_os
              (step plain_os (started [])
                    (Arrive 1 "2024-01-01T00:00:00"
                       (FormBody [("csv_name", "meeting_notes"); ("row", "{}")])))
              (Commit 1) (fun _ => 0) plain_os_separate)
    as [k' [Hk' [_ Ht]]].
  - intros c cols _; left; split; reflexivity.
  - constructor; [|constructor].
    apply (arrive_sound plain_os "2024-01-01T00:00:00" []
             (FormBody [("csv_name", "meeting_notes"); ("row", "{}")])).
    reflexivity.
  - exists k'; split; [exact Hk'|].
    unfold appended_count in Ht; simpl in Ht; lia.
Defined.

(** X13.  Starting with no file at all, after requests served in any
    interleaving, every table file that exists begins with the header of its
    table and is made of headers and rows of one field per column and one for
    the time, and the three tables together have as many rows as requests were
    answered ok. *)
Theorem run_from_empty (os : Os) (events : list event) :
  separate os ->
  exists k,
    shaped os (disk (run os (started []) events)) k
    /\ total k = appended_count (map snd (answered (run os (started []) events))).
Proof.
  intros Hsep.
  destruct (run_invariant os events Hsep (started []) (fun _ => 0)) as [k [Hk Ht]].
  - intros c cols _; left; split; reflexivity.
  - constructor.
  - exists k; split; [exact Hk|].
    change (total (fun _ => 0)) with 0 in Ht.
    change (appended_count (map snd (answered (started [])))) with 0 in Ht.
    lia.
Qed.

Lemma run_from_empty_witness :
  exists k,
    shaped plain_os
      (disk (run plain_os (started [])
               [Arrive 1 "2024-01-01T00:00:00"
                       (FormBody [("csv_name", "meeting_notes"); ("row", "{}")]);
                Arrive 2 "2024-01-01T00:00:01"
                       (FormBody [("csv_name", "budget"); ("row", "{}")]);
                Arrive 3 "2024-01-01T00:00:02"
                       (JsonBody
                          (inr (PyDict [("csv_name", PyStr "meeting_notes");
                                        ("row", PyDict [("title", PyStr "a,b")])])));
                Commit 3; Commit 1]))
      k
    /\ total k = 2.
Proof.
  destruct (run_from_empty plain_os
              [Arrive 1 "2024-01-01T00:00:00"
                      (FormBody [("csv_name", "meeting_notes"); ("row", "{}")]);
               Arrive 2 "2024-01-01T00:00:01"
                      (FormBody [("csv_name", "budget"); ("row", "{}")]);
               Arrive 3 "2024-01-01T00:00:02"
                      (JsonBody
                         (inr (PyDict [("csv_name", PyStr "meeting_notes");
                                       ("row", PyDict [("title", PyStr "a,b")])])));
               Commit 3; Commit 1]
              plain_os_separate) as [k [Hk Ht]].
  exists k; split; [exact Hk|].
  rewrite Ht; reflexivity.
Defined.

(** ** Listing *)

Lemma double_quotes_one_line (f : string) :
  one_line f = true -> one_line (double_quotes f) = true.
Proof.
  induction f as [|a f IH]; cbn [one_line double_quotes]; [reflexivity|].
  intros H; apply Bool.andb_true_iff in H; destruct H as [Ha Hf].
  destruct (Ascii.eqb a dquote); cbn [one_line]; rewrite ?Ha, (IH Hf);
    reflexivity.
Qed.

Lemma one_line_app (a b : string) :
  one_line (a ++ b) = one_line a && one_line b.
Proof.
  induction a as [|x a IH]; cbn [one_line String.append]; [reflexivity|].
  now rewrite IH, Bool.andb_assoc.
Qed.

Lemma quote_field_one_line (f : string) :
  one_line f = true -> one_line (quote_field f) = true.
Proof.
  intros H; unfold quote_field.
  destruct (has_special f); [|exact H].
  change (one_line (String dquote (double_quotes f ++ String dquote EmptyString)))
    with (one_line (double_quotes f ++ String dquote EmptyString)).
  now rewrite one_line_app, double_quotes_one_line.
Qed.

Lemma join_fields_one_line (fields : list string) :
  Forall (fun f => one_line f = true) fields ->
  one_line (join_fields fields) = true.
Proof.
  induction 1 as [|f fields Hf _ IH]; [reflexivity|].
  destruct fields as [|g fields]; [exact Hf|].
  change (join_fields (f :: g :: fields))
    with (f ++ String comma (join_fields (g :: fields))).
  rewrite one_line_app, Hf; simpl; exact IH.
Qed.

(** A line of the writer whose fields have no end of line is read back as one
    line. *)
Lemma count_lines_text (l rest : string) (pending : bool) :
  one_line l = true ->
  count_lines (l ++ CRLF ++ rest) pending = S (count_lines rest false).
Proof.
  revert pending; induction l as [|a l IH]; intros pending H.
  - reflexivity.
  - cbn [one_line] in H; apply Bool.andb_true_iff in H; destruct H as [Ha Hl].
    unfold linebreak in Ha; apply Bool.negb_true_iff, Bool.orb_false_iff in Ha.
    destruct Ha as [Hcr Hlf].
    change (count_lines (String a (l ++ CRLF ++ rest)) pending
            = S (count_lines rest false)).
    cbn [count_lines]; rewrite Hcr, Hlf.
    now apply IH.
Qed.

Lemma csv_line_split (fields : list string) :
  Forall (fun f => one_line f = true) fields ->
  exists l, one_line l = true /\ csv_line fields = l ++ CRLF.
Proof.
  intros H; unfold csv_line.
  assert (G : exists l, one_line l = true
                        /\ join_fields (map quote_field fields) ++ CRLF = l ++ CRLF).
  { exists (join_fields (map quote_field fields)); split; [|reflexivity].
    apply join_fields_one_line, Forall_map.
    eapply Forall_impl; [|exact H]; apply quote_field_one_line. }
  destruct fields as [|[|a f] [|g fields]]; try exact G.
  exists (String dquote (String dquote EmptyString)); split; reflexivity.
Qed.

Lemma count_lines_rows (rows : list (list string)) :
  Forall (Forall (fun f => one_line f = true)) rows ->
  count_lines (flat_text (map csv_line rows)) false = List.length rows.
Proof.
  induction 1 as [|r rows Hr _ IH]; [reflexivity|]; simpl.
  destruct (csv_line_split r Hr) as [l [Hl ->]].
  rewrite append_assoc, (count_lines_text l _ false Hl); now rewrite IH.
Qed.

Lemma allowed_one_line (c : string) (cols : list string) :
  allowed c ALLOWED_CSV = Some cols ->
  Forall (fun f => one_line f = true) (cols ++ ["_ts"]).
Proof.
  intros H; pose proof (allowed_names c cols H) as N.
  destruct N as [-> | [-> | ->]]; inversion H; subst;
    repeat constructor.
Qed.

Lemma lookup_file_In (loc : string) (nd : node) (s : fs) :
  lookup_file loc s = Some nd -> exists l, In (l, nd) s.
Proof.
  induction s as [|[l x] t IH]; simpl; [discriminate|].
  destruct (String.eqb l loc).
  - intros H; inversion H; subst; exists l; now left.
  - intros H; destruct (IH H) as [l' Hl']; exists l'; now right.
Qed.

(** X14.  A table file that holds its header and then rows none of whose
    fields contains an end of line is listed, when [glob] finds it and it can
    be decoded, with the number of its rows; an empty file and a file made of
    its header only are listed with 0 rows. *)
Theorem list_data_counts_rows (os : Os) (s : fs) (c : string) (cols : list string)
  (rows : list (list string)) (nd : node) :
  allowed c ALLOWED_CSV = Some cols ->
  lookup_file (locate os (join_data os (c ++ ".csv"))) s = Some nd ->
  text nd = csv_line (cols ++ ["_ts"]) ++ flat_text (map csv_line rows) ->
  Forall (Forall (fun f => one_line f = true)) rows ->
  listed nd = true ->
  decodable nd = true ->
  In (name nd, Some (Z.of_nat (List.length rows))) (list_data s)
  /\ rows_of {| name := name nd; listed := true; decodable := true;
                text := EmptyString |} = Some 0%Z.
Proof.
  intros Hc Hnd Ht Hrows Hl Hd; split; [|reflexivity].
  destruct (lookup_file_In _ nd s Hnd) as [l Hin].
  unfold list_data.
  apply in_map_iff; exists (l, nd); split.
  - simpl; f_equal; unfold rows_of; rewrite Hd, Ht.
    destruct (csv_line_split _ (allowed_one_line c cols Hc)) as [h [Hh ->]].
    rewrite append_assoc, (count_lines_text h _ false Hh).
    rewrite (count_lines_rows rows Hrows).
    f_equal.
    replace (Z.of_nat (S (List.length rows)) - 1)%Z
      with (Z.of_nat (List.length rows)) by lia.
    destruct (Z.of_nat (List.length rows) <? 0)%Z eqn:E; [|reflexivity].
    apply Z.ltb_lt in E; lia.
  - apply filter_In; split; [exact Hin|exact Hl].
Qed.

Lemma list_data_counts_rows_witness :
  In ("meeting_notes.csv", Some 2%Z)
     (list_data
        [("data/meeting_notes.csv",
          {| name := "meeting_notes.csv"; listed := true; decodable := true;
             text :=
               csv_line ["date"; "title"; "attendees"; "project"; "agenda";
                         "decisions"; "actions"; "owner"; "next_meeting"; "_ts"]
               ++ flat_text
                    (map csv_line
                         [[""; "a,b"; ""; ""; ""; ""; ""; ""; "";
                           "2024-01-01T00:00:00"];
                          [""; "say ok"; ""; ""; ""; ""; ""; ""; "";
                           "2024-01-01T00:00:02"]]) |})]).
Proof.
  refine (proj1 (list_data_counts_rows plain_os
                   [("data/meeting_notes.csv",
                     {| name := "meeting_notes.csv"; listed := true;
                        decodable := true;
                        text :=
                          csv_line ["date"; "title"; "attendees"; "project";
                                    "agenda"; "decisions"; "actions"; "owner";
                                    "next_meeting"; "_ts"]
                          ++ flat_text
                               (map csv_line
                                    [[""; "a,b"; ""; ""; ""; ""; ""; ""; "";
                                      "2024-01-01T00:00:00"];
                                     [""; "say ok"; ""; ""; ""; ""; ""; ""; "";
                                      "2024-01-01T00:00:02"]]) |})]
                   "meeting_notes"
                   ["date"; "title"; "attendees"; "project"; "agenda";
                    "decisions"; "actions"; "owner"; "next_meeting"]
                   [[""; "a,b"; ""; ""; ""; ""; ""; ""; "";
                     "2024-01-01T00:00:00"];
                    [""; "say ok"; ""; ""; ""; ""; ""; ""; "";
                     "2024-01-01T00:00:02"]]
                   _ eq_refl eq_refl eq_refl _ eq_refl eq_refl)).
  repeat constructor.
Defined.

(** A field that holds an end of line is counted as one more row. *)
Example list_data_multiline_field :
  rows_of {| name := "lab_notebook.csv"; listed := true; decodable := true;
             text := csv_line ["date"; "body_md"; "_ts"]
                     ++ csv_line ["2024-01-01";
                                  String "x" (String LF (String "y" EmptyString));
                                  "2024-01-01T00:00:00"] |}
  = Some 2%Z.
Proof. reflexivity. Qed.

(** ** Downloading *)

Lemma ends_with_app (suffix p : string) : ends_with suffix (p ++ suffix) = true.
Proof.
  induction p as [|a p IH]; cbn [String.append].
  - destruct suffix; cbn [ends_with]; now rewrite String.eqb_refl.
  - cbn [ends_with].
    destruct (String.eqb (String a (p ++ suffix)) suffix); [reflexivity|exact IH].
Qed.

Lemma ends_with_spec (suffix s : string) :
  ends_with suffix s = true <-> exists p, s = p ++ suffix.
Proof.
  split.
  - induction s as [|a s IH]; cbn [ends_with].
    + destruct (String.eqb "" suffix) eqn:E; [|discriminate].
      apply String.eqb_eq in E; subst; intros _; now exists "".
    + destruct (String.eqb (String a s) suffix) eqn:E.
      * apply String.eqb_eq in E; subst; intros _; now exists "".
      * intros H; destruct (IH H) as [p ->]; now exists (String a p).
  - intros [p ->]; apply ends_with_app.
Qed.

Lemma download_found (os : Os) (s : fs) (c : string) (nd : node) :
  lookup_file (locate os (join_data os (c ++ ".csv"))) s = Some nd ->
  download_csv os s (Some (c ++ ".csv"))
  = Attachment (text nd) "text/csv" (disposition (c ++ ".csv")).
Proof.
  intros H; unfold download_csv; rewrite ends_with_app; simpl; now rewrite H.
Qed.

(** The request that names a table and carries a dict comes to the lock. *)
Lemma arrive_json (os : Os) (ts : string) (s : fs) (n : string)
  (d : list (string * pyval)) (cols : list string) :
  allowed (strip n) ALLOWED_CSV = Some cols ->
  arrive os ts s
    (JsonBody (inr (PyDict [("csv_name", PyStr n); ("row", PyDict d)])))
  = Waiting {| t_name := strip n ++ ".csv";
               t_path := join_data os (strip n ++ ".csv");
               t_header := csv_line (cols ++ ["_ts"]);
               t_row := csv_line (cleaned os cols d ts);
               t_new_file :=
                 negb (path_exists os s (join_data os (strip n ++ ".csv"))) |}.
Proof.
  intros A; unfold arrive; rewrite (inputs_json os n d cols A).
  unfold prepare; now rewrite A.
Qed.

Lemma nth_error_cleaned (os : Os) (cols : list string) (d : list (string * pyval))
  (ts : string) (i : nat) (col : string) :
  nth_error cols i = Some col ->
  nth_error (cleaned os cols d ts) i
  = Some (match dict_get col d with
          | PyNone => EmptyString
          | x => pstr os x
          end).
Proof.
  intros H; unfold cleaned.
  rewrite nth_error_app1
    by (rewrite length_map; apply nth_error_Some; congruence).
  now rewrite nth_error_map, H.
Qed.

Lemma nth_error_cleaned_ts (os : Os) (cols : list string)
  (d : list (string * pyval)) (ts : string) :
  nth_error (cleaned os cols d ts) (List.length cols) = Some ts.
Proof.
  unfold cleaned.
  rewrite nth_error_app2 by (rewrite length_map; lia).
  now rewrite length_map, Nat.sub_diag.
Qed.

(** X16.  After an append request, run alone, that names a table of the
    whitelist and carries a row that can be encoded, the request is answered
    ok with the path of the file of the table, and downloading that file under
    its name gives what the file held before (the header of the table when
    there was no file) followed by one line: the values of the row under the
    columns of the table, in their order (the empty text for a value that is
    absent or null), then the time of the request. *)
Theorem download_after_append (os : Os) (ts : string) (s : fs) (n : string)
  (cols : list string) (d : list (string * pyval)) :
  allowed (strip n) ALLOWED_CSV = Some cols ->
  has_surrogate (csv_line (cleaned os cols d ts)) = false ->
  exists s',
    append_csv os ts s
      (JsonBody (inr (PyDict [("csv_name", PyStr n); ("row", PyDict d)])))
    = (Appended (relpath_root os (join_data os (strip n ++ ".csv"))), s')
    /\ download_csv os s' (Some (strip n ++ ".csv"))
       = Attachment
           (match lookup_file (locate os (join_data os (strip n ++ ".csv"))) s with
            | Some old => text old
            | None => csv_line (cols ++ ["_ts"])
            end ++ csv_line (cleaned os cols d ts))
           "text/csv" (disposition (strip n ++ ".csv"))
    /\ List.length (cleaned os cols d ts) = S (List.length cols)
    /\ (forall i col,
           nth_error cols i = Some col ->
           nth_error (cleaned os cols d ts) i
           = Some (match dict_get col d with
                   | PyNone => EmptyString
                   | x => pstr os x
                   end))
    /\ nth_error (cleaned os cols d ts) (List.length cols) = Some ts.
Proof.
  intros A Su.
  rewrite append_csv_alone, (arrive_json os ts s n d cols A), commit_locked.
  set (t := {| t_name := strip n ++ ".csv";
               t_path := join_data os (strip n ++ ".csv");
               t_header := csv_line (cols ++ ["_ts"]);
               t_row := csv_line (cleaned os cols d ts);
               t_new_file :=
                 negb (path_exists os s (join_data os (strip n ++ ".csv"))) |}).
  assert (Hh : has_surrogate (t_header t) = false)
    by (apply (header_encodable (strip n)); exact A).
  rewrite (locked_result os s t Hh).
  destruct (locked_file os s t Hh) as [nd [L [T _]]].
  cbn [t_name t_path t_header t_row t_new_file t] in L, T |- *.
  rewrite Su in T |- *.
  exists (snd (locked os s t)); split; [reflexivity|].
  split; [|split; [apply length_cleaned|split;
                   [intros i col; apply nth_error_cleaned
                   |apply nth_error_cleaned_ts]]].
  rewrite (download_found os _ (strip n) nd L), T.
  unfold path_exists.
  destruct (lookup_file (locate os (join_data os (strip n ++ ".csv"))) s);
    reflexivity.
Qed.

Lemma download_after_append_witness :
  exists s',
    append_csv plain_os "2024-01-01T00:00:00" []
      (JsonBody (inr (PyDict [("csv_name", PyStr " animal_log ");
                              ("row", PyDict [("sex", PyStr "F");
                                              ("notes", PyStr "a,b")])])))
    = (Appended "data/animal_log.csv", s')
    /\ download_csv plain_os s' (Some "animal_log.csv")
       = Attachment
           ("date,mouse_id,strain,sex,dob,age_wk,treatment,weight_g,notes,_ts"
            ++ CRLF
            ++ csv_line [""; ""; ""; "F"; ""; ""; ""; ""; "a,b";
                         "2024-01-01T00:00:00"])
           "text/csv" (disposition "animal_log.csv").
Proof.
  destruct (download_after_append plain_os "2024-01-01T00:00:00" []
              " animal_log "
              ["date"; "mouse_id"; "strain"; "sex"; "dob"; "age_wk";
               "treatment"; "weight_g"; "notes"]
              [("sex", PyStr "F"); ("notes", PyStr "a,b")]
              eq_refl eq_refl)
    as [s' [Ha [Hd _]]].
  exists s'; split; [exact Ha|exact Hd].
Defined.

(** X17.  Two requests for a table whose file is not there, the second coming
    in before the first has written: both find no file at line 177, each
    writes the header before its row, and both are answered ok.  The file then
    holds the header, the first row, the header once more and the second row;
    when no field holds an end of line, [list_data] reports 3 rows for it. *)
Theorem race_writes_header_twice (os : Os) (ts ts' : string) (s : fs) (n n' : string)
  (cols : list string) (d d' : list (string * pyval)) :
  allowed (strip n) ALLOWED_CSV = Some cols ->
  strip n' = strip n ->
  lookup_file (locate os (join_data os (strip n ++ ".csv"))) s = None ->
  has_surrogate (csv_line (cleaned os cols d ts)) = false ->
  has_surrogate (csv_line (cleaned os cols d' ts')) = false ->
  exists nd,
    answered
      (run os (started s)
           [Arrive 1 ts
              (JsonBody (inr (PyDict [("csv_name", PyStr n); ("row", PyDict d)])));
            Arrive 2 ts'
              (JsonBody (inr (PyDict [("csv_name", PyStr n'); ("row", PyDict d')])));
            Commit 1; Commit 2])
    = [(1, Appended (relpath_root os (join_data os (strip n ++ ".csv"))));
       (2, Appended (relpath_root os (join_data os (strip n ++ ".csv"))))]
    /\ lookup_file (locate os (join_data os (strip n ++ ".csv")))
         (disk
            (run os (started s)
               [Arrive 1 ts
                  (JsonBody
                     (inr (PyDict [("csv_name", PyStr n); ("row", PyDict d)])));
                Arrive 2 ts'
                  (JsonBody
                     (inr (PyDict [("csv_name", PyStr n'); ("row", PyDict d')])));
                Commit 1; Commit 2]))
       = Some nd
    /\ text nd
       = csv_line (cols ++ ["_ts"]) ++ csv_line (cleaned os cols d ts)
         ++ csv_line (cols ++ ["_ts"]) ++ csv_line (cleaned os cols d' ts')
    /\ name nd = strip n ++ ".csv"
    /\ listed nd = true
    /\ (Forall (fun f => one_line f = true) (cleaned os cols d ts) ->
        Forall (fun f => one_line f = true) (cleaned os cols d' ts') ->
        rows_of nd = Some 3%Z).
Proof.
  intros A En E Su Su'.
  assert (A' : allowed (strip n') ALLOWED_CSV = Some cols) by (now rewrite En).
  pose proof (header_encodable (strip n) cols A) as Hh.
  set (loc := locate os (join_data os (strip n ++ ".csv"))) in *.
  set (h := csv_line (cols ++ ["_ts"])) in *.
  set (r1 := csv_line (cleaned os cols d ts)) in *.
  set (r2 := csv_line (cleaned os cols d' ts')) in *.
  set (t1 := {| t_name := strip n ++ ".csv";
                t_path := join_data os (strip n ++ ".csv");
                t_header := h; t_row := r1; t_new_file := true |}).
  set (t2 := {| t_name := strip n ++ ".csv";
                t_path := join_data os (strip n ++ ".csv");
                t_header := h; t_row := r2; t_new_file := true |}).
  set (s1 := append_text loc r1 (append_text loc h
               (open_append loc (strip n ++ ".csv") s))).
  set (s2 := append_text loc r2 (append_text loc h s1)).
  set (p := relpath_root os (join_data os (strip n ++ ".csv"))).
  set (nd0 := {| name := strip n ++ ".csv"; listed := true; decodable := true;
                 text := EmptyString |}).
  assert (O : lookup_file loc (open_append loc (strip n ++ ".csv") s) = Some nd0).
  { rewrite lookup_open_same, E; reflexivity. }
  pose proof (lookup_append_same loc h _ nd0 O) as L1.
  pose proof (lookup_append_same loc r1 _ _ L1) as L2.
  fold s1 in L2; cbn [name listed decodable text String.append] in L2.
  pose proof (lookup_append_same loc h _ _ L2) as L3.
  pose proof (lookup_append_same loc r2 _ _ L3) as L4.
  fold s2 in L4; cbn [name listed decodable text] in L4.
  assert (S1 : step os (started s)
                 (Arrive 1 ts
                    (JsonBody (inr (PyDict [("csv_name", PyStr n);
                                            ("row", PyDict d)]))))
               = {| disk := s; waiting := [(1, t1)]; answered := [] |}).
  { unfold step, started; cbn [disk waiting answered].
    rewrite (arrive_json os ts s n d cols A).
    unfold path_exists; fold loc; rewrite E; reflexivity. }
  assert (S2 : step os {| disk := s; waiting := [(1, t1)]; answered := [] |}
                 (Arrive 2 ts'
                    (JsonBody (inr (PyDict [("csv_name", PyStr n');
                                            ("row", PyDict d')]))))
               = {| disk := s; waiting := [(1, t1); (2, t2)]; answered := [] |}).
  { unfold step; cbn [disk waiting answered].
    rewrite (arrive_json os ts' s n' d' cols A'), En.
    unfold path_exists; fold loc; rewrite E; reflexivity. }
  assert (C1 : commit os s t1 = (Appended p, s1)).
  { unfold commit, locked, write; cbn [t_name t_path t_header t_row t_new_file t1].
    fold loc; rewrite Hh, Su; reflexivity. }
  assert (C2 : commit os s1 t2 = (Appended p, s2)).
  { unfold commit, locked, write; cbn [t_name t_path t_header t_row t_new_file t2].
    fold loc; rewrite Hh, Su'.
    assert (O2 : open_append loc (strip n ++ ".csv") s1 = s1)
      by (unfold open_append; now rewrite L2).
    rewrite O2; reflexivity. }
  assert (S3 : step os {| disk := s; waiting := [(1, t1); (2, t2)];
                          answered := [] |} (Commit 1)
               = {| disk := s1; waiting := [(2, t2)];
                    answered := [(1, Appended p)] |}).
  { unfold step; cbn [disk waiting answered take Nat.eqb]; now rewrite C1. }
  assert (S4 : step os {| disk := s1; waiting := [(2, t2)];
                          answered := [(1, Appended p)] |} (Commit 2)
               = {| disk := s2; waiting := [];
                    answered := [(1, Appended p); (2, Appended p)] |}).
  { unfold step; cbn [disk waiting answered take Nat.eqb]; now rewrite C2. }
  unfold run; cbn [fold_left]; rewrite S1, S2, S3, S4; cbn [disk answered].
  eexists; split; [reflexivity|]. split; [exact L4|].
  cbn [name listed decodable text].
  split; [now rewrite !append_assoc|].
  split; [reflexivity|]. split; [reflexivity|].
  intros H1 H2; unfold rows_of, nd0; cbn [decodable text].
  change (EmptyString ++ h) with h.
  pose proof (allowed_one_line (strip n) cols A) as Hc.
  destruct (csv_line_split _ Hc) as [lh [Hlh Eh]].
  destruct (csv_line_split _ H1) as [l1 [Hl1 E1]].
  destruct (csv_line_split _ H2) as [l2 [Hl2 E2]].
  fold h in Eh; fold r1 in E1; fold r2 in E2.
  rewrite Eh, E1, E2, !append_assoc.
  rewrite (count_lines_text lh _ false Hlh).
  rewrite (count_lines_text l1 _ false Hl1).
  rewrite (count_lines_text lh _ false Hlh).
  replace (l2 ++ CRLF) with (l2 ++ CRLF ++ "") by reflexivity.
  rewrite (count_lines_text l2 _ false Hl2).
  reflexivity.
Qed.

Lemma race_writes_header_twice_witness :
  exists nd,
    lookup_file "data/meeting_notes.csv"
      (disk
         (run plain_os (started [])
            [Arrive 1 "2024-01-01T00:00:00"
               (JsonBody (inr (PyDict [("csv_name", PyStr "meeting_notes");
                                       ("row", PyDict [("title", PyStr "one")])])));
             Arrive 2 "2024-01-01T00:00:00"
               (JsonBody (inr (PyDict [("csv_name", PyStr "meeting_notes");
                                       ("row", PyDict [("title", PyStr "two")])])));
             Commit 1; Commit 2]))
    = Some nd
    /\ text nd
       = csv_line ["date"; "title"; "attendees"; "project"; "agenda"; "decisions";
                   "actions"; "owner"; "next_meeting"; "_ts"]
         ++ csv_line [""; "one"; ""; ""; ""; ""; ""; ""; ""; "2024-01-01T00:00:00"]
         ++ csv_line ["date"; "title"; "attendees"; "project"; "agenda";
                      "decisions"; "actions"; "owner"; "next_meeting"; "_ts"]
         ++ csv_line [""; "two"; ""; ""; ""; ""; ""; ""; ""; "2024-01-01T00:00:00"]
    /\ rows_of nd = Some 3%Z.
Proof.
  destruct (race_writes_header_twice plain_os
              "2024-01-01T00:00:00" "2024-01-01T00:00:00" []
              "meeting_notes" "meeting_notes"
              ["date"; "title"; "attendees"; "project"; "agenda"; "decisions";
               "actions"; "owner"; "next_meeting"]
              [("title", PyStr "one")] [("title", PyStr "two")]
              eq_refl eq_refl eq_refl eq_refl eq_refl)
    as [nd [_ [L [T [_ [_ R]]]]]].
  exists nd; split; [exact L|]. split; [exact T|].
  apply R; repeat constructor.
Defined.

End FilesFacts.
